(** * pi5Array: synchronized multi-camera capture

    A shallow embedding of the clock synchronisation client
    ([shared/ntp_sync.py]), the fleet registry and capture dispatcher
    ([master_controller/camera_manager.py]) and the device-side capture
    handler ([camera_node/node_server.py]).

    Modelling conventions.
    - Python floats that hold timestamps are rationals ([Q]).  Sums and
      differences of two timestamps (clock readings, offsets, heartbeat
      times) are taken exactly where the code compares or stores them.
      Where a clock reading is combined with a number of another magnitude,
      the arithmetic is that of binary64, rounding to nearest as the
      hardware does ([Float64.round_double]): the product
      [time.time() * 1000] of [generate_session_id], and in
      [schedule_capture] the reading [current_time] and the sum
      [current_time + delay_seconds].
    - [time.time()] reads the [wall] field of the world; the wall clock only
      moves at suspension points ([await], blocking socket calls), by however
      much the environment decides.
    - Network peers are oracles collected in an environment record; every
      request that leaves the process is appended to the world's [io_log].
      The environment also holds the calendar of the machine:
      [datetime.fromtimestamp], which raises for timestamps it cannot
      convert, and [strftime].
    - A coroutine is run from one suspension point to the next without other
      handlers mutating the registry in between.
    - Log lines are left out, except for what their arguments can raise:
      [format_time] is called where the source calls it.  JSON fields that
      are present have the type the protocol gives them.
    - A Python [dict] is an insertion-ordered association list. *)

From Stdlib Require Import List ZArith QArith Qround Qabs Qpower Bool Ascii String.
From Stdlib Require Import Lia Lqa.
From Stdlib Require Import DecimalString DecimalZ FinFun.
Import ListNotations.

Local Open Scope string_scope.
Local Open Scope list_scope.
Local Open Scope Z_scope.
Local Open Scope Q_scope.

(* ------------------------------------------------------------------ *)
(** ** Python dictionaries *)

Module PyDict.

Class KeyEq (K : Type) := {
  keqb : K -> K -> bool;
  keqb_spec : forall a b, reflect (a = b) (keqb a b)
}.

#[export] Instance KeyEq_Z : KeyEq Z :=
  {| keqb := Z.eqb; keqb_spec := Z.eqb_spec |}.

#[export] Instance KeyEq_string : KeyEq string :=
  {| keqb := String.eqb; keqb_spec := String.eqb_spec |}.

Definition dict (K V : Type) := list (K * V).

(** [d.get(k)] / [d[k]] *)
Fixpoint dict_get {K V} `{KeyEq K} (k : K) (d : dict K V) : option V :=
  match d with
  | [] => None
  | (k', v) :: rest => if keqb k k' then Some v else dict_get k rest
  end.

(** [k in d] *)
Definition dict_mem {K V} `{KeyEq K} (k : K) (d : dict K V) : bool :=
  match dict_get k d with Some _ => true | None => false end.

(** [d[k] = v]: an existing key keeps its position, a new key goes last. *)
Fixpoint dict_set {K V} `{KeyEq K} (k : K) (v : V) (d : dict K V) : dict K V :=
  match d with
  | [] => [(k, v)]
  | (k', v') :: rest =>
      if keqb k k' then (k', v) :: rest else (k', v') :: dict_set k v rest
  end.

(** [del d[k]], used under the guard [k in d]: no entry for [k] is left. *)
Definition dict_del {K V} `{KeyEq K} (k : K) (d : dict K V) : dict K V :=
  filter (fun kv => negb (keqb k (fst kv))) d.

Definition keys {K V} (d : dict K V) : list K := map fst d.
Definition values {K V} (d : dict K V) : list V := map snd d.

End PyDict.
Import PyDict.

(* ------------------------------------------------------------------ *)
(** ** Calls that may raise *)

(** What a call gives back: the value returned, or the exception raised,
    known by its message ([str(e)]). *)
Inductive outcome (A : Type) :=
| Returned (a : A)
| Raised (exc : string).

Arguments Returned {A} a.
Arguments Raised {A} exc.

(* ------------------------------------------------------------------ *)
(** ** Binary floating point *)

Module Float64.

(** The exponent [E] of the binade of [x > 0]: [2^E <= x < 2^(E+1)]. *)
Definition binade (x : Q) : Z :=
  let k := (Z.log2 (Qnum x) - Z.log2 (Z.pos (Qden x)))%Z in
  if Qle_bool (2 ^ k) x then k else (k - 1)%Z.

(** The exponent of the unit in the last place of the doubles around
    [x > 0]: 53 significant bits, and no finer than [2^-1074]. *)
Definition ulp_exponent (x : Q) : Z := Z.max (binade x - 52) (-1074).

(** The integer nearest to [x], the even one of two equally near. *)
Definition round_half_even (x : Q) : Z :=
  let f := Qfloor x in
  match Qcompare (x - inject_Z f) (1 # 2) with
  | Lt => f
  | Gt => (f + 1)%Z
  | Eq => if Z.even f then f else (f + 1)%Z
  end.

(** The multiple of the unit in the last place nearest to [x > 0]. *)
Definition round_pos (x : Q) : Q :=
  let u := 2 ^ ulp_exponent x in
  inject_Z (round_half_even (x / u)) * u.

Definition round_raw (x : Q) : Q :=
  match Qcompare x 0 with
  | Eq => 0
  | Gt => round_pos x
  | Lt => - round_pos (- x)
  end.

(** The binary64 value of the real number [x] under round-to-nearest,
    ties to even; [None] when the result is an infinity. *)
Definition round_double (x : Q) : option Q :=
  let r := round_raw x in
  if Qle_bool (2 ^ 1024) (Qabs r) then None else Some r.

End Float64.
Import Float64.

(* ------------------------------------------------------------------ *)
(** ** The outside world *)

(** Comparisons on timestamps. *)
Definition Qltb (a b : Q) : bool := negb (Qle_bool b a).
Definition Qgtb (a b : Q) : bool := Qltb b a.

Record CaptureData := {
  cd_capture_time : Q;
  cd_session_id : string;
  cd_delay_seconds : Q
}.

(** Requests leaving the process. *)
Inductive io_event :=
| IoNtpQuery (server : string)
| IoGetReady (ip : string) (port : Z)
| IoPostCapture (ip : string) (port : Z) (data : CaptureData).

Record World := {
  wall : Q;                 (* what [time.time()] returns now *)
  io_log : list io_event    (* requests sent so far, oldest first *)
}.

Definition emit (e : io_event) (w : World) : World :=
  {| wall := wall w; io_log := io_log w ++ [e] |}.

Definition at_time (t : Q) (w : World) : World :=
  {| wall := t; io_log := io_log w |}.

(** Outcome of the UDP exchange of [get_ntp_time]: any exception, or the
    datagram returned by [recvfrom(48)]. *)
Inductive udp_outcome :=
| UdpError
| UdpReply (response : list Byte.byte).

(** Outcome of [GET /ready]: an exception (timeout, refused connection,
    undecodable body), or the status code with the body's [ready] field. *)
Inductive ready_outcome :=
| ReadyError
| ReadyResponse (http_status : Z) (ready_field : option bool).

(** Outcome of [POST /capture], likewise with the body's [success] field. *)
Inductive post_outcome :=
| PostError
| PostResponse (http_status : Z) (success_field : option bool).

(** A [datetime] object. *)
Record DateTime := {
  dt_year : Z; dt_month : Z; dt_day : Z;
  dt_hour : Z; dt_minute : Z; dt_second : Z; dt_microsecond : Z
}.

(** The peers and the calendar.  Each network oracle gets the wall-clock
    time at which the request starts and says what comes back and at which
    wall-clock time; the host of a request is the text the URL is built
    with.  [fromtimestamp] is [datetime.fromtimestamp]: the local calendar
    time of a timestamp, or the exception ([ValueError], [OverflowError],
    [OSError]) for one that is out of range; [strftime] is
    [datetime.strftime]. *)
Record Env := {
  udp_exchange : string -> Q -> udp_outcome * Q;
  http_get_ready : string -> Z -> Q -> ready_outcome * Q;
  http_post_capture : string -> Z -> CaptureData -> Q -> post_outcome * Q;
  fromtimestamp : Q -> outcome DateTime;
  strftime : DateTime -> string -> string
}.

(** [s[:-n]] *)
Definition drop_last (n : nat) (s : string) : string :=
  substring 0 (String.length s - n) s.

(* ------------------------------------------------------------------ *)
(** ** shared/ntp_sync.py *)

Module NtpSync.

Record NTPClient := {
  servers : list string;
  time_offset : Q;
  last_sync : Q
}.

Definition default_servers : list string :=
  ["pool.ntp.org"; "time.nist.gov"; "time.google.com"; "cn.pool.ntp.org"].

(** [NTPClient.__init__] *)
Definition new_client (srv : option (list string)) : NTPClient :=
  {| servers := match srv with
                | Some (s :: l) => s :: l
                | _ => default_servers      (* [servers or [...]] *)
                end;
     time_offset := 0;
     last_sync := 0 |}.

Definition byte_val (b : Byte.byte) : Z := Z.of_N (Byte.to_N b).

(** [struct.unpack("!I", response[40:44])[0]]; a slice shorter than four
    bytes raises [struct.error]. *)
Definition unpack_timestamp (response : list Byte.byte) : option Z :=
  match firstn 4 (skipn 40 response) with
  | [b0; b1; b2; b3] =>
      Some (Z.lor (Z.shiftl (byte_val b0) 24)
           (Z.lor (Z.shiftl (byte_val b1) 16)
           (Z.lor (Z.shiftl (byte_val b2) 8) (byte_val b3))))
  | _ => None
  end.

(** [NTPClient.get_ntp_time]: every exception is caught and gives [None]. *)
Definition get_ntp_time (env : Env) (server : string) (w : World)
  : option Q * World :=
  let '(r, t') := udp_exchange env server (wall w) in
  let w' := at_time t' (emit (IoNtpQuery server) w) in
  match r with
  | UdpError => (None, w')
  | UdpReply response =>
      match unpack_timestamp response with
      | None => (None, w')
      | Some timestamp => (Some (inject_Z (timestamp - 2208988800)), w')
      end
  end.

(** Truth value of an [Optional[float]]: [None] and [0.0] are false. *)
Definition truthy_time (t : option Q) : bool :=
  match t with
  | None => false
  | Some x => negb (Qeq_bool x 0)
  end.

(** The [for server in self.servers] loop of [sync_time]. *)
Fixpoint sync_servers (env : Env) (srvs : list string) (c : NTPClient)
  (w : World) : bool * NTPClient * World :=
  match srvs with
  | [] => (false, c, w)
  | server :: rest =>
      let '(ntp_time, w1) := get_ntp_time env server w in
      match ntp_time with
      | Some t =>
          if truthy_time ntp_time then
            let local_time := wall w1 in
            (true,
             {| servers := servers c;
                time_offset := t - local_time;
                last_sync := local_time |},
             w1)
          else sync_servers env rest c w1
      | None => sync_servers env rest c w1
      end
  end.

(** [NTPClient.sync_time] *)
Definition sync_time (env : Env) (c : NTPClient) (w : World)
  : bool * NTPClient * World :=
  sync_servers env (servers c) c w.

(** [NTPClient.get_synchronized_time] *)
Definition get_synchronized_time (c : NTPClient) (w : World) : Q :=
  wall w + time_offset c.

(** [NTPClient.is_synchronized] *)
Definition is_synchronized (c : NTPClient) (w : World) (max_age : Q) : bool :=
  if Qeq_bool (last_sync c) 0 then false
  else Qltb (wall w - last_sync c) max_age.

(** [NTPClient.format_time], called with a timestamp. *)
Definition format_time (env : Env) (timestamp : Q) : outcome string :=
  match fromtimestamp env timestamp with
  | Returned dt =>
      Returned (drop_last 3 (strftime env dt "%Y-%m-%d %H:%M:%S.%f"))
  | Raised exc => Raised exc
  end.

(** [ScheduledCapture.schedule_capture]; [max_age] takes its default.
    [current_time] is the double that the float sum of
    [get_synchronized_time] gives, and [capture_time] the double that the
    float sum with the delay gives.  When either is an infinity,
    [format_time] raises [OverflowError] in the log line, as it raises for
    every capture time that the calendar cannot convert. *)
Definition schedule_capture (env : Env) (c : NTPClient) (w : World)
  (session_id : string) (delay_seconds : Q)
  : outcome Q * NTPClient * World :=
  let '(c1, w1) :=
    if negb (is_synchronized c w 300) then
      let '(_, c', w') := sync_time env c w in (c', w')
    else (c, w) in
  match round_double (get_synchronized_time c1 w1) with
  | None => (Raised "timestamp out of range for platform time_t", c1, w1)
  | Some current_time =>
      match round_double (current_time + delay_seconds) with
      | None => (Raised "timestamp out of range for platform time_t", c1, w1)
      | Some capture_time =>
          match format_time env capture_time with
          | Returned _ => (Returned capture_time, c1, w1)
          | Raised exc => (Raised exc, c1, w1)
          end
      end
  end.

(** [int(x)] on a float: truncation towards zero. *)
Definition py_int (x : Q) : Z := Z.quot (Qnum x) (Z.pos (Qden x)).

Definition string_of_Z (z : Z) : string :=
  NilEmpty.string_of_int (Z.to_int z).

(** [ScheduledCapture.generate_session_id]; the product is a float product,
    and [int] of an infinity raises [OverflowError]. *)
Definition generate_session_id (w : World) : outcome string :=
  match round_double (wall w * 1000) with
  | None => Raised "cannot convert float infinity to integer"
  | Some product =>
      let timestamp := py_int product in
      Returned (String.append "capture_" (string_of_Z timestamp))
  end.

(** [f"{node_id:02d}"] *)
Definition format_02d (node_id : Z) : string :=
  if (0 <=? node_id)%Z && (node_id <? 10)%Z
  then String.append "0" (string_of_Z node_id)
  else string_of_Z node_id.

(** [ScheduledCapture.generate_filename]; a device that has no number yet
    has [node_id = None], which the format [02d] does not accept. *)
Definition generate_filename (env : Env) (node_id : option Z)
  (capture_time : Q) : outcome string :=
  match fromtimestamp env capture_time with
  | Raised exc => Raised exc
  | Returned dt =>
      let time_str := drop_last 3 (strftime env dt "%Y%m%d_%H%M%S_%f") in
      match node_id with
      | None =>
          Raised "unsupported format string passed to NoneType.__format__"
      | Some id =>
          Returned (String.append time_str
                      (String.append "-node"
                         (String.append (format_02d id) ".jpg")))
      end
  end.

(** What an [await asyncio.sleep(d)] leaves behind: the wall clock has moved
    and the periodic re-synchronisation task may have replaced the offset.
    The [n]-th suspension of a wait is described by [sleep n d]. *)
Definition Sleeper := nat -> Q -> NTPClient * World -> NTPClient * World.

Inductive wait_event :=
| EvSleep (seen : Q) (duration : Q)   (* clock reading, requested sleep *)
| EvFire (seen : Q).                  (* clock reading at the callback *)

(** [ScheduledCapture.wait_for_capture_time].  The [while True] loop runs
    under a bound on the number of iterations; [None] means the bound was
    hit.  The callback acts on the caller's state [S]. *)
Fixpoint wait_for_capture_time {S : Type} (fuel : nat) (sleep : Sleeper)
  (n : nat) (cw : NTPClient * World) (s : S) (capture_time : Q)
  (callback : option (S -> S))
  : option (list wait_event * (NTPClient * World) * S) :=
  match fuel with
  | O => None
  | Datatypes.S fuel' =>
      let current_time := get_synchronized_time (fst cw) (snd cw) in
      let time_diff := capture_time - current_time in
      if Qle_bool time_diff 0 then
        match callback with
        | Some cb => Some ([EvFire current_time], cw, cb s)
        | None => Some ([], cw, s)
        end
      else
        let d := if Qgtb time_diff 1 then 1 else time_diff in
        match wait_for_capture_time fuel' sleep (Datatypes.S n)
                (sleep n d cw) s capture_time callback with
        | Some (tr, cw', s') => Some (EvSleep current_time d :: tr, cw', s')
        | None => None
        end
  end.

End NtpSync.

(* ------------------------------------------------------------------ *)
(** ** master_controller/camera_manager.py *)

Module Manager.
Import NtpSync.

Definition Capabilities := dict string bool.

Record CameraNode := {
  node_id : Z;
  ip_address : option string;    (* [None] when announced without one *)
  node_port : Z;
  status : string;          (* offline, online, ready, capturing, error *)
  last_heartbeat : Q;
  is_ready : bool;
  capabilities : Capabilities
}.

Record CameraManager := {
  nodes : dict Z CameraNode;
  current_preview_node : option Z;
  running : bool;
  next_node_id : Z
}.

(** [CameraManager.__init__] *)
Definition new_manager : CameraManager :=
  {| nodes := []; current_preview_node := None; running := false;
     next_node_id := 1 |}.

Definition with_nodes (m : CameraManager) (d : dict Z CameraNode) :=
  {| nodes := d; current_preview_node := current_preview_node m;
     running := running m; next_node_id := next_node_id m |}.

Definition with_preview (m : CameraManager) (p : option Z) :=
  {| nodes := nodes m; current_preview_node := p;
     running := running m; next_node_id := next_node_id m |}.

Definition with_next_id (m : CameraManager) (n : Z) :=
  {| nodes := nodes m; current_preview_node := current_preview_node m;
     running := running m; next_node_id := n |}.

Definition with_running (m : CameraManager) (b : bool) :=
  {| nodes := nodes m; current_preview_node := current_preview_node m;
     running := b; next_node_id := next_node_id m |}.

(** [node.status = s; node.is_ready = r] *)
Definition set_status_ready (n : CameraNode) (s : string) (r : bool) :=
  {| node_id := node_id n; ip_address := ip_address n;
     node_port := node_port n; status := s;
     last_heartbeat := last_heartbeat n; is_ready := r;
     capabilities := capabilities n |}.

Definition set_ready (n : CameraNode) (r : bool) :=
  set_status_ready n (status n) r.

(** The JSON body a device posts to the registry.  Absent keys are [None];
    [node_id], where a handler reads it, is an integer. *)
Record NodeData := {
  nd_node_id : Z;
  nd_local_ip : option string;
  nd_node_port : option Z;
  nd_capabilities : option Capabilities;
  nd_is_ready : option bool
}.

Definition get_default {A} (o : option A) (d : A) : A :=
  match o with Some a => a | None => d end.

Definition is_online (n : CameraNode) : bool := String.eqb (status n) "online".
Definition is_offline (n : CameraNode) : bool := String.eqb (status n) "offline".

(** The [while self.next_node_id in self.nodes] loop, cut off after [fuel]
    tests. *)
Fixpoint allocate_scan (fuel : nat) (d : dict Z CameraNode) (next : Z)
  : option Z :=
  match fuel with
  | O => None
  | S fuel' =>
      if dict_mem next d then allocate_scan fuel' d (next + 1)%Z
      else Some next
  end.

(** [CameraManager.allocate_node_id].  The loop can pass over at most
    [len(self.nodes)] keys, which is the bound given to [allocate_scan]. *)
Definition allocate_node_id (m : CameraManager) : option (Z * CameraManager) :=
  match allocate_scan (S (List.length (nodes m))) (nodes m) (next_node_id m) with
  | Some allocated_id => Some (allocated_id, with_next_id m (allocated_id + 1)%Z)
  | None => None
  end.

Inductive RegisterResult :=
| RegisterOk (node_id : Z)
| RegisterError (error : string).

Definition truthy_string (s : option string) : bool :=
  match s with
  | None => false
  | Some x => negb (String.eqb x "")
  end.

(** [CameraManager.register_node]; [None] only if the id scan is cut off. *)
Definition register_node (now : Q) (m : CameraManager) (node_data : NodeData)
  : option (RegisterResult * CameraManager) :=
  match nd_local_ip node_data with
  | Some local_ip =>
      if truthy_string (nd_local_ip node_data) then
        match allocate_node_id m with
        | None => None
        | Some (id, m1) =>
            let node :=
              {| node_id := id;
                 ip_address := Some local_ip;
                 node_port := get_default (nd_node_port node_data) 8084%Z;
                 status := "online";
                 last_heartbeat := now;
                 is_ready := false;
                 capabilities := get_default (nd_capabilities node_data) [] |} in
            let m2 := with_nodes m1 (dict_set id node (nodes m1)) in
            let m3 := match current_preview_node m2 with
                      | None => with_preview m2 (Some id)
                      | Some _ => m2
                      end in
            Some (RegisterOk id, m3)
        end
      else Some (RegisterError "缺少节点IP地址", m)
  | None => Some (RegisterError "缺少节点IP地址", m)
  end.

(** [CameraManager.node_online]; [local_ip] is stored as
    [node_data.get("local_ip")] gives it, [None] when the key is missing. *)
Definition node_online (now : Q) (m : CameraManager) (node_data : NodeData)
  : bool * CameraManager :=
  let id := nd_node_id node_data in
  let local_ip := nd_local_ip node_data in
  let port := get_default (nd_node_port node_data) 8084%Z in
  let caps := get_default (nd_capabilities node_data) [] in
  match dict_get id (nodes m) with
  | Some node =>
      let node' :=
        {| node_id := node_id node; ip_address := local_ip;
           node_port := port; status := "online";
           last_heartbeat := now; is_ready := is_ready node;
           capabilities := caps |} in
      (true, with_nodes m (dict_set id node' (nodes m)))
  | None =>
      let node :=
        {| node_id := id; ip_address := local_ip; node_port := port;
           status := "online"; last_heartbeat := now; is_ready := false;
           capabilities := caps |} in
      (true, with_nodes m (dict_set id node (nodes m)))
  end.

(** [CameraManager.switch_to_next_online_node] *)
Definition switch_to_next_online_node (m : CameraManager) : CameraManager :=
  match find (fun kv => is_online (snd kv)) (nodes m) with
  | Some (id, _) => with_preview m (Some id)
  | None => with_preview m None
  end.

Definition preview_is (m : CameraManager) (id : Z) : bool :=
  match current_preview_node m with
  | Some p => Z.eqb p id
  | None => false
  end.

(** [CameraManager.node_offline]; the returned boolean is the [success]
    field of the reply. *)
Definition node_offline (m : CameraManager) (node_data : NodeData)
  : bool * CameraManager :=
  let id := nd_node_id node_data in
  match dict_get id (nodes m) with
  | Some node =>
      let m1 := with_nodes m
                  (dict_set id (set_status_ready node "offline" false) (nodes m)) in
      let m2 := if preview_is m1 id then switch_to_next_online_node m1 else m1 in
      (true, m2)
  | None => (true, m)
  end.

(** [CameraManager.update_heartbeat] *)
Definition update_heartbeat (now : Q) (m : CameraManager)
  (heartbeat_data : NodeData) : CameraManager :=
  let id := nd_node_id heartbeat_data in
  let ready := get_default (nd_is_ready heartbeat_data) false in
  match dict_get id (nodes m) with
  | Some node =>
      let node' :=
        {| node_id := node_id node; ip_address := ip_address node;
           node_port := node_port node;
           status := if is_offline node then "online" else status node;
           last_heartbeat := now; is_ready := ready;
           capabilities := capabilities node |} in
      with_nodes m (dict_set id node' (nodes m))
  | None => m
  end.

(** Does the monitor take this node offline at [current_time]? *)
Definition timed_out (current_time : Q) (node : CameraNode) : bool :=
  Qgtb (current_time - last_heartbeat node) 30 && negb (is_offline node).

(** The [for node in self.nodes.values()] loop of [heartbeat_monitor]:
    [seen] are the entries already visited, [todo] the ones still to come;
    the dictionary at any moment is [seen ++ todo]. *)
Fixpoint monitor_scan (current_time : Q) (seen todo : dict Z CameraNode)
  (m : CameraManager) : CameraManager :=
  match todo with
  | [] => with_nodes m seen
  | (k, node) :: rest =>
      if timed_out current_time node then
        let node' := set_status_ready node "offline" false in
        let m1 := with_nodes m (seen ++ (k, node') :: rest) in
        let m2 := if preview_is m1 (node_id node)
                  then switch_to_next_online_node m1 else m1 in
        monitor_scan current_time (seen ++ [(k, node')]) rest m2
      else
        monitor_scan current_time (seen ++ [(k, node)]) rest m
  end.

(** One pass of the body of [while self.running] in [heartbeat_monitor]. *)
Definition heartbeat_monitor_tick (current_time : Q) (m : CameraManager)
  : CameraManager :=
  monitor_scan current_time [] (nodes m) m.

(** [heartbeat_monitor] woken at the wall-clock times [ticks]. *)
Fixpoint heartbeat_monitor (ticks : list Q) (m : CameraManager)
  : CameraManager :=
  match ticks with
  | [] => m
  | t :: rest =>
      if running m then heartbeat_monitor rest (heartbeat_monitor_tick t m)
      else m
  end.

(** [CameraManager.switch_preview_camera] *)
Definition switch_preview_camera (m : CameraManager) (id : Z)
  : bool * CameraManager :=
  match dict_get id (nodes m) with
  | Some node =>
      if is_online node then (true, with_preview m (Some id)) else (false, m)
  | None => (false, m)
  end.

(** [f"{node.ip_address}"] in a URL: the address, or the word [None]. *)
Definition host_of (ip : option string) : string :=
  match ip with
  | Some address => address
  | None => "None"
  end.

(** [CameraManager.check_node_ready]: every exception of the probe is
    caught and reads as not ready. *)
Definition check_node_ready (env : Env) (m : CameraManager) (id : Z)
  (w : World) : bool * World :=
  match dict_get id (nodes m) with
  | None => (false, w)
  | Some node =>
      if negb (is_online node) then (false, w)
      else
        let host := host_of (ip_address node) in
        let '(r, t') := http_get_ready env host (node_port node) (wall w) in
        let w' := at_time t' (emit (IoGetReady host (node_port node)) w) in
        match r with
        | ReadyError => (false, w')
        | ReadyResponse st ready =>
            if Z.eqb st 200 then (get_default ready false, w')
            else (false, w')
        end
  end.

(** The loop of [check_all_nodes_ready] over [self.nodes.values()], with
    the visited entries in [seen] as in [monitor_scan]. *)
Fixpoint ready_scan (env : Env) (seen todo : dict Z CameraNode)
  (m : CameraManager) (ready_status : dict Z bool) (w : World)
  : dict Z bool * CameraManager * World :=
  match todo with
  | [] => (ready_status, with_nodes m seen, w)
  | (k, node) :: rest =>
      if is_online node then
        let '(r, w1) :=
          check_node_ready env (with_nodes m (seen ++ (k, node) :: rest))
            (node_id node) w in
        ready_scan env (seen ++ [(k, set_ready node r)]) rest m
          (dict_set (node_id node) r ready_status) w1
      else
        ready_scan env (seen ++ [(k, set_ready node false)]) rest m
          (dict_set (node_id node) false ready_status) w
  end.

(** [CameraManager.check_all_nodes_ready] *)
Definition check_all_nodes_ready (env : Env) (m : CameraManager) (w : World)
  : dict Z bool * CameraManager * World :=
  ready_scan env [] (nodes m) m [] w.

(** [CameraManager.send_capture_command] *)
Definition send_capture_command (env : Env) (m : CameraManager) (id : Z)
  (command : CaptureData) (w : World) : bool * World :=
  match dict_get id (nodes m) with
  | None => (false, w)
  | Some node =>
      let host := host_of (ip_address node) in
      let '(r, t') :=
        http_post_capture env host (node_port node) command (wall w) in
      let w' := at_time t'
                  (emit (IoPostCapture host (node_port node) command) w) in
      match r with
      | PostError => (false, w')
      | PostResponse st success =>
          if Z.eqb st 200 then (get_default success false, w')
          else (false, w')
      end
  end.

(** What [trigger_scheduled_capture] gives back: one of its two reply
    dictionaries, or an exception that leaves the call. *)
Inductive TriggerResult :=
| TriggerFailure (error : string) (ready_status : dict Z bool)
| TriggerSuccess (session_id : string) (capture_time : Q)
    (ready_nodes : list Z) (send_results : dict Z bool)
    (capture_time_formatted : string)
| TriggerRaised (exc : string).

(** [[node_id for node_id, ready in ready_status.items() if ready]] *)
Definition ready_nodes_of (ready_status : dict Z bool) : list Z :=
  map fst (filter snd ready_status).

(** The [for node_id in ready_nodes] loop of [trigger_scheduled_capture]. *)
Fixpoint send_all (env : Env) (m : CameraManager) (command : CaptureData)
  (ready_nodes : list Z) (send_results : dict Z bool) (w : World)
  : dict Z bool * World :=
  match ready_nodes with
  | [] => (send_results, w)
  | id :: rest =>
      let '(success, w1) := send_capture_command env m id command w in
      send_all env m command rest (dict_set id success send_results) w1
  end.

(** [CameraManager.trigger_scheduled_capture].  [generate_session_id] and
    [schedule_capture] are called outside any [try], and so is the
    [format_time] of the success reply, after the sends. *)
Definition trigger_scheduled_capture (env : Env) (c : NTPClient)
  (m : CameraManager) (w : World) (delay_seconds : Q)
  : TriggerResult * NTPClient * CameraManager * World :=
  let '(ready_status, m1, w1) := check_all_nodes_ready env m w in
  let ready_nodes := ready_nodes_of ready_status in
  match ready_nodes with
  | [] => (TriggerFailure "没有就绪的摄像头节点" ready_status, c, m1, w1)
  | _ :: _ =>
      match generate_session_id w1 with
      | Raised exc => (TriggerRaised exc, c, m1, w1)
      | Returned session_id =>
          let '(scheduled, c1, w2) :=
            schedule_capture env c w1 session_id delay_seconds in
          match scheduled with
          | Raised exc => (TriggerRaised exc, c1, m1, w2)
          | Returned capture_time =>
              let command :=
                {| cd_capture_time := capture_time;
                   cd_session_id := session_id;
                   cd_delay_seconds := delay_seconds |} in
              let '(send_results, w3) :=
                send_all env m1 command ready_nodes [] w2 in
              match format_time env capture_time with
              | Raised exc => (TriggerRaised exc, c1, m1, w3)
              | Returned formatted =>
                  (TriggerSuccess session_id capture_time ready_nodes
                     send_results formatted,
                   c1, m1, w3)
              end
          end
      end
  end.

(** [CameraManager.get_current_preview_node] *)
Definition get_current_preview_node (m : CameraManager) : option Z :=
  current_preview_node m.

(** [CameraManager.get_online_node_count] *)
Definition get_online_node_count (m : CameraManager) : nat :=
  List.length (filter is_online (values (nodes m))).

(** [CameraManager.get_ready_node_count] *)
Definition get_ready_node_count (m : CameraManager) : nat :=
  List.length (filter is_ready (values (nodes m))).

(** [CameraManager.get_node_list]: one entry per node, in the order of
    [self.nodes.values()], with the seven fields of the record. *)
Definition get_node_list (m : CameraManager) : list CameraNode :=
  map (fun node =>
         {| node_id := node_id node; ip_address := ip_address node;
            node_port := node_port node; status := status node;
            last_heartbeat := last_heartbeat node; is_ready := is_ready node;
            capabilities := capabilities node |})
    (values (nodes m)).


End Manager.

(* ------------------------------------------------------------------ *)
(** ** camera_node/node_server.py *)

Module Node.
Import NtpSync.

(** The body of [POST /capture] as the handler reads it with [data.get]. *)
Record CaptureRequest := {
  rq_capture_time : option Q;
  rq_session_id : option string
}.

(** A scheduled task is known by the arguments of its coroutine. *)
Definition Task := (Q * string)%type.

Record NodeServer := {
  config_node_id : option Z;             (* [None] until a number is given *)
  initialized : bool;                    (* [camera_handler.initialized] *)
  scheduled_captures : dict string Task;
  images : list string;                  (* files written by the camera *)
  uploads : list (string * bool)         (* upload attempts: name, ok *)
}.

(** What [await request.json()] gives: an exception or the decoded body. *)
Inductive RequestBody :=
| BadJson (exc : string)
| JsonBody (data : CaptureRequest).

Definition with_captures (ns : NodeServer) (d : dict string Task) :=
  {| config_node_id := config_node_id ns; initialized := initialized ns;
     scheduled_captures := d; images := images ns; uploads := uploads ns |}.

Inductive upload_outcome :=
| UploadError
| UploadResponse (http_status : Z) (success_field : option bool).

(** The camera and the upload endpoint. *)
Record Device := {
  camera_capture : string -> option string;   (* [None]: capture failed *)
  upload_image : string -> string -> upload_outcome
}.

Inductive CaptureResponse :=
| Accepted (session_id : string) (capture_time : Q) (node_id : option Z)
| Rejected (http_status : Z) (error : string).

Definition response_status (r : CaptureResponse) : Z :=
  match r with
  | Accepted _ _ _ => 200
  | Rejected st _ => st
  end.

Definition response_success (r : CaptureResponse) : bool :=
  match r with
  | Accepted _ _ _ => true
  | Rejected _ _ => false
  end.

(** [CameraHandler.is_ready] *)
Definition is_ready (ns : NodeServer) : bool := initialized ns.

(** [NodeServer.capture_handler].  The third component is the task handed
    to the event loop by [asyncio.create_task]; it starts after the handler
    returns.  The task has been created and filed when the log line formats
    the capture time; an exception there is answered with 500 like one of
    [request.json()]. *)
Definition capture_handler (env : Env) (ns : NodeServer) (body : RequestBody)
  : CaptureResponse * NodeServer * option Task :=
  match body with
  | BadJson exc => (Rejected 500 exc, ns, None)
  | JsonBody data =>
      match rq_capture_time data, rq_session_id data with
      | Some capture_time, Some session_id =>
          if negb (truthy_time (rq_capture_time data))
             || negb (Manager.truthy_string (rq_session_id data))
          then (Rejected 400 "缺少必要参数", ns, None)
          else if negb (is_ready ns)
          then (Rejected 400 "摄像头未就绪", ns, None)
          else
            let task := (capture_time, session_id) in
            let ns' :=
              with_captures ns
                (dict_set session_id task (scheduled_captures ns)) in
            match format_time env capture_time with
            | Returned _ =>
                (Accepted session_id capture_time (config_node_id ns),
                 ns', Some task)
            | Raised exc => (Rejected 500 exc, ns', Some task)
            end
      | _, _ => (Rejected 400 "缺少必要参数", ns, None)
      end
  end.

(** [CameraHandler.capture_image] with the file name given. *)
Definition capture_image (dev : Device) (ns : NodeServer) (filename : string)
  : option string * NodeServer :=
  if negb (initialized ns) then (None, ns)
  else
    match camera_capture dev filename with
    | Some filepath =>
        (Some filepath,
         {| config_node_id := config_node_id ns; initialized := initialized ns;
            scheduled_captures := scheduled_captures ns;
            images := images ns ++ [filepath]; uploads := uploads ns |})
    | None => (None, ns)
    end.

(** [NodeServer.upload_image_to_master]: the outcome is only logged, and
    every exception is caught. *)
Definition upload_image_to_master (dev : Device) (ns : NodeServer)
  (image_path filename : string) : NodeServer :=
  let ok :=
    match upload_image dev image_path filename with
    | UploadError => false
    | UploadResponse st success =>
        Z.eqb st 200 && Manager.get_default success false
    end in
  {| config_node_id := config_node_id ns; initialized := initialized ns;
     scheduled_captures := scheduled_captures ns;
     images := images ns;
     uploads := uploads ns ++ [(filename, ok)] |}.

(** [NodeServer.perform_capture]: an exception of [generate_filename] is
    caught, and nothing is captured. *)
Definition perform_capture (env : Env) (dev : Device) (session_id : string)
  (capture_time : Q) (ns : NodeServer) : NodeServer :=
  match generate_filename env (config_node_id ns) capture_time with
  | Raised _ => ns
  | Returned filename =>
      let '(image_path, ns1) := capture_image dev ns filename in
      match image_path with
      | Some p =>
          if Manager.truthy_string image_path
          then upload_image_to_master dev ns1 p filename
          else ns1
      | None => ns1
      end
  end.

(** [NodeServer.execute_scheduled_capture]; [None] when the wait loop is cut
    off by [fuel]. *)
Definition execute_scheduled_capture (fuel : nat) (sleep : Sleeper)
  (env : Env) (dev : Device) (cw : NTPClient * World) (ns : NodeServer)
  (capture_time : Q) (session_id : string)
  : option (list wait_event * (NTPClient * World) * NodeServer) :=
  match wait_for_capture_time fuel sleep 0 cw ns capture_time
          (Some (perform_capture env dev session_id capture_time)) with
  | None => None
  | Some (tr, cw', ns') =>
      let ns'' :=
        if dict_mem session_id (scheduled_captures ns')
        then with_captures ns' (dict_del session_id (scheduled_captures ns'))
        else ns' in
      Some (tr, cw', ns'')
  end.

(** The [scheduled_captures] field of the reply of
    [NodeServer.status_handler]: [len(self.scheduled_captures)]. *)
Definition status_scheduled_captures (ns : NodeServer) : nat :=
  List.length (scheduled_captures ns).

End Node.


(* ------------------------------------------------------------------ *)
(** ** master_controller/web_server.py *)

Module WebServer.
Import Manager.

(** Reply of [POST /api/switch_camera]. *)
Record SwitchResponse := {
  sw_status : Z;
  sw_success : bool;
  sw_current_node : option Z
}.

(** [WebServer.switch_camera_handler]; [node_id] is [data.get('node_id')].
    The integer 0 is false in Python, like a missing key. *)
Definition switch_camera_handler (m : CameraManager) (node_id : option Z)
  : SwitchResponse * CameraManager :=
  match node_id with
  | Some id =>
      if Z.eqb id 0 then
        ({| sw_status := 400; sw_success := false; sw_current_node := None |},
         m)
      else
        let '(success, m') := switch_preview_camera m id in
        ({| sw_status := 200; sw_success := success;
            sw_current_node := if success then Some id else None |}, m')
  | None =>
      ({| sw_status := 400; sw_success := false; sw_current_node := None |}, m)
  end.

End WebServer.
(* ================================================================== *)
(** * Vocabulary of the specification *)

Module NtpSpec.
Import NtpSync.

(** The world after the sources [srvs] have been asked one after the
    other, starting in [w]. *)
Definition ask_all (env : Env) (srvs : list string) (w : World) : World :=
  fold_left (fun w' s => snd (get_ntp_time env s w')) srvs w.

(** Every source of [srvs], asked in turn from [w], is passed over by
    [sync_time]: the exchange raised, the datagram was too short to decode,
    or the time decoded is 0. *)
Fixpoint all_passed_over (env : Env) (srvs : list string) (w : World) : bool :=
  match srvs with
  | [] => true
  | s :: rest =>
      let '(t, w1) := get_ntp_time env s w in
      negb (truthy_time t) && all_passed_over env rest w1
  end.

(** The value a call returned, if it returned. *)
Definition returned {A : Type} (r : outcome A) : option A :=
  match r with
  | Returned a => Some a
  | Raised _ => None
  end.

(** The reading of the synchronized clock in a client/world pair. *)
Definition now_of (cw : NTPClient * World) : Q :=
  get_synchronized_time (fst cw) (snd cw).

(** A sleep of [d > 0] seconds ends no earlier than [d] seconds later on
    the synchronized clock. *)
Definition sleeps_long_enough (sleep : Sleeper) : Prop :=
  forall n d cw, 0 < d -> now_of cw + d <= now_of (sleep n d cw).

(** From the [first]-th suspension on, a sleep of [d > 0] seconds ends no
    earlier than [d] seconds later on the synchronized clock.  The earlier
    sleeps are free: they may end early, and the re-synchronisation task may
    move the offset either way during them. *)
Definition settles_after (first : nat) (sleep : Sleeper) : Prop :=
  forall n d cw,
    (first <= n)%nat -> 0 < d -> now_of cw + d <= now_of (sleep n d cw).

(** A completed wait for [t] as the loop is described: starting at the
    [n]-th suspension in the state [cw], the events [tr] happen and the
    state [cw'] is left.  The clock is read; if it has reached [t] the
    action fires at that reading and the wait is over; otherwise the wait
    sleeps one second if more than a second is left and what is left if not,
    and goes on from what the sleep leaves behind. *)
Inductive wait_run (sleep : Sleeper) (t : Q)
  : nat -> NTPClient * World -> list wait_event -> NTPClient * World -> Prop :=
| run_fire n cw :
    t <= now_of cw -> wait_run sleep t n cw [EvFire (now_of cw)] cw
| run_coarse n cw tr cw' :
    1 < t - now_of cw ->
    wait_run sleep t (S n) (sleep n 1 cw) tr cw' ->
    wait_run sleep t n cw (EvSleep (now_of cw) 1 :: tr) cw'
| run_fine n cw tr cw' :
    now_of cw < t -> t - now_of cw <= 1 ->
    wait_run sleep t (S n) (sleep n (t - now_of cw) cw) tr cw' ->
    wait_run sleep t n cw (EvSleep (now_of cw) (t - now_of cw) :: tr) cw'.

(** Shape of a completed wait for [t]: one-second sleeps while more than a
    second is left, then at most one sleep of exactly what is left, then the
    callback. *)
Inductive wait_trace (t : Q) : list wait_event -> Prop :=
| wt_fire seen :
    t - seen <= 0 -> wait_trace t [EvFire seen]
| wt_fine seen seen' :
    0 < t - seen -> t - seen <= 1 -> t - seen' <= 0 ->
    wait_trace t [EvSleep seen (t - seen); EvFire seen']
| wt_coarse seen tr :
    1 < t - seen -> wait_trace t tr -> wait_trace t (EvSleep seen 1 :: tr).

Definition is_fire (e : wait_event) : bool :=
  match e with EvFire _ => true | EvSleep _ _ => false end.

(** Number of times the callback ran. *)
Definition fire_count (tr : list wait_event) : nat :=
  List.length (filter is_fire tr).

(** Test data: a 48-byte NTP reply whose transmit timestamp is the Unix
    time [unix_time], and peers answering with it. *)
Definition byte_of_Z (z : Z) : Byte.byte :=
  match Byte.of_N (Z.to_N (z mod 256)) with
  | Some b => b
  | None => Byte.x00
  end.

Definition ntp_reply (unix_time : Z) : list Byte.byte :=
  let ts := (unix_time + 2208988800)%Z in
  repeat Byte.x00 40
  ++ [byte_of_Z (Z.shiftr ts 24); byte_of_Z (Z.shiftr ts 16);
      byte_of_Z (Z.shiftr ts 8); byte_of_Z ts]
  ++ repeat Byte.x00 4.

(** Test data: the calendar of a machine whose local time is UTC.
    [civil_from_days] turns a day count from 1970-01-01 into year, month
    and day of the proleptic Gregorian calendar. *)
Definition civil_from_days (days : Z) : Z * Z * Z :=
  let z := (days + 719468)%Z in
  let era := (z / 146097)%Z in
  let doe := (z - era * 146097)%Z in
  let yoe := ((doe - doe / 1460 + doe / 36524 - doe / 146096) / 365)%Z in
  let doy := (doe - (365 * yoe + yoe / 4 - yoe / 100))%Z in
  let mp := ((5 * doy + 2) / 153)%Z in
  let d := (doy - (153 * mp + 2) / 5 + 1)%Z in
  let m := (if mp <? 10 then mp + 3 else mp - 9)%Z in
  let y := (yoe + era * 400 + (if m <=? 2 then 1 else 0))%Z in
  (y, m, d).

Definition utc_fromtimestamp (t : Q) : outcome DateTime :=
  let us := round_half_even (t * 1000000) in
  let secs := (us / 1000000)%Z in
  let '(y, m, d) := civil_from_days (secs / 86400) in
  let sod := (secs mod 86400)%Z in
  if ((1 <=? y) && (y <=? 9999))%Z then
    Returned {| dt_year := y; dt_month := m; dt_day := d;
                dt_hour := (sod / 3600)%Z;
                dt_minute := ((sod mod 3600) / 60)%Z;
                dt_second := (sod mod 60)%Z;
                dt_microsecond := (us mod 1000000)%Z |}
  else
    Raised (String.append "year "
              (String.append (string_of_Z y) " is out of range")).

(** A number in at least [width] digits. *)
Definition zero_padded (width : nat) (z : Z) : string :=
  let digits := string_of_Z z in
  String.append
    (string_of_list_ascii
       (repeat "0"%char (width - String.length digits)))
    digits.

Definition utc_directive (dt : DateTime) (c : Ascii.ascii) : string :=
  if Ascii.eqb c "Y"%char then string_of_Z (dt_year dt)
  else if Ascii.eqb c "m"%char then zero_padded 2 (dt_month dt)
  else if Ascii.eqb c "d"%char then zero_padded 2 (dt_day dt)
  else if Ascii.eqb c "H"%char then zero_padded 2 (dt_hour dt)
  else if Ascii.eqb c "M"%char then zero_padded 2 (dt_minute dt)
  else if Ascii.eqb c "S"%char then zero_padded 2 (dt_second dt)
  else if Ascii.eqb c "f"%char then zero_padded 6 (dt_microsecond dt)
  else String "%"%char (String c EmptyString).

Fixpoint utc_strftime (dt : DateTime) (fmt : string) : string :=
  match fmt with
  | EmptyString => EmptyString
  | String c rest =>
      if Ascii.eqb c "%"%char then
        match rest with
        | EmptyString => String c EmptyString
        | String d rest' =>
            String.append (utc_directive dt d) (utc_strftime dt rest')
        end
      else String c (utc_strftime dt rest)
  end.

(** A sleeper that wakes exactly on time and leaves the offset alone. *)
Definition punctual : Sleeper :=
  fun _ d cw => (fst cw, at_time (wall (snd cw) + d) (snd cw)).

(** A first scenario: the first source times out after five seconds, the
    second one answers after two more with the Unix time 150. *)
Definition env_second_answers : Env :=
  {| udp_exchange := fun s t =>
       if String.eqb s "pool.ntp.org" then (UdpError, t + 5)
       else (UdpReply (ntp_reply 150), t + 2);
     http_get_ready := fun _ _ t => (ReadyError, t);
     http_post_capture := fun _ _ _ t => (PostError, t);
     fromtimestamp := utc_fromtimestamp;
     strftime := utc_strftime |}.

Definition world_at (t : Q) : World := {| wall := t; io_log := [] |}.

Definition env_unreachable : Env :=
  {| udp_exchange := fun _ t => (UdpError, t + 5);
     http_get_ready := fun _ _ t => (ReadyError, t);
     http_post_capture := fun _ _ _ t => (PostError, t);
     fromtimestamp := utc_fromtimestamp;
     strftime := utc_strftime |}.

Definition client_one_source : NTPClient :=
  {| servers := ["time.nist.gov"]; time_offset := 0; last_sync := 0 |}.

(** A client synchronized ten seconds before local time 100. *)
Definition client_recent : NTPClient :=
  {| servers := default_servers; time_offset := 3; last_sync := 90 |}.

(** A device whose local clock runs ahead: never synchronized, local time
    1000, and the source answers at once with the Unix time 500. *)
Definition env_clock_ahead : Env :=
  {| udp_exchange := fun _ t => (UdpReply (ntp_reply 500), t);
     http_get_ready := fun _ _ t => (ReadyError, t);
     http_post_capture := fun _ _ _ t => (PostError, t);
     fromtimestamp := utc_fromtimestamp;
     strftime := utc_strftime |}.

(** A scenario in which the first source answers with the Unix time 0 and
    every other source with the Unix time 150, each one second after the
    query. *)
Definition env_first_answers_zero : Env :=
  {| udp_exchange := fun s t =>
       if String.eqb s "pool.ntp.org" then (UdpReply (ntp_reply 0), t + 1)
       else (UdpReply (ntp_reply 150), t + 1);
     http_get_ready := fun _ _ t => (ReadyError, t);
     http_post_capture := fun _ _ _ t => (PostError, t);
     fromtimestamp := utc_fromtimestamp;
     strftime := utc_strftime |}.

(** A client synchronized a hundred seconds before local time 1762243200,
    with offset 0. *)
Definition client_in_2025 : NTPClient :=
  {| servers := default_servers; time_offset := 0;
     last_sync := 1762243100 |}.

(** The double nearest to one tenth of a microsecond. *)
Definition tenth_of_a_microsecond : Q :=
  944473296573929 # 9444732965739290427392.


(** A sleeper whose first sleep ends after half the requested time and
    during which the re-synchronisation task moves the offset back by one
    second; later sleeps are punctual. *)
Definition restless : Sleeper :=
  fun n d cw =>
    match n with
    | O => ({| servers := servers (fst cw);
               time_offset := time_offset (fst cw) - 1;
               last_sync := last_sync (fst cw) |},
            at_time (wall (snd cw) + d / 2) (snd cw))
    | Datatypes.S _ => punctual n d cw
    end.

(** A wait for 104.5 under [restless], started when the synchronized clock
    reads 103, and what it returns. *)
Definition restless_run
  : option (list wait_event * (NTPClient * World) * nat) :=
  wait_for_capture_time 8 restless 0 (client_recent, world_at 100) 0%nat
    (104 + (1 # 2)) (Some Datatypes.S).

Definition restless_result : list wait_event * (NTPClient * World) * nat :=
  match restless_run with
  | Some r => r
  | None => ([], (client_recent, world_at 100), 0%nat)
  end.

End NtpSpec.

Module ManagerSpec.
Import NtpSync Manager NtpSpec.

(** Every entry is filed under its own [node_id]. *)
Definition keyed_by_id (d : dict Z CameraNode) : Prop :=
  Forall (fun kv => node_id (snd kv) = fst kv) d.

(** What the registry operations maintain: the dictionary has one entry per
    key, filed under the node's id, and every positive id below the
    allocation counter is taken. *)
Record well_formed (m : CameraManager) : Prop := {
  wf_nodup : NoDup (keys (nodes m));
  wf_keyed : keyed_by_id (nodes m);
  wf_next_pos : (1 <= next_node_id m)%Z;
  wf_dense : forall j, (1 <= j < next_node_id m)%Z -> In j (keys (nodes m))
}.

(** The registry states that the public operations can produce. *)
Inductive reachable : CameraManager -> Prop :=
| reach_new : reachable new_manager
| reach_running m b :
    reachable m -> reachable (with_running m b)
| reach_register now m data r m' :
    reachable m -> register_node now m data = Some (r, m') -> reachable m'
| reach_online now m data :
    reachable m -> reachable (snd (node_online now m data))
| reach_offline m data :
    reachable m -> reachable (snd (node_offline m data))
| reach_heartbeat now m data :
    reachable m -> reachable (update_heartbeat now m data)
| reach_monitor now m :
    reachable m -> reachable (heartbeat_monitor_tick now m)
| reach_switch m id :
    reachable m -> reachable (snd (switch_preview_camera m id))
| reach_check env m w :
    reachable m -> reachable (snd (fst (check_all_nodes_ready env m w))).

(** [id] is the smallest positive integer that is not a key of [d]. *)
Definition smallest_unused (d : dict Z CameraNode) (id : Z) : Prop :=
  (1 <= id)%Z
  /\ ~ In id (keys d)
  /\ forall j, (1 <= j < id)%Z -> In j (keys d).

(** A registration request that carries an address. *)
Definition has_address (data : NodeData) : Prop :=
  truthy_string (nd_local_ip data) = true.

(** Registering one device after the other; [None] as soon as one
    registration is refused. *)
Fixpoint register_all (m : CameraManager) (reqs : list (Q * NodeData))
  : option (list Z * CameraManager) :=
  match reqs with
  | [] => Some ([], m)
  | (now, data) :: rest =>
      match register_node now m data with
      | Some (RegisterOk id, m1) =>
          match register_all m1 rest with
          | Some (ids, m2) => Some (id :: ids, m2)
          | None => None
          end
      | _ => None
      end
  end.

(** [p] is the key of the first entry of [d], in iteration order, whose
    status is ["online"]; [None] when no entry is online. *)
Definition first_online_is (d : dict Z CameraNode) (p : option Z) : Prop :=
  match p with
  | Some k =>
      exists before node after,
        d = before ++ (k, node) :: after
        /\ status node = "online"
        /\ Forall (fun kv => status (snd kv) <> "online") before
  | None => Forall (fun kv => status (snd kv) <> "online") d
  end.

(** The record of a node taken offline. *)
Definition gone_offline (node : CameraNode) : CameraNode :=
  set_status_ready node "offline" false.

(** What one pass of the monitor at [current_time] does to an entry. *)
Definition tick_entry (current_time : Q) (kv : Z * CameraNode)
  : Z * CameraNode :=
  if timed_out current_time (snd kv) then (fst kv, gone_offline (snd kv))
  else kv.

(** [d'] is [d] with nothing but readiness flags rewritten. *)
Definition same_but_ready (d d' : dict Z CameraNode) : Prop :=
  Forall2 (fun a b => fst b = fst a /\ exists r, snd b = set_ready (snd a) r)
    d d'.

(** The key of the first online entry, computed. *)
Definition first_online (d : dict Z CameraNode) : option Z :=
  option_map fst (find (fun kv => is_online (snd kv)) d).

(** All ticks of [ticks] come while [node] is within the heartbeat
    timeout. *)
Definition within_timeout (node : CameraNode) (ticks : list Q) : Prop :=
  Forall (fun u => u - last_heartbeat node <= 30) ticks.


(** What holds of the preview pointer [p] while the monitor scans at
    [now], having started with the pointer [p0]: the entries already visited
    were [seen0] before the pass and [todo] is still to come.  Either the
    pointer is untouched and its device has not been taken offline, or it
    has been reassigned and names the first online entry. *)
Definition scan_inv (now : Q) (p0 : option Z) (seen0 todo : dict Z CameraNode)
  (p : option Z) : Prop :=
  (p = p0
   /\ forall k n, p0 = Some k -> In (k, n) seen0 -> timed_out now n = false)
  \/ p = first_online (map (tick_entry now) seen0 ++ todo).


(** A record as the registry operations leave it: the status is one of the
    two the code assigns, and a ready device is online. *)
Definition node_ok (node : CameraNode) : Prop :=
  (status node = "online" \/ status node = "offline")
  /\ (is_ready node = true -> status node = "online").

Definition nodes_ok (d : dict Z CameraNode) : Prop :=
  Forall (fun kv => node_ok (snd kv)) d.

(** The preview pointer, when set, names a tracked device that is online. *)
Definition preview_ok (m : CameraManager) : Prop :=
  forall p, current_preview_node m = Some p ->
    exists node, dict_get p (nodes m) = Some node /\ status node = "online".

(** [d'] is [d] after a readiness check: only readiness flags differ, and a
    flag is set only on an online device. *)
Definition probed (d d' : dict Z CameraNode) : Prop :=
  Forall2 (fun a b => fst b = fst a
                      /\ exists r, snd b = set_ready (snd a) r
                                   /\ (r = true -> is_online (snd a) = true))
    d d'.


(** The readiness probes among the requests sent. *)
Definition probes_of (log : list io_event) : list io_event :=
  filter (fun e => match e with IoGetReady _ _ => true | _ => false end) log.

(** The probe that goes to a device. *)
Definition probe_of (node : CameraNode) : io_event :=
  IoGetReady (host_of (ip_address node)) (node_port node).


(** The capture commands among the requests sent. *)
Definition posts_of (log : list io_event) : list io_event :=
  filter (fun e => match e with IoPostCapture _ _ _ => true | _ => false end)
    log.

(** The capture command that goes to device [id] of registry [m]. *)
Definition capture_post (m : CameraManager) (command : CaptureData) (id : Z)
  : list io_event :=
  match dict_get id (nodes m) with
  | Some node =>
      [IoPostCapture (host_of (ip_address node)) (node_port node) command]
  | None => []
  end.

Definition posts_to (m : CameraManager) (command : CaptureData)
  (ids : list Z) : list io_event :=
  flat_map (capture_post m command) ids.

(** The verdict of [send_capture_command] on what came back from a device:
    only status 200 with a true [success] field counts. *)
Definition delivered (r : post_outcome) : bool :=
  match r with
  | PostError => false
  | PostResponse st success => Z.eqb st 200 && get_default success false
  end.

(** The outcome map of a dispatch to the devices [ids] that starts at local
    time [t]: one entry per device, in the order of [ids], the verdict on the
    reply of that device to [command]; the request to a device leaves when
    the reply of the device before it has arrived. *)
Fixpoint recorded_outcomes (env : Env) (m : CameraManager)
  (command : CaptureData) (ids : list Z) (t : Q) : dict Z bool :=
  match ids with
  | [] => []
  | id :: rest =>
      match dict_get id (nodes m) with
      | None => (id, false) :: recorded_outcomes env m command rest t
      | Some node =>
          let reply :=
            http_post_capture env (host_of (ip_address node))
              (node_port node) command t in
          (id, delivered (fst reply))
          :: recorded_outcomes env m command rest (snd reply)
      end
  end.


(** Test data. *)
Definition request_from (ip : string) : NodeData :=
  {| nd_node_id := 0; nd_local_ip := Some ip; nd_node_port := None;
     nd_capabilities := None; nd_is_ready := None |}.

Definition message_from (id : Z) (ready : bool) : NodeData :=
  {| nd_node_id := id; nd_local_ip := None; nd_node_port := None;
     nd_capabilities := None; nd_is_ready := Some ready |}.

Definition three_requests : list (Q * NodeData) :=
  [(10, request_from "192.168.1.11"); (11, request_from "192.168.1.12");
   (12, request_from "192.168.1.13")].

Definition fleet_after (reqs : list (Q * NodeData)) : CameraManager :=
  match register_all new_manager reqs with
  | Some (_, m) => m
  | None => new_manager
  end.

(** Registries with the first one, two and three devices of
    [three_requests]. *)
Definition fleet_of_one : CameraManager := fleet_after (firstn 1 three_requests).
Definition fleet_of_two : CameraManager := fleet_after (firstn 2 three_requests).
Definition fleet_of_three : CameraManager := fleet_after three_requests.

Definition fleet_running : CameraManager := with_running fleet_of_three true.

(** The record of the first device of [three_requests]. *)
Definition first_device : CameraNode :=
  {| node_id := 1; ip_address := Some "192.168.1.11"; node_port := 8084;
     status := "online"; last_heartbeat := 10; is_ready := false;
     capabilities := [] |}.

(** Peers for a fleet of three: the devices at .11 and .12 report ready,
    the one at .13 does not; the capture command reaches .11, while the
    connection to .12 fails.  The time source answers with Unix time 200. *)
Definition env_two_ready : Env :=
  {| udp_exchange := fun _ t => (UdpReply (ntp_reply 200), t + (1 # 10));
     http_get_ready := fun ip _ t =>
       if String.eqb ip "192.168.1.13"
       then (ReadyResponse 200 (Some false), t + (1 # 100))
       else (ReadyResponse 200 (Some true), t + (1 # 100));
     http_post_capture := fun ip _ _ t =>
       if String.eqb ip "192.168.1.12" then (PostError, t + 10)
       else (PostResponse 200 (Some true), t + (1 # 100));
     fromtimestamp := utc_fromtimestamp;
     strftime := utc_strftime |}.

(** The readiness check of the fleet of three against [env_two_ready]. *)
Definition checked_three : dict Z bool * CameraManager * World :=
  check_all_nodes_ready env_two_ready fleet_of_three (world_at 100).

(** Session id, ready list, send outcomes and the posted (address, capture
    time is 200.5, session id) triples of a trigger run. *)
Definition trigger_summary (r : TriggerResult) (w : World)
  : string * list Z * dict Z bool * list (string * bool * string) :=
  match r with
  | TriggerSuccess sid ct ready results _ =>
      (sid, ready, results,
       flat_map (fun e => match e with
                          | IoPostCapture ip _ data =>
                              [(ip, Qeq_bool (cd_capture_time data) (200 + (1 # 2)),
                                cd_session_id data)]
                          | _ => []
                          end) (io_log w))
  | _ => ("", [], [], [])
  end.

(** The record a heartbeat leaves for a tracked device. *)
Definition heartbeat_record (now : Q) (old : CameraNode) (ready : bool)
  : CameraNode :=
  {| node_id := node_id old; ip_address := ip_address old;
     node_port := node_port old; status := "online";
     last_heartbeat := now; is_ready := ready;
     capabilities := capabilities old |}.

(** The record an announcement leaves, with readiness flag [ready]. *)
Definition announced_record (now : Q) (data : NodeData) (ready : bool)
  : CameraNode :=
  {| node_id := nd_node_id data;
     ip_address := nd_local_ip data;
     node_port := get_default (nd_node_port data) 8084%Z;
     status := "online"; last_heartbeat := now; is_ready := ready;
     capabilities := get_default (nd_capabilities data) [] |}.

(** One public operation applied to a registry. *)
Inductive operation : CameraManager -> CameraManager -> Prop :=
| op_running m b : operation m (with_running m b)
| op_register now m data r m' :
    register_node now m data = Some (r, m') -> operation m m'
| op_online now m data : operation m (snd (node_online now m data))
| op_offline m data : operation m (snd (node_offline m data))
| op_heartbeat now m data : operation m (update_heartbeat now m data)
| op_monitor now m : operation m (heartbeat_monitor_tick now m)
| op_switch m id : operation m (snd (switch_preview_camera m id))
| op_check env m w :
    operation m (snd (fst (check_all_nodes_ready env m w))).

(** Any number of operations, one after the other. *)
Inductive evolves : CameraManager -> CameraManager -> Prop :=
| evolves_refl m : evolves m m
| evolves_step m m1 m2 : evolves m m1 -> operation m1 m2 -> evolves m m2.

(** The running fleet after the monitor pass at 41.5 seconds, which takes
    the first two devices offline. *)
Definition fleet_two_timed_out : CameraManager :=
  heartbeat_monitor_tick (41 + (1 # 2)) fleet_running.


(** The entry of the readiness report for a registry entry. *)
Definition flag_of (kv : Z * CameraNode) : Z * bool :=
  (fst kv, is_ready (snd kv)).

(** The ids of the devices whose readiness flag is set, in registry
    order. *)
Definition flagged_ready (m : CameraManager) : list Z :=
  map fst (filter (fun kv => is_ready (snd kv)) (nodes m)).

(** Did the reply to a capture command count as a success? *)
Definition post_accepted (r : post_outcome) : Prop :=
  r = PostResponse 200 (Some true).


(** The fleet of three after the second device has said goodbye. *)
Definition fleet_second_gone : CameraManager :=
  snd (node_offline fleet_of_three (message_from 2 false)).


End ManagerSpec.

Module NodeSpec.
Import NtpSync NtpSpec Node.

(** Test data: a device whose camera is initialized, with no pending
    session, a camera that writes the file it is asked for, and a registry
    that refuses the upload. *)
Definition node_ready : NodeServer :=
  {| config_node_id := Some 1%Z; initialized := true;
     scheduled_captures := [];
     images := []; uploads := [] |}.

Definition device_upload_refused : Device :=
  {| camera_capture := fun name => Some (String.append "/tmp/" name);
     upload_image := fun _ _ => UploadResponse 500 None |}.

Definition command_at (capture_time : Q) (session_id : string)
  : CaptureRequest :=
  {| rq_capture_time := Some capture_time;
     rq_session_id := Some session_id |}.

(** The answer to a command once its wait has been scheduled: success,
    unless rendering the capture time for the log line raises, which is
    answered 500 with the text of the exception. *)
Definition scheduled_reply (env : Env) (ns : NodeServer) (capture_time : Q)
  (session_id : string) : CaptureResponse :=
  match format_time env capture_time with
  | Returned _ => Accepted session_id capture_time (config_node_id ns)
  | Raised exc => Rejected 500 exc
  end.

(** The file name of a picture taken at [dt] by device [id]. *)
Definition picture_name (env : Env) (dt : DateTime) (id : Z) : string :=
  String.append (drop_last 3 (strftime env dt "%Y%m%d_%H%M%S_%f"))
    (String.append "-node" (String.append (format_02d id) ".jpg")).

(** A device that has not been given a number. *)
Definition node_unnumbered : NodeServer :=
  {| config_node_id := None; initialized := true;
     scheduled_captures := [];
     images := []; uploads := [] |}.

(** The device after accepting the command for 105.5 seconds. *)
Definition node_pending : NodeServer :=
  with_captures node_ready
    [("capture_100030", (105 + (1 # 2), "capture_100030"))].

(** The body of [POST /capture] as [send_capture_command] writes it and the
    device decodes it: the keys [capture_time] and [session_id] are the ones
    the handler reads. *)
Definition body_of (command : CaptureData) : RequestBody :=
  JsonBody {| rq_capture_time := Some (cd_capture_time command);
              rq_session_id := Some (cd_session_id command) |}.


End NodeSpec.

Module PacketSpec.
Import NtpSync NtpSpec.

(** Four bytes, most significant first, as [struct.pack("!I", ts)] lays
    them out. *)
Definition be32 (ts : Z) : list Byte.byte :=
  [byte_of_Z (Z.shiftr ts 24); byte_of_Z (Z.shiftr ts 16);
   byte_of_Z (Z.shiftr ts 8); byte_of_Z ts].

(** A time source that answers every query, sent at local time [t], with
    the datagram [reply] after [rtt] seconds. *)
Definition env_replying (reply : list Byte.byte) (rtt : Q) : Env :=
  {| udp_exchange := fun _ t => (UdpReply reply, t + rtt);
     http_get_ready := fun _ _ t => (ReadyError, t);
     http_post_capture := fun _ _ _ t => (PostError, t);
     fromtimestamp := utc_fromtimestamp;
     strftime := utc_strftime |}.

End PacketSpec.

(* ================================================================== *)
(** * Properties *)

(** ** Dictionaries *)

Module PyDictFacts.

Section Facts.
Context {K V : Type} `{KeyEq K}.

Lemma keqb_refl (k : K) : keqb k k = true.
Proof. destruct (keqb_spec k k); congruence. Qed.

Lemma keqb_neq (a b : K) : a <> b -> keqb a b = false.
Proof. destruct (keqb_spec a b); congruence. Qed.

Lemma dict_get_set_same (k : K) (v : V) (d : dict K V) :
  dict_get k (dict_set k v d) = Some v.
Proof.
  induction d as [|[k' v'] d IH]; simpl.
  - now rewrite keqb_refl.
  - destruct (keqb_spec k k') as [->|Hne]; simpl.
    + now rewrite keqb_refl.
    + now rewrite (keqb_neq _ _ Hne).
Qed.

Lemma dict_get_set_other (k k' : K) (v : V) (d : dict K V) :
  k <> k' -> dict_get k (dict_set k' v d) = dict_get k d.
Proof.
  intros Hne. induction d as [|[k2 v2] d IH]; simpl.
  - now rewrite (keqb_neq _ _ Hne).
  - destruct (keqb_spec k' k2) as [->|Hne2]; simpl.
    + now rewrite (keqb_neq _ _ Hne).
    + now rewrite IH.
Qed.

Lemma dict_get_None (k : K) (d : dict K V) :
  dict_get k d = None <-> ~ In k (keys d).
Proof.
  induction d as [|[k' v'] d IH]; simpl.
  - tauto.
  - destruct (keqb_spec k k') as [->|Hne].
    + split; [discriminate | intros Hn; exfalso; apply Hn; now left].
    + rewrite IH. split; [intros Hn [E|Hin]; [congruence | tauto] | tauto].
Qed.

Lemma dict_get_Some_In (k : K) (v : V) (d : dict K V) :
  dict_get k d = Some v -> In (k, v) d.
Proof.
  induction d as [|[k' v'] d IH]; simpl; [discriminate|].
  destruct (keqb_spec k k') as [->|Hne].
  - intros [= ->]. now left.
  - intros Hg. right. auto.
Qed.

Lemma dict_get_in_keys (k : K) (v : V) (d : dict K V) :
  dict_get k d = Some v -> In k (keys d).
Proof.
  intros Hg. unfold keys. change k with (fst (k, v)).
  apply in_map. now apply dict_get_Some_In.
Qed.

Lemma dict_mem_true (k : K) (d : dict K V) :
  dict_mem k d = true <-> In k (keys d).
Proof.
  unfold dict_mem. destruct (dict_get k d) eqn:E.
  - split; [intros _; eauto using dict_get_in_keys | reflexivity].
  - apply dict_get_None in E. split; [discriminate | tauto].
Qed.

Lemma dict_mem_false (k : K) (d : dict K V) :
  dict_mem k d = false <-> ~ In k (keys d).
Proof.
  rewrite <- dict_mem_true. destruct (dict_mem k d); split; congruence.
Qed.

Lemma In_dict_get (k : K) (v : V) (d : dict K V) :
  NoDup (keys d) -> In (k, v) d -> dict_get k d = Some v.
Proof.
  induction d as [|[k' v'] d IH]; simpl; [tauto|].
  intros Hnd [E|Hin].
  - injection E as -> ->. now rewrite keqb_refl.
  - inversion Hnd as [|? ? Hnotin Hnd']; subst.
    destruct (keqb_spec k k') as [->|Hne].
    + exfalso. apply Hnotin. change k' with (fst (k', v)). now apply in_map.
    + auto.
Qed.

Lemma keys_dict_set_old (k : K) (v : V) (d : dict K V) :
  In k (keys d) -> keys (dict_set k v d) = keys d.
Proof.
  induction d as [|[k' v'] d IH]; simpl; [tauto|].
  intros Hin. destruct (keqb_spec k k') as [->|Hne]; simpl; [reflexivity|].
  f_equal. apply IH. destruct Hin; congruence.
Qed.

Lemma keys_dict_set_new (k : K) (v : V) (d : dict K V) :
  ~ In k (keys d) -> keys (dict_set k v d) = keys d ++ [k].
Proof.
  induction d as [|[k' v'] d IH]; simpl; [reflexivity|].
  intros Hn. destruct (keqb_spec k k') as [->|Hne]; simpl.
  - exfalso. apply Hn. now left.
  - f_equal. apply IH. tauto.
Qed.

Lemma in_keys_dict_set (k k' : K) (v : V) (d : dict K V) :
  In k (keys (dict_set k' v d)) <-> k = k' \/ In k (keys d).
Proof.
  destruct (dict_mem k' d) eqn:E.
  - apply dict_mem_true in E. rewrite keys_dict_set_old by assumption.
    split; [tauto | intros [->|?]; assumption].
  - apply dict_mem_false in E. rewrite keys_dict_set_new by assumption.
    rewrite in_app_iff. simpl. split; [intros [?|[?|[]]]; auto | intros [->|?]; auto].
Qed.

Lemma NoDup_keys_dict_set (k : K) (v : V) (d : dict K V) :
  NoDup (keys d) -> NoDup (keys (dict_set k v d)).
Proof.
  intros Hnd. destruct (dict_mem k d) eqn:E.
  - apply dict_mem_true in E. now rewrite keys_dict_set_old.
  - apply dict_mem_false in E. rewrite keys_dict_set_new by assumption.
    apply NoDup_app; [assumption | repeat constructor; simpl; tauto |].
    intros x Hx [<-|[]]. tauto.
Qed.

Lemma dict_get_del_same (k : K) (d : dict K V) :
  dict_get k (dict_del k d) = None.
Proof.
  apply dict_get_None. unfold keys, dict_del. intros Hin.
  apply in_map_iff in Hin. destruct Hin as [[k' v'] [E Hin]].
  apply filter_In in Hin. simpl in *. subst k'.
  rewrite keqb_refl in Hin. destruct Hin. discriminate.
Qed.

Lemma dict_get_app (k : K) (a b : dict K V) :
  dict_get k (a ++ b) =
    match dict_get k a with
    | Some v => Some v
    | None => dict_get k b
    end.
Proof.
  induction a as [|[k' v'] a IH]; simpl; [reflexivity|].
  now destruct (keqb k k').
Qed.

End Facts.
End PyDictFacts.
Import PyDictFacts.

(** ** Rounding to binary64 *)

Module Float64Facts.

Lemma pow2_pos (e : Z) : 0 < 2 ^ e.
Proof. apply Qpower_0_lt. reflexivity. Qed.

Lemma pow2_mono (a b : Z) : (a <= b)%Z -> 2 ^ a <= 2 ^ b.
Proof. intros H. apply Qpower_le_compat_l; [exact H | discriminate]. Qed.

Lemma pow2_lt_inv (a b : Z) : 2 ^ a < 2 ^ b -> (a < b)%Z.
Proof. intros H. apply (Qpower_lt_compat_l_inv 2); [exact H | reflexivity]. Qed.

Lemma pow2_inject (n : Z) : (0 <= n)%Z -> 2 ^ n == inject_Z (2 ^ n).
Proof. intros H. symmetry. apply (Zpower_Qpower 2 n H). Qed.

Lemma pow2_minus (a b : Z) : 2 ^ (a - b) == 2 ^ a / 2 ^ b.
Proof. apply Qpower_minus. discriminate. Qed.

Lemma binade_spec (x : Q) :
  0 < x -> 2 ^ binade x <= x /\ x < 2 ^ (binade x + 1).
Proof.
  intros Hx. destruct x as [n d].
  assert (Hn : (0 < n)%Z).
  { unfold Qlt in Hx. simpl in Hx. lia. }
  pose proof (Z.log2_spec n Hn) as [Ha1 Ha2].
  pose proof (Z.log2_spec (Z.pos d) (Pos2Z.is_pos d)) as [Hb1 Hb2].
  pose proof (Z.log2_nonneg n) as Ha0.
  pose proof (Z.log2_nonneg (Z.pos d)) as Hb0.
  set (a := Z.log2 n) in *. set (b := Z.log2 (Z.pos d)) in *.
  assert (HN : (n # d) * inject_Z (Z.pos d) == inject_Z n).
  { unfold Qeq, Qmult, inject_Z. simpl. lia. }
  assert (HD : 0 < inject_Z (Z.pos d)).
  { unfold Qlt, inject_Z. simpl. lia. }
  assert (Hlow : 2 ^ (a - b - 1) <= n # d).
  { replace (a - b - 1)%Z with (a - (b + 1))%Z by lia.
    rewrite pow2_minus.
    apply Qle_shift_div_r; [apply pow2_pos|].
    rewrite (pow2_inject a Ha0), (pow2_inject (b + 1)) by lia.
    rewrite Zle_Qle in Ha1. unfold Z.succ in Hb2.
    rewrite Zlt_Qlt in Hb2.
    set (P := inject_Z (2 ^ a)) in *. set (R := inject_Z (2 ^ (b + 1))) in *.
    set (N := inject_Z n) in *. set (D := inject_Z (Z.pos d)) in *.
    set (x := n # d) in *.
    assert (0 <= x * (R - D)) by (apply Qmult_le_0_compat; lra).
    lra. }
  assert (Hhigh : n # d < 2 ^ (a - b + 1)).
  { replace (a - b + 1)%Z with (a + 1 - b)%Z by lia.
    rewrite pow2_minus.
    apply Qlt_shift_div_l; [apply pow2_pos|].
    rewrite (pow2_inject b Hb0), (pow2_inject (a + 1)) by lia.
    rewrite Zle_Qle in Hb1. unfold Z.succ in Ha2.
    rewrite Zlt_Qlt in Ha2.
    set (P := inject_Z (2 ^ (a + 1))) in *. set (R := inject_Z (2 ^ b)) in *.
    set (N := inject_Z n) in *. set (D := inject_Z (Z.pos d)) in *.
    set (x := n # d) in *.
    assert (0 <= x * (D - R)) by (apply Qmult_le_0_compat; lra).
    lra. }
  unfold binade. cbn [Qnum Qden]. fold a b.
  destruct (Qle_bool (2 ^ (a - b)) (n # d)) eqn:E.
  - apply Qle_bool_iff in E. split; assumption.
  - assert (Hlt : n # d < 2 ^ (a - b)).
    { apply Qnot_le_lt. intros Hle. apply Qle_bool_iff in Hle. congruence. }
    replace (a - b - 1 + 1)%Z with (a - b)%Z by lia. split; assumption.
Qed.

Lemma binade_mono (x y : Q) : 0 < x -> x <= y -> (binade x <= binade y)%Z.
Proof.
  intros Hx Hxy.
  destruct (binade_spec x Hx) as [H1 _].
  destruct (binade_spec y) as [_ H2]; [lra|].
  assert (H : 2 ^ binade x < 2 ^ (binade y + 1)) by lra.
  apply pow2_lt_inv in H. lia.
Qed.

Lemma ulp_exponent_mono (x y : Q) :
  0 < x -> x <= y -> (ulp_exponent x <= ulp_exponent y)%Z.
Proof.
  intros Hx Hxy. pose proof (binade_mono x y Hx Hxy). unfold ulp_exponent. lia.
Qed.

Lemma round_half_even_cases (x : Q) :
  (round_half_even x = Qfloor x /\ x - inject_Z (Qfloor x) <= 1 # 2
   /\ (x - inject_Z (Qfloor x) == 1 # 2 -> Z.even (Qfloor x) = true))
  \/ (round_half_even x = (Qfloor x + 1)%Z
      /\ 1 # 2 <= x - inject_Z (Qfloor x)
      /\ (x - inject_Z (Qfloor x) == 1 # 2 -> Z.even (Qfloor x) = false)).
Proof.
  unfold round_half_even.
  destruct (Qcompare_spec (x - inject_Z (Qfloor x)) (1 # 2)) as [E|L|G].
  - destruct (Z.even (Qfloor x)) eqn:Ev.
    + left. split; [reflexivity|]. split; [lra | auto].
    + right. split; [reflexivity|]. split; [lra | auto].
  - left. split; [reflexivity|]. split; [lra|]. intros E. lra.
  - right. split; [reflexivity|]. split; [lra|]. intros E. lra.
Qed.

Lemma floor_bounds (x : Q) :
  inject_Z (Qfloor x) <= x /\ x < inject_Z (Qfloor x) + 1.
Proof.
  split; [apply Qfloor_le|].
  pose proof (Qlt_floor x) as H. rewrite inject_Z_plus in H. exact H.
Qed.

Lemma round_half_even_near (x : Q) :
  inject_Z (round_half_even x) - (1 # 2) <= x
  /\ x <= inject_Z (round_half_even x) + (1 # 2).
Proof.
  destruct (floor_bounds x) as [Hf1 Hf2].
  destruct (round_half_even_cases x) as [(-> & H & _)|(-> & H & _)].
  - lra.
  - rewrite inject_Z_plus. change (inject_Z 1) with 1. lra.
Qed.

Lemma round_half_even_mono (x y : Q) :
  x <= y -> (round_half_even x <= round_half_even y)%Z.
Proof.
  intros Hxy.
  pose proof (Qfloor_resp_le x y Hxy) as Hf.
  destruct (floor_bounds x) as [Hx1 Hx2].
  destruct (floor_bounds y) as [Hy1 Hy2].
  destruct (round_half_even_cases x) as [(-> & Hx & Hxe)|(-> & Hx & Hxe)];
    destruct (round_half_even_cases y) as [(-> & Hy & Hye)|(-> & Hy & Hye)];
    try lia.
  destruct (Z.eq_dec (Qfloor x) (Qfloor y)) as [E|NE]; [|lia].
  exfalso. rewrite E in *.
  assert (Hx' : x - inject_Z (Qfloor y) == 1 # 2) by lra.
  assert (Hy' : y - inject_Z (Qfloor y) == 1 # 2) by lra.
  specialize (Hxe Hx'). specialize (Hye Hy'). congruence.
Qed.

Lemma round_half_even_int (n : Z) : round_half_even (inject_Z n) = n.
Proof.
  unfold round_half_even. rewrite Qfloor_Z.
  destruct (Qcompare_spec (inject_Z n - inject_Z n) (1 # 2)) as [E|L|G];
    [lra | reflexivity | lra].
Qed.

Lemma round_pos_le_pow (x : Q) (G : Z) :
  0 < x -> (ulp_exponent x <= G)%Z -> x <= 2 ^ G -> round_pos x <= 2 ^ G.
Proof.
  intros Hx He Hle. unfold round_pos.
  set (e := ulp_exponent x) in *.
  pose proof (pow2_pos e) as Hu.
  assert (Hg : 2 ^ G == inject_Z (2 ^ (G - e)) * 2 ^ e).
  { rewrite <- pow2_inject by lia. rewrite pow2_minus. field. lra. }
  rewrite Hg. apply Qmult_le_compat_r; [|lra].
  rewrite <- Zle_Qle.
  rewrite <- (round_half_even_int (2 ^ (G - e))).
  apply round_half_even_mono.
  apply Qle_shift_div_r; [exact Hu|]. rewrite <- Hg. exact Hle.
Qed.

Lemma round_pos_ge_pow (x : Q) (G : Z) :
  0 < x -> (ulp_exponent x <= G)%Z -> 2 ^ G <= x -> 2 ^ G <= round_pos x.
Proof.
  intros Hx He Hle. unfold round_pos.
  set (e := ulp_exponent x) in *.
  pose proof (pow2_pos e) as Hu.
  assert (Hg : 2 ^ G == inject_Z (2 ^ (G - e)) * 2 ^ e).
  { rewrite <- pow2_inject by lia. rewrite pow2_minus. field. lra. }
  rewrite Hg. apply Qmult_le_compat_r; [|lra].
  rewrite <- Zle_Qle.
  rewrite <- (round_half_even_int (2 ^ (G - e))) at 1.
  apply round_half_even_mono.
  apply Qle_shift_div_l; [exact Hu|]. rewrite <- Hg. exact Hle.
Qed.

Lemma round_pos_nonneg (x : Q) : 0 < x -> 0 <= round_pos x.
Proof.
  intros Hx. unfold round_pos.
  pose proof (pow2_pos (ulp_exponent x)) as Hu.
  apply Qmult_le_0_compat; [|lra].
  change 0 with (inject_Z 0). rewrite <- Zle_Qle.
  rewrite <- (round_half_even_int 0).
  apply round_half_even_mono. change (inject_Z 0) with 0.
  apply Qle_shift_div_l; [exact Hu | lra].
Qed.

Lemma round_pos_mono (x y : Q) :
  0 < x -> x <= y -> round_pos x <= round_pos y.
Proof.
  intros Hx Hxy.
  assert (Hy : 0 < y) by lra.
  pose proof (binade_mono x y Hx Hxy) as Hb.
  destruct (Z.eq_dec (ulp_exponent x) (ulp_exponent y)) as [E|NE].
  - unfold round_pos. rewrite E.
    pose proof (pow2_pos (ulp_exponent y)) as Hu.
    apply Qmult_le_compat_r; [|lra].
    rewrite <- Zle_Qle. apply round_half_even_mono.
    apply Qmult_le_compat_r; [exact Hxy|].
    apply Qlt_le_weak. now apply Qinv_lt_0_compat.
  - destruct (binade_spec x Hx) as [_ Hx2].
    destruct (binade_spec y Hy) as [Hy1 _].
    assert (Hlt : (binade x + 1 <= binade y)%Z).
    { unfold ulp_exponent in NE. lia. }
    pose proof (pow2_mono _ _ Hlt) as Hp.
    apply Qle_trans with (2 ^ binade y).
    + apply round_pos_le_pow; [exact Hx | unfold ulp_exponent in *; lia | lra].
    + apply round_pos_ge_pow; [exact Hy | unfold ulp_exponent in *; lia | exact Hy1].
Qed.

Lemma round_raw_mono (x y : Q) : x <= y -> round_raw x <= round_raw y.
Proof.
  intros Hxy. unfold round_raw.
  destruct (Qcompare_spec x 0) as [Ex|Lx|Gx];
    destruct (Qcompare_spec y 0) as [Ey|Ly|Gy]; try lra.
  - apply round_pos_nonneg. exact Gy.
  - pose proof (round_pos_nonneg (- x)). lra.
  - assert (H : round_pos (- y) <= round_pos (- x))
      by (apply round_pos_mono; lra).
    lra.
  - pose proof (round_pos_nonneg (- x)).
    pose proof (round_pos_nonneg y Gy). lra.
  - apply round_pos_mono; assumption.
Qed.

Lemma round_raw_comp (x y : Q) : x == y -> round_raw x == round_raw y.
Proof.
  intros E. apply Qle_antisym; apply round_raw_mono; lra.
Qed.

Lemma round_half_even_comp (x y : Q) :
  x == y -> round_half_even x = round_half_even y.
Proof.
  intros E. apply Z.le_antisymm; apply round_half_even_mono; lra.
Qed.

(** The whole numbers below [2^53] are doubles. *)
Lemma round_raw_int (n : Z) :
  (0 <= n < 2 ^ 53)%Z -> round_raw (inject_Z n) == inject_Z n.
Proof.
  intros [H0 Hn]. unfold round_raw.
  destruct (Qcompare_spec (inject_Z n) 0) as [E|L|G].
  - lra.
  - exfalso. change 0 with (inject_Z 0) in L. rewrite <- Zlt_Qlt in L. lia.
  - unfold round_pos. set (e := ulp_exponent (inject_Z n)).
    assert (He : (e <= 0)%Z).
    { destruct (binade_spec (inject_Z n) G) as [Hb _].
      assert (Hlt : 2 ^ binade (inject_Z n) < 2 ^ 53).
      { apply Qle_lt_trans with (inject_Z n); [exact Hb|].
        rewrite (pow2_inject 53) by lia. now rewrite <- Zlt_Qlt. }
      apply pow2_lt_inv in Hlt. unfold e, ulp_exponent. lia. }
    pose proof (pow2_pos e) as Hu.
    assert (Hq : inject_Z n / 2 ^ e == inject_Z (n * 2 ^ (0 - e))).
    { rewrite inject_Z_mult, <- pow2_inject by lia.
      rewrite pow2_minus. change (2 ^ 0) with 1. field. lra. }
    rewrite (round_half_even_comp _ _ Hq), round_half_even_int.
    rewrite <- Hq. field. lra.
Qed.

Lemma round_pos_comp (x y : Q) : 0 < x -> x == y -> round_pos x == round_pos y.
Proof.
  intros Hx E. apply Qle_antisym; apply round_pos_mono; lra.
Qed.

Lemma round_pos_fixed (r : Q) (k : Z) :
  r / 2 ^ ulp_exponent r == inject_Z k -> round_pos r == r.
Proof.
  intros Hk. unfold round_pos.
  pose proof (pow2_pos (ulp_exponent r)) as Hu.
  rewrite (round_half_even_comp _ _ Hk), round_half_even_int, <- Hk.
  field. lra.
Qed.

(** A value that rounding gives is a double. *)
Lemma round_pos_idem (x : Q) :
  0 < x -> 0 < round_pos x -> round_pos (round_pos x) == round_pos x.
Proof.
  intros Hx Hr.
  destruct (binade_spec x Hx) as [Hb1 Hb2].
  destruct (binade_spec (round_pos x) Hr) as [Hc1 Hc2].
  set (G := Z.max (binade x + 1) (ulp_exponent x)).
  assert (Hle : round_pos x <= 2 ^ G).
  { apply round_pos_le_pow; [exact Hx | unfold G; lia|].
    apply Qle_trans with (2 ^ (binade x + 1));
      [apply Qlt_le_weak; exact Hb2 | apply pow2_mono; unfold G; lia]. }
  assert (Hb' : (binade (round_pos x) <= G)%Z).
  { assert (H : 2 ^ binade (round_pos x) < 2 ^ (G + 1)).
    { apply Qle_lt_trans with (2 ^ G).
      - apply Qle_trans with (round_pos x); assumption.
      - apply Qpower_lt_compat_l; [lia | reflexivity]. }
    apply pow2_lt_inv in H. lia. }
  set (e := ulp_exponent x) in *.
  set (e' := ulp_exponent (round_pos x)) in *.
  set (m := round_half_even (x / 2 ^ e)).
  assert (Hrm : round_pos x == inject_Z m * 2 ^ e) by reflexivity.
  pose proof (pow2_pos e) as Hue. pose proof (pow2_pos e') as Hue'.
  destruct (Z_le_gt_dec e' e) as [Hee|Hee].
  - apply (round_pos_fixed _ (m * 2 ^ (e - e'))).
    fold e'. rewrite Hrm, inject_Z_mult, <- pow2_inject by lia.
    rewrite pow2_minus. field. lra.
  - assert (He : e = (binade x - 52)%Z /\ e' = (binade x - 51)%Z
                 /\ binade (round_pos x) = (binade x + 1)%Z
                 /\ G = (binade x + 1)%Z).
    { unfold e, e', G, ulp_exponent in *. lia. }
    destruct He as (He & He' & Hbb & HG).
    assert (Hpow : round_pos x == 2 ^ (binade x + 1)).
    { rewrite Hbb in Hc1. rewrite HG in Hle. lra. }
    apply (round_pos_fixed _ (2 ^ 52)).
    fold e'. rewrite Hpow, He', <- pow2_inject by lia.
    rewrite <- pow2_minus.
    replace (binade x + 1 - (binade x - 51))%Z with 52%Z by lia.
    reflexivity.
Qed.

Lemma round_raw_idem (x : Q) : round_raw (round_raw x) == round_raw x.
Proof.
  destruct (Qcompare_spec x 0) as [E|L|G].
  - rewrite (round_raw_comp (round_raw x) (round_raw 0)
               (round_raw_comp x 0 E)).
    rewrite (round_raw_comp x 0 E). reflexivity.
  - assert (Hinner : round_raw x = - round_pos (- x)).
    { unfold round_raw. destruct (Qcompare_spec x 0); [lra | reflexivity | lra]. }
    rewrite Hinner.
    assert (Hx : 0 < - x) by lra.
    pose proof (round_pos_nonneg (- x) Hx) as Hn.
    destruct (Qlt_le_dec 0 (round_pos (- x))) as [Hp|Hz].
    + unfold round_raw.
      destruct (Qcompare_spec (- round_pos (- x)) 0) as [E'|L'|G']; try lra.
      rewrite (round_pos_comp (- - round_pos (- x)) (round_pos (- x)))
        by (try lra; ring).
      now rewrite round_pos_idem.
    + assert (Hz' : - round_pos (- x) == 0) by lra.
      rewrite (round_raw_comp _ _ Hz'). rewrite Hz'. reflexivity.
  - assert (Hinner : round_raw x = round_pos x).
    { unfold round_raw. destruct (Qcompare_spec x 0); [lra | lra | reflexivity]. }
    rewrite Hinner.
    pose proof (round_pos_nonneg x G) as Hn.
    destruct (Qlt_le_dec 0 (round_pos x)) as [Hp|Hz].
    + unfold round_raw.
      destruct (Qcompare_spec (round_pos x) 0) as [E'|L'|G']; try lra.
      now apply round_pos_idem.
    + assert (Hz' : round_pos x == 0) by lra.
      rewrite (round_raw_comp _ _ Hz'). rewrite Hz'. reflexivity.
Qed.

(** A double is its own rounding. *)
Lemma round_double_idem (x r : Q) :
  round_double x = Some r -> exists r', round_double r = Some r' /\ r' == r.
Proof.
  unfold round_double. cbv zeta.
  destruct (Qle_bool (2 ^ 1024) (Qabs (round_raw x))) eqn:E; [discriminate|].
  intros [= <-].
  assert (Hq : Qabs (round_raw (round_raw x)) == Qabs (round_raw x)).
  { now rewrite round_raw_idem. }
  destruct (Qle_bool (2 ^ 1024) (Qabs (round_raw (round_raw x)))) eqn:E2.
  - apply Qle_bool_iff in E2. rewrite Hq in E2. apply Qle_bool_iff in E2.
    congruence.
  - eexists. split; [reflexivity | apply round_raw_idem].
Qed.

Lemma round_double_mono (x y a b : Q) :
  round_double x = Some a -> round_double y = Some b -> x <= y -> a <= b.
Proof.
  unfold round_double. intros Hx Hy Hxy.
  destruct (Qle_bool _ (Qabs (round_raw x))); [discriminate|].
  destruct (Qle_bool _ (Qabs (round_raw y))); [discriminate|].
  injection Hx as <-. injection Hy as <-. now apply round_raw_mono.
Qed.

End Float64Facts.
Import Float64Facts.

(** ** Clock synchronisation and scheduled capture *)

Module NtpFacts.
Import NtpSync NtpSpec.

Lemma Qltb_lt (a b : Q) : Qltb a b = true <-> a < b.
Proof.
  unfold Qltb. rewrite negb_true_iff. split.
  - intros Hb. apply Qnot_le_lt. intros Hle.
    apply Qle_bool_iff in Hle. congruence.
  - intros Hlt. destruct (Qle_bool b a) eqn:E; [|reflexivity].
    apply Qle_bool_iff in E. exfalso. eapply Qlt_not_le; eauto.
Qed.

Lemma Qltb_ge (a b : Q) : Qltb a b = false <-> b <= a.
Proof.
  unfold Qltb. rewrite negb_false_iff. apply Qle_bool_iff.
Qed.

Lemma Qle_bool_false (a b : Q) : Qle_bool a b = false <-> b < a.
Proof.
  rewrite <- Qltb_lt. unfold Qltb. now rewrite negb_true_iff.
Qed.

Lemma truthy_time_Some (t : Q) : truthy_time (Some t) = true <-> ~ t == 0.
Proof.
  simpl. rewrite negb_true_iff. split.
  - intros Hb Heq. apply Qeq_bool_iff in Heq. congruence.
  - intros Hne. destruct (Qeq_bool t 0) eqn:E; [|reflexivity].
    apply Qeq_bool_iff in E. contradiction.
Qed.

Lemma get_ntp_time_log env s w :
  io_log (snd (get_ntp_time env s w)) = io_log w ++ [IoNtpQuery s].
Proof.
  unfold get_ntp_time. destruct (udp_exchange env s (wall w)) as [r t'].
  destruct r as [|resp]; [reflexivity|].
  destruct (unpack_timestamp resp); reflexivity.
Qed.

Lemma ask_all_log env srvs w :
  io_log (ask_all env srvs w) = io_log w ++ map IoNtpQuery srvs.
Proof.
  revert w. induction srvs as [|s rest IH]; intros w; simpl.
  - now rewrite app_nil_r.
  - unfold ask_all in *. simpl. rewrite IH, get_ntp_time_log.
    now rewrite <- app_assoc.
Qed.

Lemma ask_all_app env pre post w :
  ask_all env (pre ++ post) w = ask_all env post (ask_all env pre w).
Proof. unfold ask_all. apply fold_left_app. Qed.

Lemma all_passed_over_cons env s rest w :
  all_passed_over env (s :: rest) w
  = negb (truthy_time (fst (get_ntp_time env s w)))
    && all_passed_over env rest (snd (get_ntp_time env s w)).
Proof. simpl. now destruct (get_ntp_time env s w). Qed.

Lemma sync_servers_cons env s rest c w :
  sync_servers env (s :: rest) c w
  = if truthy_time (fst (get_ntp_time env s w))
    then (true,
          {| servers := servers c;
             time_offset :=
               match fst (get_ntp_time env s w) with
               | Some t => t
               | None => 0
               end - wall (snd (get_ntp_time env s w));
             last_sync := wall (snd (get_ntp_time env s w)) |},
          snd (get_ntp_time env s w))
    else sync_servers env rest c (snd (get_ntp_time env s w)).
Proof.
  simpl. destruct (get_ntp_time env s w) as [[t|] w1]; simpl; [|reflexivity].
  now destruct (negb (Qeq_bool t 0)).
Qed.

Lemma sync_servers_passed_over env srvs c w :
  all_passed_over env srvs w = true ->
  sync_servers env srvs c w = (false, c, ask_all env srvs w).
Proof.
  revert w. induction srvs as [|s rest IH]; intros w; [reflexivity|].
  rewrite all_passed_over_cons, sync_servers_cons.
  intros Hf. apply andb_true_iff in Hf. destruct Hf as [Hs Hrest].
  apply negb_true_iff in Hs. rewrite Hs.
  unfold ask_all. simpl. now apply IH.
Qed.

Lemma sync_servers_first env pre server post c w t w1 :
  all_passed_over env pre w = true ->
  get_ntp_time env server (ask_all env pre w) = (Some t, w1) ->
  ~ t == 0 ->
  sync_servers env (pre ++ server :: post) c w =
    (true,
     {| servers := servers c; time_offset := t - wall w1;
        last_sync := wall w1 |},
     w1).
Proof.
  revert w. induction pre as [|s rest IH]; intros w Hf Hg Hnz.
  - unfold ask_all in Hg. simpl in Hg. simpl app.
    rewrite sync_servers_cons, Hg. cbn [fst snd].
    apply truthy_time_Some in Hnz. now rewrite Hnz.
  - rewrite all_passed_over_cons in Hf.
    apply andb_true_iff in Hf. destruct Hf as [Hs Hrest].
    apply negb_true_iff in Hs.
    simpl app. rewrite sync_servers_cons, Hs.
    apply IH; assumption.
Qed.

(** Every run of the loop is of one of the two kinds. *)
Lemma sync_servers_cases env srvs w :
  all_passed_over env srvs w = true
  \/ exists pre server post t w1,
       srvs = pre ++ server :: post
       /\ all_passed_over env pre w = true
       /\ get_ntp_time env server (ask_all env pre w) = (Some t, w1)
       /\ ~ t == 0.
Proof.
  revert w. induction srvs as [|s rest IH]; intros w; [now left|].
  rewrite all_passed_over_cons.
  destruct (truthy_time (fst (get_ntp_time env s w))) eqn:Ht.
  - right. destruct (get_ntp_time env s w) as [[t|] w1] eqn:Hg;
      [|discriminate].
    exists [], s, rest, t, w1. repeat split; try assumption.
    now apply truthy_time_Some.
  - destruct (IH (snd (get_ntp_time env s w)))
      as [Hall | (pre & server & post & t & w1 & -> & Hpre & Hg & Hnz)].
    + left. now rewrite Hall.
    + right. exists (s :: pre), server, post, t, w1.
      split; [reflexivity|]. split.
      * rewrite all_passed_over_cons, Ht. exact Hpre.
      * split; assumption.
Qed.

Example get_ntp_time_decodes :
  fst (get_ntp_time env_second_answers "time.nist.gov" (world_at 100))
  = Some (inject_Z 150).
Proof. reflexivity. Qed.

Example sync_time_second_source :
  sync_time env_second_answers (new_client None) (world_at 100)
  = (true,
     {| servers := default_servers;
        time_offset := inject_Z 150 - (100 + 5 + 2);
        last_sync := 100 + 5 + 2 |},
     {| wall := 100 + 5 + 2;
        io_log := [IoNtpQuery "pool.ntp.org"; IoNtpQuery "time.nist.gov"] |}).
Proof. reflexivity. Qed.

Example sync_time_passes_over_zero :
  sync_time env_first_answers_zero (new_client None) (world_at 100)
  = (true,
     {| servers := default_servers;
        time_offset := inject_Z 150 - (100 + 1 + 1);
        last_sync := 100 + 1 + 1 |},
     {| wall := 100 + 1 + 1;
        io_log := [IoNtpQuery "pool.ntp.org"; IoNtpQuery "time.nist.gov"] |}).
Proof. reflexivity. Qed.

(** C5 (as amended): [sync_time] asks the sources in list order and passes
    over every source that fails or whose answer decodes to the time 0; it
    stops at the first source that yields a non-zero time [t], stores
    [time_offset = t - local_time] and [last_sync = local_time], where
    [local_time] is the wall clock read after that reply has arrived, and
    returns [True].  If every source is passed over it returns [False] and
    the client (offset and last sync time included) is left as it was.
    Every run is of one of these two kinds. *)
Theorem sync_time_first_answer (env : Env) (c : NTPClient) (w : World) :
  (forall pre server post t w1,
      servers c = pre ++ server :: post ->
      all_passed_over env pre w = true ->
      get_ntp_time env server (ask_all env pre w) = (Some t, w1) ->
      ~ t == 0 ->
      sync_time env c w =
        (true,
         {| servers := servers c; time_offset := t - wall w1;
            last_sync := wall w1 |},
         w1)
      /\ io_log w1 = io_log w ++ map IoNtpQuery (pre ++ [server]))
  /\ (all_passed_over env (servers c) w = true ->
      exists w1,
        sync_time env c w = (false, c, w1)
        /\ io_log w1 = io_log w ++ map IoNtpQuery (servers c))
  /\ (all_passed_over env (servers c) w = true
      \/ exists pre server post t w1,
           servers c = pre ++ server :: post
           /\ all_passed_over env pre w = true
           /\ get_ntp_time env server (ask_all env pre w) = (Some t, w1)
           /\ ~ t == 0).
Proof.
  split; [|split].
  - intros pre server post t w1 Hs Hf Hg Hnz. unfold sync_time.
    split.
    { replace (sync_servers env (servers c) c w)
        with (sync_servers env (pre ++ server :: post) c w)
        by now rewrite Hs.
      now apply sync_servers_first. }
    pose proof (get_ntp_time_log env server (ask_all env pre w)) as Hl.
    rewrite Hg in Hl. simpl in Hl. rewrite Hl, ask_all_log.
    now rewrite map_app, app_assoc.
  - intros Hf. exists (ask_all env (servers c) w). split.
    + now apply sync_servers_passed_over.
    + apply ask_all_log.
  - apply sync_servers_cases.
Qed.

Lemma sync_time_first_answer_witness :
  (sync_time env_first_answers_zero (new_client None) (world_at 100) =
     (true,
      {| servers := default_servers;
         time_offset := inject_Z 150 - (100 + 1 + 1);
         last_sync := 100 + 1 + 1 |},
      {| wall := 100 + 1 + 1;
         io_log := [IoNtpQuery "pool.ntp.org"; IoNtpQuery "time.nist.gov"] |})
   /\ [IoNtpQuery "pool.ntp.org"; IoNtpQuery "time.nist.gov"] =
      [] ++ map IoNtpQuery (["pool.ntp.org"] ++ ["time.nist.gov"]))
  /\ exists w1,
       sync_time env_unreachable (new_client None) (world_at 100) =
         (false, new_client None, w1)
       /\ io_log w1 = [] ++ map IoNtpQuery default_servers.
Proof.
  split.
  - refine (proj1 (sync_time_first_answer env_first_answers_zero
                     (new_client None) (world_at 100))
              ["pool.ntp.org"] "time.nist.gov"
              ["time.google.com"; "cn.pool.ntp.org"] (inject_Z 150)
              {| wall := 100 + 1 + 1;
                 io_log := [IoNtpQuery "pool.ntp.org";
                            IoNtpQuery "time.nist.gov"] |}
              eq_refl eq_refl eq_refl _).
    intros Heq. vm_compute in Heq. discriminate Heq.
  - exact (proj1 (proj2 (sync_time_first_answer env_unreachable
                           (new_client None) (world_at 100))) eq_refl).
Defined.

(** C5 as stated fails, twice.  The only source answers a query sent at
    local time 100 with the remote time 150, two seconds later: the stored
    offset is 150 - 102, not 150 - 100.  And when the first source responds
    with a reply that decodes to the time 0, [sync_time] does not stop
    there: it asks the second source as well and takes its answer. *)
Lemma sync_time_offset_not_from_send_time :
  (fst (get_ntp_time env_second_answers "time.nist.gov" (world_at 100))
     = Some (inject_Z 150)
   /\ fst (fst (sync_time env_second_answers client_one_source
                  (world_at 100)))
      = true
   /\ ~ time_offset
          (snd (fst (sync_time env_second_answers client_one_source
                       (world_at 100))))
        == inject_Z 150 - wall (world_at 100))
  /\ (fst (get_ntp_time env_first_answers_zero "pool.ntp.org" (world_at 100))
        = Some (inject_Z 0)
      /\ fst (fst (sync_time env_first_answers_zero (new_client None)
                     (world_at 100)))
         = true
      /\ io_log (snd (sync_time env_first_answers_zero (new_client None)
                        (world_at 100)))
         = [IoNtpQuery "pool.ntp.org"; IoNtpQuery "time.nist.gov"]
      /\ time_offset
           (snd (fst (sync_time env_first_answers_zero (new_client None)
                        (world_at 100))))
         == inject_Z 150 - 102).
Proof.
  split.
  - repeat split. intros Heq. vm_compute in Heq. discriminate Heq.
  - repeat split.
Qed.

Lemma schedule_capture_unfold env c w sid delay :
  schedule_capture env c w sid delay =
    let cw := if is_synchronized c w 300 then (c, w)
              else (snd (fst (sync_time env c w)), snd (sync_time env c w)) in
    (match round_double (get_synchronized_time (fst cw) (snd cw)) with
     | None => Raised "timestamp out of range for platform time_t"
     | Some current_time =>
         match round_double (current_time + delay) with
         | None => Raised "timestamp out of range for platform time_t"
         | Some capture_time =>
             match format_time env capture_time with
             | Returned _ => Returned capture_time
             | Raised exc => Raised exc
             end
         end
     end, fst cw, snd cw).
Proof.
  unfold schedule_capture.
  destruct (is_synchronized c w 300); cbn [negb fst snd].
  - destruct (round_double (get_synchronized_time c w)) as [now|];
      [|reflexivity].
    destruct (round_double (now + delay)) as [q|]; [|reflexivity].
    now destruct (format_time env q).
  - destruct (sync_time env c w) as [[b c'] w']. cbn [fst snd].
    destruct (round_double (get_synchronized_time c' w')) as [now|];
      [|reflexivity].
    destruct (round_double (now + delay)) as [q|]; [|reflexivity].
    now destruct (format_time env q).
Qed.

(** The state in which [schedule_capture] reads the clock. *)
Lemma schedule_capture_state env c w sid delay :
  (snd (fst (schedule_capture env c w sid delay)),
   snd (schedule_capture env c w sid delay))
  = (if is_synchronized c w 300 then (c, w)
     else (snd (fst (sync_time env c w)), snd (sync_time env c w))).
Proof.
  rewrite schedule_capture_unfold. cbv zeta. cbn [fst snd].
  now destruct (is_synchronized c w 300).
Qed.

(** A capture time that [schedule_capture] returns has been rendered. *)
Lemma schedule_capture_returned env c w sid delay ct :
  fst (fst (schedule_capture env c w sid delay)) = Returned ct ->
  (exists reading,
      round_double
        (get_synchronized_time
           (snd (fst (schedule_capture env c w sid delay)))
           (snd (schedule_capture env c w sid delay))) = Some reading
      /\ round_double (reading + delay) = Some ct)
  /\ exists text, format_time env ct = Returned text.
Proof.
  rewrite schedule_capture_unfold. cbv zeta. cbn [fst snd].
  destruct (round_double (get_synchronized_time _ _)) as [now|];
    [|discriminate].
  destruct (round_double (now + delay)) as [x|] eqn:Hx; [|discriminate].
  destruct (format_time env x) as [text|exc] eqn:Hf; [|discriminate].
  intros [= <-]. split; [exists now; split; [reflexivity | exact Hx] | eauto].
Qed.

(** C4 (as amended): for [delay >= 0], [schedule_capture] runs [sync_time]
    first exactly when the clock is not synchronized, reads the synchronized
    clock (a double) and takes as capture time the double nearest to that
    reading plus [delay].  It returns that capture time exactly when the
    calendar can render it for the log line, and raises otherwise (also
    when the reading or the sum is an infinity).  A capture time returned
    is at least the reading (the synchronized time at the call when no sync
    was needed), and from one and the same starting point a larger delay
    never gives an earlier capture time. *)
Theorem schedule_capture_time (env : Env) (c : NTPClient) (w : World)
  (session_id : string) (delay : Q) (r : outcome Q) (c1 : NTPClient)
  (w1 : World) :
  0 <= delay ->
  schedule_capture env c w session_id delay = (r, c1, w1) ->
  (c1, w1) = (if is_synchronized c w 300 then (c, w)
              else (snd (fst (sync_time env c w)), snd (sync_time env c w)))
  /\ (forall ct,
        r = Returned ct
        <-> exists reading,
              round_double (get_synchronized_time c1 w1) = Some reading
              /\ round_double (reading + delay) = Some ct
              /\ exists text, format_time env ct = Returned text)
  /\ (forall exc,
        r = Raised exc ->
        round_double (get_synchronized_time c1 w1) = None
        \/ exists reading,
             round_double (get_synchronized_time c1 w1) = Some reading
             /\ (round_double (reading + delay) = None
                 \/ exists ct,
                      round_double (reading + delay) = Some ct
                      /\ format_time env ct = Raised exc))
  /\ (forall ct,
        r = Returned ct ->
        (forall reading,
            round_double (get_synchronized_time c1 w1) = Some reading ->
            reading <= ct)
        /\ (is_synchronized c w 300 = true ->
            forall reading,
              round_double (get_synchronized_time c w) = Some reading ->
              reading <= ct)
        /\ (forall d2 ct2,
              delay <= d2 ->
              fst (fst (schedule_capture env c w session_id d2))
              = Returned ct2 ->
              ct <= ct2)).
Proof.
  intros Hd Hs.
  pose proof (schedule_capture_state env c w session_id delay) as Hcw.
  rewrite Hs in Hcw. cbn [fst snd] in Hcw.
  split; [exact Hcw|].
  assert (Hr : r = match round_double (get_synchronized_time c1 w1) with
                   | None => Raised "timestamp out of range for platform time_t"
                   | Some current_time =>
                       match round_double (current_time + delay) with
                       | None =>
                           Raised "timestamp out of range for platform time_t"
                       | Some capture_time =>
                           match format_time env capture_time with
                           | Returned _ => Returned capture_time
                           | Raised exc => Raised exc
                           end
                       end
                   end).
  { rewrite schedule_capture_unfold in Hs. cbv zeta in Hs.
    injection Hs as Hr Hc Hw. now rewrite Hc, Hw in Hr. }
  assert (Hret : forall ct,
            r = Returned ct
            <-> exists reading,
                  round_double (get_synchronized_time c1 w1) = Some reading
                  /\ round_double (reading + delay) = Some ct
                  /\ exists text, format_time env ct = Returned text).
  { intros ct. rewrite Hr.
    destruct (round_double (get_synchronized_time c1 w1)) as [now|].
    - destruct (round_double (now + delay)) as [x|] eqn:Hx.
      + destruct (format_time env x) as [text|exc] eqn:Hf.
        * split.
          -- intros [= <-]. exists now. repeat split; eauto.
          -- intros (reading & [= <-] & Hsum & _). congruence.
        * split; [discriminate|].
          intros (reading & [= <-] & Hsum & text & Ht). congruence.
      + split; [discriminate|].
        intros (reading & [= <-] & Hsum & _). congruence.
    - split; [discriminate | intros (reading & H & _); discriminate H]. }
  split; [exact Hret|]. split.
  { intros exc Hexc. rewrite Hr in Hexc.
    destruct (round_double (get_synchronized_time c1 w1)) as [now|];
      [|now left].
    right. exists now. split; [reflexivity|].
    destruct (round_double (now + delay)) as [x|]; [|now left].
    right. exists x. split; [reflexivity|].
    destruct (format_time env x); congruence. }
  intros ct Hct. apply Hret in Hct.
  destruct Hct as (now & Hnow & Hround & _).
  assert (Hreading : forall reading,
            round_double (get_synchronized_time c1 w1) = Some reading ->
            reading <= ct).
  { intros reading Hrd. rewrite Hnow in Hrd. injection Hrd as <-.
    destruct (round_double_idem _ _ Hnow) as (again & Hagain & Heq).
    rewrite <- Heq.
    apply (round_double_mono _ _ _ _ Hagain Hround). lra. }
  split; [exact Hreading|]. split.
  - intros Hsync. rewrite Hsync in Hcw. injection Hcw as -> ->.
    exact Hreading.
  - intros d2 ct2 Hle H2.
    pose proof (schedule_capture_state env c w session_id d2) as Hcw2.
    rewrite <- Hcw in Hcw2.
    destruct (schedule_capture_returned env c w session_id d2 ct2 H2)
      as [(now2 & Hnow2 & Hround2) _].
    injection Hcw2 as Hc2 Hw2. rewrite Hc2, Hw2 in Hnow2.
    rewrite Hnow in Hnow2. injection Hnow2 as <-.
    apply (round_double_mono _ _ _ _ Hround Hround2). lra.
Qed.

Example schedule_capture_half_a_second :
  option_map Qred
    (returned (fst (fst (schedule_capture env_unreachable client_recent
                           (world_at 100) "capture_100000" (1 # 2)))))
  = Some (207 # 2).
Proof. vm_compute. reflexivity. Qed.

Lemma schedule_capture_time_witness :
  (client_recent, world_at 100)
  = (if is_synchronized client_recent (world_at 100) 300
     then (client_recent, world_at 100)
     else (snd (fst (sync_time env_unreachable client_recent (world_at 100))),
           snd (sync_time env_unreachable client_recent (world_at 100)))).
Proof.
  refine (proj1 (schedule_capture_time env_unreachable client_recent
                   (world_at 100) "capture_100000" (1 # 2)
                   (fst (fst (schedule_capture env_unreachable client_recent
                                (world_at 100) "capture_100000" (1 # 2))))
                   client_recent (world_at 100) _ _)).
  - unfold Qle. simpl. lia.
  - vm_compute. reflexivity.
Defined.

(** C4 as stated fails, in three ways.  The synchronized time at the moment
    of the call is 1000 (offset 0), the sync inside the call sets the
    offset to -500, and the capture time returned for the delay 1/2 is
    500.5.  With the synchronized clock at 1762243200, the delay 0 and the
    delay of a tenth of a microsecond give the same capture time.  And for
    a delay of 10^12 seconds no capture time is returned: the call
    raises. *)
Lemma schedule_capture_before_call_time :
  (0 <= 1 # 2
   /\ get_synchronized_time (new_client None) (world_at 1000) == 1000
   /\ option_map Qred
        (returned (fst (fst (schedule_capture env_clock_ahead
                               (new_client None) (world_at 1000)
                               "capture_1000000" (1 # 2)))))
      = Some (1001 # 2))
  /\ (0 < tenth_of_a_microsecond
      /\ is_synchronized client_in_2025 (world_at 1762243200) 300 = true
      /\ option_map Qred
           (returned (fst (fst (schedule_capture env_unreachable
                                  client_in_2025 (world_at 1762243200)
                                  "capture_1762243200000" 0))))
         = Some 1762243200
      /\ option_map Qred
           (returned (fst (fst (schedule_capture env_unreachable
                                  client_in_2025 (world_at 1762243200)
                                  "capture_1762243200000"
                                  tenth_of_a_microsecond))))
         = Some 1762243200)
  /\ (0 <= 1000000000000
      /\ fst (fst (schedule_capture env_unreachable client_recent
                     (world_at 100) "capture_100000" 1000000000000))
         = Raised "year 33658 is out of range").
Proof.
  repeat split; vm_compute; congruence.
Qed.

Lemma inject_Z_succ (f : nat) :
  inject_Z (Z.of_nat (S f)) == inject_Z (Z.of_nat f) + 1.
Proof.
  rewrite Nat2Z.inj_succ. unfold Z.succ. now rewrite inject_Z_plus.
Qed.

Lemma wait_trace_fires_once (t : Q) (tr : list wait_event) :
  wait_trace t tr ->
  fire_count tr = 1%nat
  /\ (forall seen, In (EvFire seen) tr -> t <= seen)
  /\ (forall seen d, In (EvSleep seen d) tr ->
        seen < t /\ (1 < t - seen /\ d = 1 \/ t - seen <= 1 /\ d = t - seen)).
Proof.
  induction 1 as [seen Hle | seen seen' H0 H1 Hle | seen tr H1 Htr IH].
  - split; [reflexivity|]. split.
    + intros x [[= <-]|[]]. lra.
    + intros x d [E|[]]. discriminate.
  - split; [reflexivity|]. split.
    + intros x [E|[[= <-]|[]]]; [discriminate | lra].
    + intros x d [[= <- <-]|[E|[]]]; [|discriminate].
      split; [lra|]. right. split; [lra | reflexivity].
  - destruct IH as (Hc & Hin & Hsl). split; [exact Hc|]. split.
    + intros x [E|Hx]; [discriminate | auto].
    + intros x d [[= <- <-]|Hx]; [|auto].
      split; [lra|]. left. split; [lra | reflexivity].
Qed.

Section Wait.
Context {S : Type}.
Variable sleep : Sleeper.
Variable cb : S -> S.
Variable s : S.
Variable t : Q.
Variable first : nat.
Hypothesis progress : settles_after first sleep.

Lemma wait_runs (fuel : nat) :
  forall n cw,
    (first <= n)%nat ->
    (1 <= fuel)%nat ->
    t - now_of cw <= 0 \/ t - now_of cw + 2 <= inject_Z (Z.of_nat fuel) ->
    exists tr cw',
      wait_for_capture_time fuel sleep n cw s t (Some cb) = Some (tr, cw', cb s)
      /\ wait_trace t tr
      /\ (t - now_of cw <= 0 -> tr = [EvFire (now_of cw)] /\ cw' = cw).
Proof.
  induction fuel as [|fuel IH]; intros n cw Hn Hpos Hbound; [lia|].
  simpl. fold (now_of cw).
  destruct (Qle_bool (t - now_of cw) 0) eqn:Hnow.
  - apply Qle_bool_iff in Hnow.
    exists [EvFire (now_of cw)], cw. repeat split. now constructor.
  - apply Qle_bool_false in Hnow.
    destruct Hbound as [Hle|Hbound]; [lra|].
    rewrite inject_Z_succ in Hbound.
    set (d := if Qgtb (t - now_of cw) 1 then 1 else t - now_of cw).
    assert (Hd : 0 < d).
    { unfold d. destruct (Qgtb (t - now_of cw) 1); lra. }
    pose proof (progress n d cw Hn Hd) as Hp.
    assert (Hfuel : (1 <= fuel)%nat).
    { destruct fuel; [|lia].
      change (inject_Z (Z.of_nat 0)) with 0 in Hbound. lra. }
    assert (Hn' : (first <= Datatypes.S n)%nat) by lia.
    destruct (Qgtb (t - now_of cw) 1) eqn:Hgt; subst d.
    + apply Qltb_lt in Hgt.
      destruct (IH (Datatypes.S n) (sleep n 1 cw) Hn' Hfuel)
        as (tr & cw' & -> & Htr & _).
      { right. lra. }
      exists (EvSleep (now_of cw) 1 :: tr), cw'. split; [reflexivity|].
      split; [now constructor | lra].
    + apply Qltb_ge in Hgt.
      destruct (IH (Datatypes.S n) (sleep n (t - now_of cw) cw) Hn' Hfuel)
        as (tr & cw' & -> & _ & Hpast).
      { left. lra. }
      destruct Hpast as [-> ->]; [lra|].
      eexists _, _. split; [reflexivity|].
      split; [constructor; lra | lra].
Qed.

(** Once the sleeps make progress, the loop ends. *)
Lemma wait_settled (n : nat) (cw : NTPClient * World) :
  (first <= n)%nat ->
  exists fuel0, forall fuel, (fuel0 <= fuel)%nat ->
    exists tr cw',
      wait_for_capture_time fuel sleep n cw s t (Some cb)
        = Some (tr, cw', cb s)
      /\ wait_trace t tr
      /\ (t - now_of cw <= 0 -> tr = [EvFire (now_of cw)] /\ cw' = cw).
Proof.
  intros Hn.
  exists (Z.to_nat (Qceiling (t - now_of cw)) + 3)%nat.
  intros fuel Hfuel.
  apply (wait_runs fuel n cw Hn); [lia|].
  right.
  pose proof (Qle_ceiling (t - now_of cw)) as Hc.
  assert (Hz : (Qceiling (t - now_of cw) + 2 <= Z.of_nat fuel)%Z) by lia.
  rewrite Zle_Qle, inject_Z_plus in Hz.
  change (inject_Z 2) with 2 in Hz. lra.
Qed.

(** The loop ends also when it starts before the sleeps make progress. *)
Lemma wait_ends (k : nat) :
  forall n cw,
    (first <= n + k)%nat ->
    exists fuel0, forall fuel, (fuel0 <= fuel)%nat ->
      exists tr cw',
        wait_for_capture_time fuel sleep n cw s t (Some cb)
        = Some (tr, cw', cb s).
Proof.
  induction k as [|k IH]; intros n cw Hn.
  - destruct (wait_settled n cw) as [fuel0 Hf]; [lia|].
    exists fuel0. intros fuel Hfuel.
    destruct (Hf fuel Hfuel) as (tr & cw' & Hrun & _). eauto.
  - destruct (Qle_bool (t - now_of cw) 0) eqn:Hnow.
    + exists 1%nat. intros fuel Hfuel.
      destruct fuel as [|fuel]; [lia|].
      simpl. fold (now_of cw). rewrite Hnow. eauto.
    + set (d := if Qgtb (t - now_of cw) 1 then 1 else t - now_of cw).
      destruct (IH (Datatypes.S n) (sleep n d cw)) as [fuel0 Hf]; [lia|].
      exists (Datatypes.S fuel0). intros fuel Hfuel.
      destruct fuel as [|fuel]; [lia|].
      destruct (Hf fuel) as (tr & cw' & Hrun); [lia|].
      simpl. fold (now_of cw). rewrite Hnow. fold d. rewrite Hrun. eauto.
Qed.

End Wait.

Lemma sleeps_long_enough_settles (sleep : Sleeper) :
  sleeps_long_enough sleep -> settles_after 0 sleep.
Proof. intros H n d cw _ Hd. now apply H. Qed.

(** More fuel does not change what a wait returns. *)
Lemma wait_fuel_mono {S : Type} (sleep : Sleeper) (t : Q)
  (cb : option (S -> S)) (fuel : nat) :
  forall fuel' n cw s r,
    (fuel <= fuel')%nat ->
    wait_for_capture_time fuel sleep n cw s t cb = Some r ->
    wait_for_capture_time fuel' sleep n cw s t cb = Some r.
Proof.
  induction fuel as [|fuel IH]; intros fuel' n cw s r Hle Hrun;
    [discriminate|].
  destruct fuel' as [|fuel']; [lia|].
  simpl in Hrun |- *.
  destruct (Qle_bool (t - get_synchronized_time (fst cw) (snd cw)) 0);
    [exact Hrun|].
  match type of Hrun with
  | match ?x with _ => _ end = _ => destruct x as [[[tr0 cw0] s0]|] eqn:Hrec
  end; [|discriminate].
  rewrite (IH fuel' _ _ _ _ ltac:(lia) Hrec). exact Hrun.
Qed.

(** What a wait returns is a run of the loop as it is described, whatever
    the sleeps do. *)
Lemma wait_is_run {S : Type} (sleep : Sleeper) (t : Q) (cb : S -> S)
  (fuel : nat) :
  forall n cw s tr cw' s',
    wait_for_capture_time fuel sleep n cw s t (Some cb) = Some (tr, cw', s') ->
    wait_run sleep t n cw tr cw' /\ s' = cb s.
Proof.
  induction fuel as [|fuel IH]; intros n cw s tr cw' s' Hrun; [discriminate|].
  simpl in Hrun. fold (now_of cw) in Hrun.
  destruct (Qle_bool (t - now_of cw) 0) eqn:Hnow.
  - apply Qle_bool_iff in Hnow. injection Hrun as <- <- <-.
    split; [|reflexivity]. constructor. lra.
  - apply Qle_bool_false in Hnow.
    match type of Hrun with
    | match ?x with _ => _ end = _ => destruct x as [[[tr0 cw0] s0]|] eqn:Hrec
    end; [|discriminate].
    injection Hrun as <- <- <-.
    destruct (Qgtb (t - now_of cw) 1) eqn:Hgt.
    + apply Qltb_lt in Hgt. destruct (IH _ _ _ _ _ _ Hrec) as [Hr ->].
      split; [|reflexivity]. now apply run_coarse.
    + apply Qltb_ge in Hgt. destruct (IH _ _ _ _ _ _ Hrec) as [Hr ->].
      split; [|reflexivity]. apply run_fine; [lra | lra | exact Hr].
Qed.

(** A run fires once, at its last reading, which has reached [t]. *)
Lemma wait_run_fires_once (sleep : Sleeper) (t : Q) n cw tr cw' :
  wait_run sleep t n cw tr cw' ->
  fire_count tr = 1%nat
  /\ t <= now_of cw'
  /\ (forall seen, In (EvFire seen) tr -> seen = now_of cw').
Proof.
  induction 1 as [n cw Hle | n cw tr cw' Hgt Hrun IH
                 | n cw tr cw' Hlt Hle Hrun IH].
  - split; [reflexivity|]. split; [exact Hle|].
    intros x [[= <-]|[]]. reflexivity.
  - destruct IH as (Hc & Ht & Hf). split; [exact Hc|]. split; [exact Ht|].
    intros x [E|Hx]; [discriminate | auto].
  - destruct IH as (Hc & Ht & Hf). split; [exact Hc|]. split; [exact Ht|].
    intros x [E|Hx]; [discriminate | auto].
Qed.

Lemma wait_never_early {S : Type} (sleep : Sleeper) (t : Q)
  (cb : option (S -> S)) (fuel : nat) :
  forall n cw s tr cw' s',
    wait_for_capture_time fuel sleep n cw s t cb = Some (tr, cw', s') ->
    forall seen, In (EvFire seen) tr -> t <= seen.
Proof.
  induction fuel as [|fuel IH]; intros n cw s tr cw' s' Hrun seen Hin;
    [discriminate|].
  simpl in Hrun.
  destruct (Qle_bool (t - get_synchronized_time (fst cw) (snd cw)) 0) eqn:Hnow.
  - apply Qle_bool_iff in Hnow.
    destruct cb; injection Hrun as <- <- <-; [|contradiction].
    destruct Hin as [[= <-]|[]]. lra.
  - match type of Hrun with
    | match ?r with _ => _ end = _ => destruct r as [[[tr0 cw0] s0]|] eqn:Hrec
    end; [|discriminate].
    injection Hrun as <- <- <-.
    destruct Hin as [E|Hin]; [discriminate|].
    eapply IH; eauto.
Qed.

Lemma punctual_sleeps_long_enough : sleeps_long_enough punctual.
Proof.
  intros n d [c w] Hd. unfold now_of, punctual, get_synchronized_time. simpl.
  lra.
Qed.

Lemma wait_returns {S : Type} (sleep : Sleeper)
  (cb : S -> S) (s : S) (t : Q) (n : nat) (cw : NTPClient * World) :
  sleeps_long_enough sleep ->
  exists fuel0, forall fuel, (fuel0 <= fuel)%nat ->
    exists tr cw',
      wait_for_capture_time fuel sleep n cw s t (Some cb)
        = Some (tr, cw', cb s)
      /\ wait_trace t tr
      /\ (t - now_of cw <= 0 -> tr = [EvFire (now_of cw)] /\ cw' = cw).
Proof.
  intros Hprog.
  apply (wait_settled sleep cb s t 0
           (sleeps_long_enough_settles sleep Hprog) n cw).
  lia.
Qed.

(** C3: given an action, whatever the sleeps of [wait_for_capture_time] do
    to the clock and the offset, a wait that returns has gone through the
    loop as it is described: it read the synchronized clock before each
    step, slept one second whenever more than a second was left and exactly
    what was left otherwise, and ran the action exactly once, at its last
    reading, which had reached the capture time.  A capture time already
    reached fires at once without sleeping.  The wait returns provided that,
    from some suspension on, a sleep lasts at least as long as requested on
    the synchronized clock; if every sleep does, the sleeps are one-second
    sleeps followed by at most one sleep of the remainder. *)
Theorem wait_for_capture_time_fires_once {S : Type} (sleep : Sleeper)
  (cb : S -> S) (s : S) (t : Q) (n : nat) (cw : NTPClient * World) :
  (forall fuel tr cw' s',
      wait_for_capture_time fuel sleep n cw s t (Some cb)
      = Some (tr, cw', s') ->
      s' = cb s
      /\ fire_count tr = 1%nat
      /\ wait_run sleep t n cw tr cw'
      /\ t <= now_of cw'
      /\ (forall seen, In (EvFire seen) tr -> seen = now_of cw'))
  /\ (t <= now_of cw ->
      forall fuel, (1 <= fuel)%nat ->
        wait_for_capture_time fuel sleep n cw s t (Some cb)
        = Some ([EvFire (now_of cw)], cw, cb s))
  /\ (forall first,
        settles_after first sleep ->
        exists fuel0, forall fuel, (fuel0 <= fuel)%nat ->
          exists tr cw',
            wait_for_capture_time fuel sleep n cw s t (Some cb)
            = Some (tr, cw', cb s))
  /\ (sleeps_long_enough sleep ->
      forall fuel tr cw' s',
        wait_for_capture_time fuel sleep n cw s t (Some cb)
        = Some (tr, cw', s') ->
        wait_trace t tr).
Proof.
  split; [|split; [|split]].
  - intros fuel tr cw' s' Hrun.
    destruct (wait_is_run sleep t cb fuel n cw s tr cw' s' Hrun) as [Hr ->].
    destruct (wait_run_fires_once sleep t n cw tr cw' Hr) as (Hc & Ht & Hf).
    repeat split; assumption.
  - intros Hpast fuel Hfuel. destruct fuel as [|fuel]; [lia|].
    simpl. fold (now_of cw).
    assert (Hle : Qle_bool (t - now_of cw) 0 = true)
      by (apply Qle_bool_iff; lra).
    now rewrite Hle.
  - intros first Hsettles.
    apply (wait_ends sleep cb s t first Hsettles first n cw). lia.
  - intros Hprog fuel tr cw' s' Hrun.
    destruct (wait_returns sleep cb s t n cw Hprog) as [fuel0 Hf].
    destruct (Hf (Nat.max fuel fuel0)) as (tr2 & cw2 & Hrun2 & Htr & _);
      [lia|].
    rewrite (wait_fuel_mono sleep t (Some cb) fuel (Nat.max fuel fuel0)
               n cw s (tr, cw', s') ltac:(lia) Hrun) in Hrun2.
    injection Hrun2 as -> _ _. exact Htr.
Qed.

Example wait_from_103_to_105_5 :
  option_map (fun r => (fst (fst r), snd r))
    (wait_for_capture_time 6 punctual 0 (client_recent, world_at 100) 0%nat
       (105 + (1 # 2)) (Some Datatypes.S))
  = Some ([EvSleep 103 1; EvSleep 104 1; EvSleep 105 (1 # 2);
           EvFire (211 # 2)], 1%nat).
Proof. vm_compute. reflexivity. Qed.

Example wait_for_a_past_time :
  option_map (fun r => (fst (fst r), snd r))
    (wait_for_capture_time 1 punctual 0 (client_recent, world_at 100) 0%nat
       90 (Some Datatypes.S))
  = Some ([EvFire (100 + 3)], 1%nat).
Proof. reflexivity. Qed.

Example wait_without_callback :
  option_map (fun r => (fst (fst r), snd r))
    (wait_for_capture_time 1 punctual 0 (client_recent, world_at 100) 0%nat
       90 None)
  = Some ([], 0%nat).
Proof. reflexivity. Qed.

Lemma restless_settles : settles_after 1 restless.
Proof.
  intros n d [c w] Hn Hd. destruct n as [|n]; [lia|].
  unfold now_of, restless, punctual, get_synchronized_time. simpl. lra.
Qed.

Lemma wait_for_capture_time_fires_once_witness :
  (exists fuel0, forall fuel, (fuel0 <= fuel)%nat ->
     exists tr cw',
       wait_for_capture_time fuel restless 0 (client_recent, world_at 100)
         0%nat (104 + (1 # 2)) (Some Datatypes.S)
       = Some (tr, cw', 1%nat))
  /\ wait_trace (105 + (1 # 2))
       [EvSleep 103 1; EvSleep 104 1; EvSleep 105 (105 + (1 # 2) - 105);
        EvFire (211 # 2)].
Proof.
  split.
  - destruct (wait_for_capture_time_fires_once restless Datatypes.S 0%nat
                (104 + (1 # 2)) 0 (client_recent, world_at 100))
      as (_ & _ & Hends & _).
    apply (Hends 1%nat).
    intros n d cw Hn Hd. destruct n as [|n]; [lia|].
    unfold now_of, restless, punctual, get_synchronized_time. simpl. lra.
  - destruct (wait_for_capture_time_fires_once punctual Datatypes.S 0%nat
                (105 + (1 # 2)) 0 (client_recent, world_at 100))
      as (_ & _ & _ & Hshape).
    apply (fun H => Hshape H 6%nat _
             (client_recent, world_at (100 + 1 + 1 + (105 + (1 # 2) - 105)))
             1%nat).
    + intros n d cw Hd. unfold now_of, punctual, get_synchronized_time.
      simpl. lra.
    + vm_compute. reflexivity.
Defined.

End NtpFacts.

(** ** The fleet registry *)

Module ManagerFacts.
Import NtpSync Manager NtpSpec ManagerSpec NtpFacts.

Lemma allocate_scan_sound (fuel : nat) (d : dict Z CameraNode) :
  forall next r,
    allocate_scan fuel d next = Some r ->
    (next <= r)%Z /\ ~ In r (keys d)
    /\ forall j, (next <= j < r)%Z -> In j (keys d).
Proof.
  induction fuel as [|fuel IH]; intros next r Hs; [discriminate|].
  simpl in Hs. destruct (dict_mem next d) eqn:Hm.
  - apply IH in Hs. destruct Hs as (Hle & Hnot & Hall).
    split; [lia|]. split; [assumption|].
    intros j Hj. destruct (Z.eq_dec j next) as [->|Hne].
    + now apply dict_mem_true.
    + apply Hall. lia.
  - injection Hs as <-. split; [lia|]. split.
    + now apply dict_mem_false.
    + intros j Hj. lia.
Qed.

Lemma allocate_scan_None (fuel : nat) (d : dict Z CameraNode) :
  forall next,
    allocate_scan fuel d next = None ->
    forall i, (i < fuel)%nat -> In (next + Z.of_nat i)%Z (keys d).
Proof.
  induction fuel as [|fuel IH]; intros next Hs i Hi; [lia|].
  simpl in Hs. destruct (dict_mem next d) eqn:Hm; [|discriminate].
  destruct i as [|i].
  - rewrite Z.add_0_r. now apply dict_mem_true.
  - replace (next + Z.of_nat (S i))%Z with (next + 1 + Z.of_nat i)%Z by lia.
    apply IH; [assumption | lia].
Qed.

(** The scan of [allocate_node_id] always finds a free id within its
    bound: the loop of the source terminates. *)
Lemma allocate_scan_total (d : dict Z CameraNode) (next : Z) :
  exists r, allocate_scan (S (List.length d)) d next = Some r.
Proof.
  destruct (allocate_scan (S (List.length d)) d next) as [r|] eqn:Hs;
    [eauto|].
  exfalso.
  pose proof (allocate_scan_None _ _ _ Hs) as Hall.
  set (l := map (fun i => (next + Z.of_nat i)%Z) (seq 0 (S (List.length d)))).
  assert (Hnd : NoDup l).
  { unfold l. apply Injective_map_NoDup; [|apply seq_NoDup].
    intros a b Hab. lia. }
  assert (Hincl : incl l (keys d)).
  { intros x Hx. unfold l in Hx. apply in_map_iff in Hx.
    destruct Hx as (i & <- & Hi). apply in_seq in Hi. apply Hall. lia. }
  pose proof (NoDup_incl_length Hnd Hincl) as Hlen.
  unfold l, keys in Hlen. rewrite !length_map, length_seq in Hlen. lia.
Qed.

(** *** The scans leave the shape of the dictionary alone *)

Lemma monitor_scan_nodes (now : Q) (todo : dict Z CameraNode) :
  forall seen m,
    nodes (monitor_scan now seen todo m) = seen ++ map (tick_entry now) todo
    /\ running (monitor_scan now seen todo m) = running m
    /\ next_node_id (monitor_scan now seen todo m) = next_node_id m.
Proof.
  induction todo as [|[k node] rest IH]; intros seen m; simpl.
  - now rewrite app_nil_r.
  - unfold tick_entry at 1. simpl.
    destruct (timed_out now node).
    + match goal with
      | |- context [monitor_scan now _ rest ?m2] =>
          destruct (IH (seen ++ [(k, set_status_ready node "offline" false)]) m2)
            as (Hn & Hr & Hx)
      end.
      rewrite Hn, Hr, Hx, <- app_assoc. simpl.
      repeat split; destruct (preview_is _ _); try reflexivity;
        unfold switch_to_next_online_node;
        destruct (find _ _) as [[? ?]|]; reflexivity.
    + destruct (IH (seen ++ [(k, node)]) m) as (Hn & Hr & Hx).
      rewrite Hn, Hr, Hx, <- app_assoc. now simpl.
Qed.

Lemma heartbeat_monitor_tick_nodes (now : Q) (m : CameraManager) :
  nodes (heartbeat_monitor_tick now m) = map (tick_entry now) (nodes m).
Proof. unfold heartbeat_monitor_tick. apply monitor_scan_nodes. Qed.

Lemma tick_entry_key (now : Q) (kv : Z * CameraNode) :
  fst (tick_entry now kv) = fst kv.
Proof. unfold tick_entry. now destruct (timed_out now (snd kv)). Qed.

Lemma tick_entry_id (now : Q) (kv : Z * CameraNode) :
  node_id (snd (tick_entry now kv)) = node_id (snd kv).
Proof. unfold tick_entry. now destruct (timed_out now (snd kv)). Qed.

Lemma keys_tick (now : Q) (d : dict Z CameraNode) :
  keys (map (tick_entry now) d) = keys d.
Proof.
  unfold keys. rewrite map_map. apply map_ext. apply tick_entry_key.
Qed.

Lemma same_but_ready_refl (d : dict Z CameraNode) : same_but_ready d d.
Proof.
  induction d as [|[k n] d IH]; constructor; [|exact IH].
  split; [reflexivity|]. exists (is_ready n). now destruct n.
Qed.

Lemma same_but_ready_app (a a' b b' : dict Z CameraNode) :
  same_but_ready a a' -> same_but_ready b b' ->
  same_but_ready (a ++ b) (a' ++ b').
Proof. apply Forall2_app. Qed.

Lemma same_but_ready_keys (d d' : dict Z CameraNode) :
  same_but_ready d d' -> keys d' = keys d.
Proof.
  induction 1 as [|a b d d' [Hk _] _ IH]; simpl; [reflexivity|].
  now rewrite Hk, IH.
Qed.

Lemma same_but_ready_keyed (d d' : dict Z CameraNode) :
  same_but_ready d d' -> keyed_by_id d -> keyed_by_id d'.
Proof.
  induction 1 as [|a b d d' [Hk [r Hr]] _ IH]; intros Hkd; [constructor|].
  inversion Hkd as [|? ? Ha Hd]; subst. constructor; [|now apply IH].
  rewrite Hr, Hk. simpl. assumption.
Qed.

Lemma ready_scan_nodes (env : Env) (todo : dict Z CameraNode) :
  forall seen m rs w,
    exists todo',
      nodes (snd (fst (ready_scan env seen todo m rs w))) = seen ++ todo'
      /\ same_but_ready todo todo'
      /\ running (snd (fst (ready_scan env seen todo m rs w))) = running m
      /\ next_node_id (snd (fst (ready_scan env seen todo m rs w)))
         = next_node_id m
      /\ current_preview_node (snd (fst (ready_scan env seen todo m rs w)))
         = current_preview_node m.
Proof.
  induction todo as [|[k node] rest IH]; intros seen m rs w; simpl.
  - exists []. rewrite app_nil_r. repeat split. constructor.
  - destruct (is_online node).
    + destruct (check_node_ready env _ (node_id node) w) as [r w1].
      destruct (IH (seen ++ [(k, set_ready node r)]) m
                  (dict_set (node_id node) r rs) w1)
        as (todo' & Hn & Hs & Hr & Hx & Hp).
      exists ((k, set_ready node r) :: todo').
      rewrite Hn, <- app_assoc. repeat split; try assumption.
      constructor; [|assumption]. split; [reflexivity | now exists r].
    + destruct (IH (seen ++ [(k, set_ready node false)]) m
                  (dict_set (node_id node) false rs) w)
        as (todo' & Hn & Hs & Hr & Hx & Hp).
      exists ((k, set_ready node false) :: todo').
      rewrite Hn, <- app_assoc. repeat split; try assumption.
      constructor; [|assumption]. split; [reflexivity | now exists false].
Qed.

Lemma check_all_nodes_ready_nodes (env : Env) (m : CameraManager) (w : World) :
  same_but_ready (nodes m) (nodes (snd (fst (check_all_nodes_ready env m w))))
  /\ running (snd (fst (check_all_nodes_ready env m w))) = running m
  /\ next_node_id (snd (fst (check_all_nodes_ready env m w))) = next_node_id m
  /\ current_preview_node (snd (fst (check_all_nodes_ready env m w)))
     = current_preview_node m.
Proof.
  unfold check_all_nodes_ready.
  destruct (ready_scan_nodes env (nodes m) [] m [] w)
    as (todo' & Hn & Hs & Hr & Hx & Hp).
  rewrite Hn. simpl. auto.
Qed.

(** *** The registry invariant *)

Lemma keyed_dict_set (k : Z) (v : CameraNode) (d : dict Z CameraNode) :
  keyed_by_id d -> node_id v = k -> keyed_by_id (dict_set k v d).
Proof.
  intros Hd Hv. induction d as [|[k' v'] d IH]; simpl.
  - constructor; [assumption | constructor].
  - inversion Hd as [|? ? Ha Hd']; subst.
    destruct (Z.eqb_spec (node_id v) k') as [E|Hne].
    + constructor; assumption.
    + constructor; [assumption | now apply IH].
Qed.

Lemma keyed_lookup (k : Z) (v : CameraNode) (d : dict Z CameraNode) :
  keyed_by_id d -> dict_get k d = Some v -> node_id v = k.
Proof.
  intros Hd Hg. apply dict_get_Some_In in Hg.
  unfold keyed_by_id in Hd. rewrite Forall_forall in Hd.
  exact (Hd _ Hg).
Qed.

Lemma well_formed_new : well_formed new_manager.
Proof.
  constructor; simpl; [constructor | constructor | lia | intros j Hj; lia].
Qed.

(** Replacing the dictionary by one with at least the same keys. *)
Lemma well_formed_with_nodes (m : CameraManager) (d : dict Z CameraNode) :
  well_formed m ->
  NoDup (keys d) -> keyed_by_id d -> incl (keys (nodes m)) (keys d) ->
  well_formed (with_nodes m d).
Proof.
  intros [Hnd Hk Hp Hdense] Hnd' Hk' Hincl.
  constructor; simpl; auto.
Qed.

Lemma well_formed_same_fields (m m' : CameraManager) :
  well_formed m ->
  nodes m' = nodes m -> next_node_id m' = next_node_id m ->
  well_formed m'.
Proof.
  intros [Hnd Hk Hp Hdense] Hn Hx.
  constructor; rewrite ?Hn, ?Hx; assumption.
Qed.

Lemma switch_to_next_online_node_fields (m : CameraManager) :
  nodes (switch_to_next_online_node m) = nodes m
  /\ next_node_id (switch_to_next_online_node m) = next_node_id m
  /\ running (switch_to_next_online_node m) = running m.
Proof.
  unfold switch_to_next_online_node.
  destruct (find _ (nodes m)) as [[? ?]|]; auto.
Qed.

Lemma allocate_node_id_spec (m : CameraManager) :
  well_formed m ->
  exists id,
    allocate_node_id m = Some (id, with_next_id m (id + 1)%Z)
    /\ (next_node_id m <= id)%Z
    /\ smallest_unused (nodes m) id.
Proof.
  intros [Hnd Hk Hp Hdense]. unfold allocate_node_id.
  destruct (allocate_scan_total (nodes m) (next_node_id m)) as [r Hr].
  rewrite Hr. exists r. split; [reflexivity|].
  apply allocate_scan_sound in Hr. destruct Hr as (Hle & Hnot & Hall).
  split; [assumption|]. split; [lia|]. split; [assumption|].
  intros j Hj. destruct (Z_lt_le_dec j (next_node_id m)).
  - apply Hdense. lia.
  - apply Hall. lia.
Qed.

Lemma register_node_spec (now : Q) (m : CameraManager) (data : NodeData) :
  well_formed m -> has_address data ->
  exists id ip m',
    register_node now m data = Some (RegisterOk id, m')
    /\ nd_local_ip data = Some ip
    /\ smallest_unused (nodes m) id
    /\ nodes m' =
         nodes m ++
         [(id, {| node_id := id; ip_address := Some ip;
                  node_port := get_default (nd_node_port data) 8084%Z;
                  status := "online"; last_heartbeat := now;
                  is_ready := false;
                  capabilities := get_default (nd_capabilities data) [] |})]
    /\ next_node_id m' = (id + 1)%Z
    /\ running m' = running m
    /\ current_preview_node m' =
         match current_preview_node m with
         | None => Some id
         | Some p => Some p
         end.
Proof.
  intros Hwf Haddr. unfold has_address in Haddr. unfold register_node.
  destruct (nd_local_ip data) as [ip|] eqn:Hip; [|discriminate].
  rewrite Haddr.
  destruct (allocate_node_id_spec m Hwf) as (id & -> & Hle & Hsm).
  exists id, ip. eexists. split; [reflexivity|]. split; [reflexivity|].
  split; [assumption|].
  destruct Hsm as (Hpos & Hnot & Hall).
  apply dict_get_None in Hnot.
  assert (Hset : forall v, dict_set id v (nodes m) = nodes m ++ [(id, v)]).
  { intros v. clear - Hnot. induction (nodes m) as [|[k' v'] d IH]; simpl in *.
    - reflexivity.
    - destruct (Z.eqb id k'); [discriminate|]. now rewrite IH. }
  simpl. rewrite Hset.
  destruct (current_preview_node m) eqn:Hprev; simpl; rewrite ?Hprev;
    repeat split; reflexivity.
Qed.

Lemma register_node_refused (now : Q) (m : CameraManager) (data : NodeData) :
  truthy_string (nd_local_ip data) = false ->
  exists e, register_node now m data = Some (RegisterError e, m).
Proof.
  intros Hf. unfold register_node.
  destruct (nd_local_ip data); [rewrite Hf|]; eauto.
Qed.

Lemma well_formed_register (now : Q) (m : CameraManager) (data : NodeData)
  (r : RegisterResult) (m' : CameraManager) :
  well_formed m -> register_node now m data = Some (r, m') -> well_formed m'.
Proof.
  intros Hwf Hreg.
  destruct (truthy_string (nd_local_ip data)) eqn:Haddr.
  - destruct (register_node_spec now m data Hwf Haddr)
      as (id & ip & m2 & Hreg' & _ & (Hpos & Hnot & Hall) & Hn & Hx & _).
    rewrite Hreg' in Hreg. injection Hreg as <- <-.
    destruct Hwf as [Hnd Hk Hp Hdense].
    constructor.
    + rewrite Hn. unfold keys. rewrite map_app. simpl.
      apply NoDup_app; [assumption | repeat constructor; simpl; tauto |].
      intros x Hx' [<-|[]]. contradiction.
    + rewrite Hn. apply Forall_app. split; [assumption|].
      constructor; [reflexivity | constructor].
    + lia.
    + intros j Hj. rewrite Hn. unfold keys. rewrite map_app, in_app_iff.
      simpl. destruct (Z.eq_dec j id) as [->|Hne]; [auto|].
      left. apply Hall. lia.
  - destruct (register_node_refused now m data Haddr) as [e He].
    rewrite He in Hreg. injection Hreg as <- <-. assumption.
Qed.

Lemma well_formed_dict_set_known (m : CameraManager) (k : Z)
  (old v : CameraNode) :
  well_formed m -> dict_get k (nodes m) = Some old -> node_id v = node_id old ->
  well_formed (with_nodes m (dict_set k v (nodes m))).
Proof.
  intros Hwf Hg Hid. pose proof Hwf as [Hnd Hk Hp Hdense].
  apply well_formed_with_nodes; try assumption.
  - now apply NoDup_keys_dict_set.
  - apply keyed_dict_set; [assumption|].
    rewrite Hid. eapply keyed_lookup; eauto.
  - intros x Hx. apply in_keys_dict_set. now right.
Qed.

Lemma well_formed_online (now : Q) (m : CameraManager) (data : NodeData) :
  well_formed m -> well_formed (snd (node_online now m data)).
Proof.
  intros Hwf. unfold node_online.
  destruct (dict_get (nd_node_id data) (nodes m)) as [node|] eqn:Hg; simpl.
  - eapply well_formed_dict_set_known; eauto.
  - pose proof Hwf as [Hnd Hk Hp Hdense].
    apply well_formed_with_nodes; try assumption.
    + now apply NoDup_keys_dict_set.
    + now apply keyed_dict_set.
    + intros x Hx. apply in_keys_dict_set. now right.
Qed.

Lemma well_formed_offline (m : CameraManager) (data : NodeData) :
  well_formed m -> well_formed (snd (node_offline m data)).
Proof.
  intros Hwf. unfold node_offline.
  destruct (dict_get (nd_node_id data) (nodes m)) as [node|] eqn:Hg; simpl;
    [|assumption].
  assert (Hwf1 : well_formed
                   (with_nodes m
                      (dict_set (nd_node_id data)
                         (set_status_ready node "offline" false) (nodes m))))
    by (eapply well_formed_dict_set_known; eauto).
  destruct (preview_is _ _); [|assumption].
  eapply well_formed_same_fields; [exact Hwf1 | |];
    apply switch_to_next_online_node_fields.
Qed.

Lemma well_formed_heartbeat (now : Q) (m : CameraManager) (data : NodeData) :
  well_formed m -> well_formed (update_heartbeat now m data).
Proof.
  intros Hwf. unfold update_heartbeat.
  destruct (dict_get (nd_node_id data) (nodes m)) as [node|] eqn:Hg;
    [|assumption].
  eapply well_formed_dict_set_known; eauto.
Qed.

Lemma well_formed_monitor (now : Q) (m : CameraManager) :
  well_formed m -> well_formed (heartbeat_monitor_tick now m).
Proof.
  intros [Hnd Hk Hp Hdense].
  pose proof (heartbeat_monitor_tick_nodes now m) as Hn.
  destruct (monitor_scan_nodes now (nodes m) [] m) as (_ & _ & Hx).
  fold (heartbeat_monitor_tick now m) in Hx.
  constructor; rewrite ?Hn, ?Hx, ?keys_tick; try assumption.
  unfold keyed_by_id in *. rewrite Forall_map.
  eapply Forall_impl; [|exact Hk].
  intros kv Hkv. now rewrite tick_entry_id, tick_entry_key.
Qed.

Lemma well_formed_switch (m : CameraManager) (id : Z) :
  well_formed m -> well_formed (snd (switch_preview_camera m id)).
Proof.
  intros Hwf. unfold switch_preview_camera.
  destruct (dict_get id (nodes m)) as [node|]; [|assumption].
  destruct (is_online node); [|assumption].
  eapply well_formed_same_fields; eauto.
Qed.

Lemma well_formed_check (env : Env) (m : CameraManager) (w : World) :
  well_formed m ->
  well_formed (snd (fst (check_all_nodes_ready env m w))).
Proof.
  intros [Hnd Hk Hp Hdense].
  destruct (check_all_nodes_ready_nodes env m w) as (Hs & _ & Hx & _).
  constructor; rewrite ?Hx, ?(same_but_ready_keys _ _ Hs); try assumption.
  eapply same_but_ready_keyed; eauto.
Qed.

Lemma reachable_well_formed (m : CameraManager) :
  reachable m -> well_formed m.
Proof.
  induction 1.
  - apply well_formed_new.
  - eapply well_formed_same_fields; eauto.
  - eapply well_formed_register; eauto.
  - now apply well_formed_online.
  - now apply well_formed_offline.
  - now apply well_formed_heartbeat.
  - now apply well_formed_monitor.
  - now apply well_formed_switch.
  - now apply well_formed_check.
Qed.

(** *** Identity allocation *)

Lemma node_offline_known (m : CameraManager) (off : NodeData)
  (old : CameraNode) :
  dict_get (nd_node_id off) (nodes m) = Some old ->
  fst (node_offline m off) = true
  /\ nodes (snd (node_offline m off))
     = dict_set (nd_node_id off) (gone_offline old) (nodes m)
  /\ next_node_id (snd (node_offline m off)) = next_node_id m
  /\ running (snd (node_offline m off)) = running m.
Proof.
  intros Hg. unfold node_offline. rewrite Hg. simpl.
  destruct (preview_is _ _); simpl; auto.
  unfold switch_to_next_online_node.
  destruct (find _ _) as [[? ?]|]; simpl; auto.
Qed.

Lemma register_all_counts (reqs : list (Q * NodeData)) :
  forall m k,
    well_formed m ->
    (forall j, In j (keys (nodes m)) <-> (1 <= j <= Z.of_nat k)%Z) ->
    Forall (fun r => has_address (snd r)) reqs ->
    exists m',
      register_all m reqs
      = Some (map Z.of_nat (seq (S k) (List.length reqs)), m').
Proof.
  induction reqs as [|[now data] rest IH]; intros m k Hwf Hkeys Hall; simpl.
  - eauto.
  - inversion Hall as [|? ? Ha Hrest]; subst. simpl in Ha.
    destruct (register_node_spec now m data Hwf Ha)
      as (id & ip & m1 & Hreg & _ & (Hpos & Hnot & Hdense) & Hn & _).
    rewrite Hreg.
    assert (Hid : id = Z.of_nat (S k)).
    { rewrite Hkeys in Hnot.
      destruct (Z_lt_le_dec (Z.of_nat (S k)) id) as [Hlt|Hge]; [|lia].
      assert (Hin : In (Z.of_nat (S k)) (keys (nodes m))) by (apply Hdense; lia).
      apply Hkeys in Hin. lia. }
    destruct (IH m1 (S k)) as [m2 Hm2].
    + eapply well_formed_register; eauto.
    + intros j. rewrite Hn. unfold keys. rewrite map_app, in_app_iff.
      fold (keys (nodes m)). rewrite Hkeys. simpl. lia.
    + assumption.
    + rewrite Hm2, Hid. eauto.
Qed.

(** C6: on every reachable registry, [register_node] with an address
    allocates the smallest positive integer that is not the key of a tracked
    device and files a new node under it with status ["online"].  Hence [N]
    registrations into a fresh registry return 1, 2, ..., N, and a device
    marked offline stays in the dictionary, so that a later registration
    does not get its id. *)
Theorem register_node_allocates_smallest_unused :
  (forall now m data,
      reachable m -> has_address data ->
      exists id m' node,
        register_node now m data = Some (RegisterOk id, m')
        /\ smallest_unused (nodes m) id
        /\ dict_get id (nodes m') = Some node
        /\ node_id node = id /\ status node = "online")
  /\ (forall reqs,
        Forall (fun r => has_address (snd r)) reqs ->
        exists m',
          register_all new_manager reqs
          = Some (map Z.of_nat (seq 1 (List.length reqs)), m'))
  /\ (forall now m off data old,
        reachable m -> has_address data ->
        dict_get (nd_node_id off) (nodes m) = Some old ->
        exists id m' gone,
          register_node now (snd (node_offline m off)) data
          = Some (RegisterOk id, m')
          /\ id <> nd_node_id off
          /\ dict_get (nd_node_id off) (nodes m') = Some gone
          /\ status gone = "offline" /\ is_ready gone = false).
Proof.
  split; [|split].
  - intros now m data Hr Ha. apply reachable_well_formed in Hr.
    destruct (register_node_spec now m data Hr Ha)
      as (id & ip & m' & Hreg & _ & Hsm & Hn & _).
    exists id, m'. eexists. split; [exact Hreg|]. split; [exact Hsm|].
    rewrite Hn, dict_get_app.
    destruct Hsm as (_ & Hnot & _). apply dict_get_None in Hnot.
    rewrite Hnot. simpl. rewrite Z.eqb_refl. repeat split.
  - intros reqs Hall.
    apply (register_all_counts reqs new_manager 0 well_formed_new); [|exact Hall].
    intros j. simpl. lia.
  - intros now m off data old Hr Ha Hg.
    assert (Hwf1 : well_formed (snd (node_offline m off))).
    { apply reachable_well_formed. now constructor. }
    destruct (node_offline_known m off old Hg) as (_ & Hn1 & _).
    destruct (register_node_spec now _ data Hwf1 Ha)
      as (id & ip & m' & Hreg & _ & (_ & Hnot & _) & Hn & _).
    assert (Hg1 : dict_get (nd_node_id off) (nodes (snd (node_offline m off)))
                  = Some (gone_offline old)).
    { rewrite Hn1. apply dict_get_set_same. }
    exists id, m', (gone_offline old). split; [exact Hreg|]. split.
    + intros ->. apply Hnot. eapply dict_get_in_keys; eauto.
    + rewrite Hn, dict_get_app, Hg1. repeat split.
Qed.

Example register_three_devices :
  option_map fst (register_all new_manager three_requests)
  = Some [1%Z; 2%Z; 3%Z].
Proof. reflexivity. Qed.

Lemma reachable_fleet_of_one : reachable fleet_of_one.
Proof.
  apply (reach_register 10 new_manager (request_from "192.168.1.11")
           (RegisterOk 1)); [constructor | reflexivity].
Qed.

Lemma reachable_fleet_of_two : reachable fleet_of_two.
Proof.
  apply (reach_register 11 fleet_of_one (request_from "192.168.1.12")
           (RegisterOk 2)); [apply reachable_fleet_of_one | reflexivity].
Qed.

Lemma reachable_fleet_of_three : reachable fleet_of_three.
Proof.
  apply (reach_register 12 fleet_of_two (request_from "192.168.1.13")
           (RegisterOk 3)); [apply reachable_fleet_of_two | reflexivity].
Qed.

Lemma register_node_allocates_smallest_unused_witness :
  (exists id m' node,
      register_node 30 fleet_of_two (request_from "192.168.1.13")
      = Some (RegisterOk id, m')
      /\ smallest_unused (nodes fleet_of_two) id
      /\ dict_get id (nodes m') = Some node
      /\ node_id node = id /\ status node = "online")
  /\ (exists m',
        register_all new_manager three_requests
        = Some (map Z.of_nat (seq 1 (List.length three_requests)), m'))
  /\ (exists id m' gone,
        register_node 30 (snd (node_offline fleet_of_two (message_from 2 false)))
          (request_from "192.168.1.13")
        = Some (RegisterOk id, m')
        /\ id <> nd_node_id (message_from 2 false)
        /\ dict_get (nd_node_id (message_from 2 false)) (nodes m') = Some gone
        /\ status gone = "offline" /\ is_ready gone = false).
Proof.
  destruct register_node_allocates_smallest_unused as (H1 & H2 & H3).
  split; [|split].
  - apply H1; [apply reachable_fleet_of_two | reflexivity].
  - apply H2. repeat constructor.
  - eapply H3; [apply reachable_fleet_of_two | reflexivity | reflexivity].
Defined.

(** *** Unknown devices *)

(** C10: a heartbeat or an offline notice for an id that is not a key of
    the registry changes nothing: the whole manager (device records, preview
    pointer, allocation counter) is returned as it was, no record is created,
    and the offline notice is still answered with success. *)
Theorem unknown_device_is_ignored (now : Q) (m : CameraManager)
  (data : NodeData) :
  dict_mem (nd_node_id data) (nodes m) = false ->
  update_heartbeat now m data = m
  /\ node_offline m data = (true, m).
Proof.
  unfold dict_mem, update_heartbeat, node_offline.
  destruct (dict_get (nd_node_id data) (nodes m)); [discriminate|].
  now split.
Qed.

Lemma unknown_device_is_ignored_witness :
  update_heartbeat 40 fleet_of_two (message_from 7 true) = fleet_of_two
  /\ node_offline fleet_of_two (message_from 7 true) = (true, fleet_of_two).
Proof.
  apply (unknown_device_is_ignored 40 fleet_of_two (message_from 7 true)).
  reflexivity.
Defined.

(** *** Heartbeat timeout *)

Lemma is_offline_false (node : CameraNode) :
  is_offline node = false <-> status node <> "offline".
Proof. unfold is_offline. apply String.eqb_neq. Qed.

Lemma timed_out_true (now : Q) (node : CameraNode) :
  timed_out now node = true
  <-> 30 < now - last_heartbeat node /\ status node <> "offline".
Proof.
  unfold timed_out, Qgtb. rewrite andb_true_iff, negb_true_iff.
  now rewrite Qltb_lt, is_offline_false.
Qed.

Lemma timed_out_within (now : Q) (node : CameraNode) :
  now - last_heartbeat node <= 30 -> timed_out now node = false.
Proof.
  intros Hle. unfold timed_out, Qgtb.
  apply andb_false_iff. left. now apply Qltb_ge.
Qed.

Lemma dict_get_tick (now : Q) (k : Z) (d : dict Z CameraNode) :
  dict_get k (map (tick_entry now) d)
  = option_map (fun n => snd (tick_entry now (k, n))) (dict_get k d).
Proof.
  induction d as [|[k' v'] d IH]; simpl; [reflexivity|].
  destruct (tick_entry now (k', v')) as [k2 v2] eqn:E.
  pose proof (tick_entry_key now (k', v')) as Hk. rewrite E in Hk.
  simpl in Hk. subst k2.
  destruct (Z.eqb_spec k k') as [->|Hne]; simpl.
  - now rewrite E.
  - exact IH.
Qed.

Lemma heartbeat_monitor_tick_running (now : Q) (m : CameraManager) :
  running (heartbeat_monitor_tick now m) = running m.
Proof. unfold heartbeat_monitor_tick. apply monitor_scan_nodes. Qed.

Lemma heartbeat_monitor_running (ticks : list Q) :
  forall m, running (heartbeat_monitor ticks m) = running m.
Proof.
  induction ticks as [|t rest IH]; intros m; simpl; [reflexivity|].
  destruct (running m) eqn:Hr; [|assumption].
  now rewrite IH, heartbeat_monitor_tick_running.
Qed.

Lemma heartbeat_monitor_app (a b : list Q) :
  forall m,
    heartbeat_monitor (a ++ b) m
    = heartbeat_monitor b (heartbeat_monitor a m).
Proof.
  induction a as [|t rest IH]; intros m; simpl; [reflexivity|].
  destruct (running m) eqn:Hr; [apply IH|].
  destruct b; simpl; [reflexivity | now rewrite Hr].
Qed.

Lemma heartbeat_monitor_within (ticks : list Q) (k : Z) (node : CameraNode) :
  within_timeout node ticks ->
  forall m,
    dict_get k (nodes m) = Some node ->
    dict_get k (nodes (heartbeat_monitor ticks m)) = Some node.
Proof.
  induction 1 as [|t rest Ht _ IH]; intros m Hg; simpl; [assumption|].
  destruct (running m); [|assumption].
  apply IH. rewrite heartbeat_monitor_tick_nodes, dict_get_tick, Hg. simpl.
  unfold tick_entry. simpl. now rewrite (timed_out_within t node Ht).
Qed.

(** C9: while the monitor runs, a tracked device is left as it is by every
    tick that comes within 30 seconds of its last heartbeat; at the first tick
    that comes more than 30 seconds after it, a device that is not offline
    is set to ["offline"] with [is_ready = False]. *)
Theorem heartbeat_monitor_times_out (m : CameraManager) (k : Z)
  (node : CameraNode) (ticks : list Q) :
  running m = true ->
  dict_get k (nodes m) = Some node ->
  within_timeout node ticks ->
  dict_get k (nodes (heartbeat_monitor ticks m)) = Some node
  /\ (forall t,
        30 < t - last_heartbeat node -> status node <> "offline" ->
        dict_get k (nodes (heartbeat_monitor (ticks ++ [t]) m))
        = Some (gone_offline node)
        /\ status (gone_offline node) = "offline"
        /\ is_ready (gone_offline node) = false).
Proof.
  intros Hrun Hg Hw.
  pose proof (heartbeat_monitor_within ticks k node Hw m Hg) as Hsame.
  split; [exact Hsame|].
  intros t Ht Hst. split; [|now split].
  rewrite heartbeat_monitor_app. simpl.
  rewrite heartbeat_monitor_running, Hrun.
  rewrite heartbeat_monitor_tick_nodes, dict_get_tick, Hsame. simpl.
  unfold tick_entry. simpl.
  assert (Hto : timed_out t node = true) by now apply timed_out_true.
  now rewrite Hto.
Qed.

Lemma heartbeat_monitor_times_out_witness :
  dict_get 1%Z (nodes (heartbeat_monitor [20; 30; 40] fleet_running))
  = Some first_device
  /\ (forall t,
        30 < t - last_heartbeat first_device ->
        status first_device <> "offline" ->
        dict_get 1%Z (nodes (heartbeat_monitor ([20; 30; 40] ++ [t])
                               fleet_running))
        = Some (gone_offline first_device)
        /\ status (gone_offline first_device) = "offline"
        /\ is_ready (gone_offline first_device) = false).
Proof.
  apply (heartbeat_monitor_times_out fleet_running 1 first_device [20; 30; 40]).
  - reflexivity.
  - reflexivity.
  - repeat constructor; vm_compute; discriminate.
Defined.

Example monitor_tick_at_45 :
  map (fun kv => (fst kv, status (snd kv), is_ready (snd kv)))
    (nodes (heartbeat_monitor [20; 30; 40; 41 + (1 # 2)] fleet_running))
  = [(1%Z, "offline", false); (2%Z, "offline", false); (3%Z, "online", false)].
Proof. reflexivity. Qed.

(** *** Reference device failover *)

Lemma find_app {A : Type} (f : A -> bool) (a b : list A) :
  find f (a ++ b) = match find f a with
                    | Some x => Some x
                    | None => find f b
                    end.
Proof.
  induction a as [|x a IH]; simpl; [reflexivity|].
  now destruct (f x).
Qed.

Lemma first_online_app (a b : dict Z CameraNode) :
  first_online (a ++ b) = match first_online a with
                          | Some k => Some k
                          | None => first_online b
                          end.
Proof.
  unfold first_online. rewrite find_app.
  now destruct (find _ a).
Qed.

Lemma is_online_true (node : CameraNode) :
  is_online node = true <-> status node = "online".
Proof. unfold is_online. apply String.eqb_eq. Qed.

Lemma is_online_false (node : CameraNode) :
  is_online node = false <-> status node <> "online".
Proof. unfold is_online. apply String.eqb_neq. Qed.

(** The computed key is the one the specification describes. *)
Lemma first_online_is_iff (d : dict Z CameraNode) (p : option Z) :
  first_online_is d p <-> p = first_online d.
Proof.
  split.
  - destruct p as [k|]; simpl.
    + intros (before & node & after & -> & Hon & Hbefore).
      rewrite first_online_app.
      assert (Hnone : first_online before = None).
      { unfold first_online. clear - Hbefore.
        induction Hbefore as [|kv l Hkv _ IH]; [reflexivity|]. simpl.
        apply is_online_false in Hkv. now rewrite Hkv. }
      rewrite Hnone. unfold first_online. simpl.
      apply is_online_true in Hon. now rewrite Hon.
    + intros Hall. unfold first_online.
      induction Hall as [|kv l Hkv _ IH]; [reflexivity|]. simpl.
      apply is_online_false in Hkv. now rewrite Hkv.
  - intros ->. unfold first_online.
    induction d as [|[k n] d IH]; simpl; [constructor|].
    destruct (is_online n) eqn:Hon; simpl.
    + exists [], n, d. repeat split; [now apply is_online_true | constructor].
    + apply is_online_false in Hon.
      destruct (find _ d) as [[k' n']|]; simpl in *.
      * destruct IH as (before & node & after & -> & Hs & Hb).
        exists ((k, n) :: before), node, after. repeat split; auto.
      * constructor; assumption.
Qed.

Lemma switch_to_next_online_node_preview (m : CameraManager) :
  current_preview_node (switch_to_next_online_node m) = first_online (nodes m).
Proof.
  unfold switch_to_next_online_node, first_online.
  destruct (find _ (nodes m)) as [[k n]|]; reflexivity.
Qed.

Lemma preview_is_true (m : CameraManager) (id : Z) :
  preview_is m id = true <-> current_preview_node m = Some id.
Proof.
  unfold preview_is. destruct (current_preview_node m) as [p|].
  - rewrite Z.eqb_eq. split; congruence.
  - split; discriminate.
Qed.

Lemma gone_offline_not_online (node : CameraNode) :
  is_online (gone_offline node) = false.
Proof. reflexivity. Qed.

Lemma first_online_cons (k : Z) (node : CameraNode) (d : dict Z CameraNode) :
  first_online ((k, node) :: d)
  = if is_online node then Some k else first_online d.
Proof. unfold first_online. simpl. now destruct (is_online node). Qed.

Lemma monitor_scan_preview (now : Q) (p0 : option Z)
  (todo : dict Z CameraNode) :
  forall seen0 mc,
    keyed_by_id todo ->
    scan_inv now p0 seen0 todo (current_preview_node mc) ->
    scan_inv now p0 (seen0 ++ todo) []
      (current_preview_node
         (monitor_scan now (map (tick_entry now) seen0) todo mc)).
Proof.
  induction todo as [|[k node] rest IH]; intros seen0 mc Hkeyed Hinv.
  - simpl. now rewrite app_nil_r.
  - inversion Hkeyed as [|? ? Hid Hrest]; subst. simpl in Hid.
    assert (Hassoc : seen0 ++ (k, node) :: rest
                     = (seen0 ++ [(k, node)]) ++ rest)
      by now rewrite <- app_assoc.
    rewrite Hassoc. simpl monitor_scan.
    destruct (timed_out now node) eqn:Hto.
    + assert (Hseen : map (tick_entry now) seen0
                        ++ [(k, set_status_ready node "offline" false)]
                      = map (tick_entry now) (seen0 ++ [(k, node)])).
      { rewrite map_app. f_equal. simpl. unfold tick_entry. simpl.
        now rewrite Hto. }
      rewrite Hseen. apply IH; [assumption|].
      unfold scan_inv in *.
      rewrite <- Hseen, <- app_assoc. simpl app.
      set (m1 := with_nodes mc _).
      destruct (preview_is m1 (node_id node)) eqn:Hp.
      * right. now rewrite switch_to_next_online_node_preview.
      * assert (Hne : current_preview_node mc <> Some k).
        { intros E. rewrite Hid in Hp.
          assert (Ht : preview_is m1 k = true) by now apply preview_is_true.
          congruence. }
        change (current_preview_node m1) with (current_preview_node mc).
        destruct Hinv as [[Hp0 Hseen0]|Hfirst].
        -- left. split; [assumption|].
           intros k' n Hk' Hin. apply in_app_iff in Hin.
           destruct Hin as [Hin|[[= <- <-]|[]]]; [eauto|].
           congruence.
        -- right. rewrite Hfirst in Hne. rewrite Hfirst.
           rewrite first_online_app, first_online_cons in Hne.
           rewrite !first_online_app, !first_online_cons.
           destruct (first_online (map (tick_entry now) seen0));
             [reflexivity|].
           change (is_online (set_status_ready node "offline" false))
             with false. cbv iota.
           destruct (is_online node); [congruence | reflexivity].
    + assert (Hseen : map (tick_entry now) seen0 ++ [(k, node)]
                      = map (tick_entry now) (seen0 ++ [(k, node)])).
      { rewrite map_app. f_equal. simpl. unfold tick_entry. simpl.
        now rewrite Hto. }
      rewrite Hseen. apply IH; [assumption|].
      unfold scan_inv in *.
      destruct Hinv as [[Hp0 Hseen0]|Hfirst].
      * left. split; [assumption|].
        intros k' n Hk' Hin. apply in_app_iff in Hin.
        destruct Hin as [Hin|[[= <- <-]|[]]]; [eauto | assumption].
      * right. now rewrite <- Hseen, <- app_assoc.
Qed.

Lemma heartbeat_monitor_tick_preview (now : Q) (m : CameraManager) :
  keyed_by_id (nodes m) ->
  scan_inv now (current_preview_node m) (nodes m) []
    (current_preview_node (heartbeat_monitor_tick now m)).
Proof.
  intros Hk. unfold heartbeat_monitor_tick.
  apply (monitor_scan_preview now (current_preview_node m) (nodes m) [] m Hk).
  left. split; [reflexivity|]. intros k n _ [].
Qed.

Lemma node_offline_preview (m : CameraManager) (off : NodeData)
  (old : CameraNode) :
  dict_get (nd_node_id off) (nodes m) = Some old ->
  current_preview_node m = Some (nd_node_id off) ->
  current_preview_node (snd (node_offline m off))
  = first_online (nodes (snd (node_offline m off))).
Proof.
  intros Hg Hprev. unfold node_offline. rewrite Hg. simpl.
  set (m1 := with_nodes m _).
  assert (Hp : preview_is m1 (nd_node_id off) = true)
    by now apply preview_is_true.
  rewrite Hp, switch_to_next_online_node_preview.
  now destruct (switch_to_next_online_node_fields m1) as (-> & _).
Qed.

(** C8: an offline notice for a tracked device, and a monitor tick that
    finds a tracked device timed out, both leave the device with status
    ["offline"] and [is_ready = False]; if it was the preview device, the
    preview pointer afterwards is the key of the first entry of the
    dictionary, in iteration order, whose status is ["online"], and [None]
    when there is no such entry. *)
Theorem offline_clears_and_fails_over :
  (forall m off old,
      dict_get (nd_node_id off) (nodes m) = Some old ->
      dict_get (nd_node_id off) (nodes (snd (node_offline m off)))
      = Some (gone_offline old)
      /\ status (gone_offline old) = "offline"
      /\ is_ready (gone_offline old) = false
      /\ (current_preview_node m = Some (nd_node_id off) ->
          first_online_is (nodes (snd (node_offline m off)))
            (current_preview_node (snd (node_offline m off)))))
  /\ (forall now m k old,
        reachable m ->
        dict_get k (nodes m) = Some old ->
        timed_out now old = true ->
        dict_get k (nodes (heartbeat_monitor_tick now m))
        = Some (gone_offline old)
        /\ status (gone_offline old) = "offline"
        /\ is_ready (gone_offline old) = false
        /\ (current_preview_node m = Some k ->
            first_online_is (nodes (heartbeat_monitor_tick now m))
              (current_preview_node (heartbeat_monitor_tick now m)))).
Proof.
  split.
  - intros m off old Hg.
    destruct (node_offline_known m off old Hg) as (_ & Hn & _).
    rewrite Hn, dict_get_set_same. repeat split.
    intros Hprev. apply first_online_is_iff. rewrite <- Hn.
    now apply node_offline_preview with (old := old).
  - intros now m k old Hreach Hg Hto.
    apply reachable_well_formed in Hreach.
    rewrite heartbeat_monitor_tick_nodes, dict_get_tick, Hg. simpl.
    unfold tick_entry at 1. simpl. rewrite Hto. repeat split.
    intros Hprev. apply first_online_is_iff.
    destruct (heartbeat_monitor_tick_preview now m (wf_keyed m Hreach))
      as [[_ Hnot]|Hfirst].
    + apply dict_get_Some_In in Hg.
      rewrite (Hnot k old Hprev Hg) in Hto. discriminate.
    + now rewrite Hfirst, app_nil_r.
Qed.

Example preview_after_offline_notice :
  current_preview_node fleet_of_three = Some 1%Z
  /\ current_preview_node
       (snd (node_offline fleet_of_three (message_from 1 false)))
     = Some 2%Z.
Proof. split; reflexivity. Qed.

Example preview_after_timeout_of_two :
  current_preview_node (heartbeat_monitor_tick (41 + (1 # 2)) fleet_running)
  = Some 3%Z.
Proof. reflexivity. Qed.

Example preview_when_all_time_out :
  current_preview_node (heartbeat_monitor_tick 50 fleet_running) = None.
Proof. reflexivity. Qed.

Lemma offline_clears_and_fails_over_witness :
  (dict_get (nd_node_id (message_from 1 false))
     (nodes (snd (node_offline fleet_of_three (message_from 1 false))))
   = Some (gone_offline first_device)
   /\ status (gone_offline first_device) = "offline"
   /\ is_ready (gone_offline first_device) = false
   /\ (current_preview_node fleet_of_three
       = Some (nd_node_id (message_from 1 false)) ->
       first_online_is
         (nodes (snd (node_offline fleet_of_three (message_from 1 false))))
         (current_preview_node
            (snd (node_offline fleet_of_three (message_from 1 false))))))
  /\ (dict_get 1%Z (nodes (heartbeat_monitor_tick (41 + (1 # 2)) fleet_running))
      = Some (gone_offline first_device)
      /\ status (gone_offline first_device) = "offline"
      /\ is_ready (gone_offline first_device) = false
      /\ (current_preview_node fleet_running = Some 1%Z ->
          first_online_is
            (nodes (heartbeat_monitor_tick (41 + (1 # 2)) fleet_running))
            (current_preview_node
               (heartbeat_monitor_tick (41 + (1 # 2)) fleet_running)))).
Proof.
  destruct offline_clears_and_fails_over as [Hnotice Htimeout].
  split.
  - apply (Hnotice fleet_of_three (message_from 1 false) first_device).
    reflexivity.
  - apply (Htimeout (41 + (1 # 2)) fleet_running 1%Z first_device).
    + apply reach_running. apply reachable_fleet_of_three.
    + reflexivity.
    + reflexivity.
Defined.

End ManagerFacts.

(** ** Dispatch *)

Module DispatchFacts.
Import NtpSync Manager NtpSpec ManagerSpec NtpFacts ManagerFacts.

Lemma posts_of_app (a b : list io_event) :
  posts_of (a ++ b) = posts_of a ++ posts_of b.
Proof. apply filter_app. Qed.

Lemma get_ntp_time_posts (env : Env) (s : string) (w : World) :
  posts_of (io_log (snd (get_ntp_time env s w))) = posts_of (io_log w).
Proof.
  rewrite get_ntp_time_log, posts_of_app. simpl. apply app_nil_r.
Qed.

Lemma sync_servers_posts (env : Env) (srvs : list string) (c : NTPClient) :
  forall w,
    posts_of (io_log (snd (sync_servers env srvs c w))) = posts_of (io_log w).
Proof.
  induction srvs as [|s rest IH]; intros w; simpl; [reflexivity|].
  pose proof (get_ntp_time_posts env s w) as Hp.
  destruct (get_ntp_time env s w) as [[t|] w1]; simpl in Hp.
  - destruct (truthy_time (Some t)); simpl; [assumption|].
    now rewrite IH.
  - now rewrite IH.
Qed.

Lemma schedule_capture_posts (env : Env) (c : NTPClient) (w : World)
  (sid : string) (delay : Q) :
  posts_of (io_log (snd (schedule_capture env c w sid delay)))
  = posts_of (io_log w).
Proof.
  rewrite schedule_capture_unfold. cbv zeta. simpl.
  destruct (is_synchronized c w 300); simpl; [reflexivity|].
  apply sync_servers_posts.
Qed.

Lemma check_node_ready_posts (env : Env) (m : CameraManager) (id : Z)
  (w : World) :
  posts_of (io_log (snd (check_node_ready env m id w))) = posts_of (io_log w).
Proof.
  unfold check_node_ready.
  destruct (dict_get id (nodes m)) as [node|]; [|reflexivity].
  destruct (negb (is_online node)); [reflexivity|].
  destruct (http_get_ready env _ _ _) as [r t'].
  assert (Hlog : posts_of (io_log (at_time t'
                   (emit (IoGetReady (host_of (ip_address node)) (node_port node)) w)))
                 = posts_of (io_log w)).
  { simpl. rewrite posts_of_app. simpl. apply app_nil_r. }
  destruct r as [|st ready]; [exact Hlog|].
  destruct (Z.eqb st 200); exact Hlog.
Qed.

Lemma ready_scan_status (env : Env) (todo : dict Z CameraNode) :
  forall seen m rs w,
    posts_of (io_log (snd (ready_scan env seen todo m rs w)))
    = posts_of (io_log w)
    /\ (forall id,
          In id (keys (fst (fst (ready_scan env seen todo m rs w))))
          <-> In id (keys rs)
              \/ In id (map (fun kv => node_id (snd kv)) todo))
    /\ (NoDup (keys rs) ->
        NoDup (keys (fst (fst (ready_scan env seen todo m rs w))))).
Proof.
  induction todo as [|[k node] rest IH]; intros seen m rs w; simpl.
  - repeat split; tauto.
  - destruct (is_online node).
    + pose proof (check_node_ready_posts env
                    (with_nodes m (seen ++ (k, node) :: rest))
                    (node_id node) w) as Hp.
      destruct (check_node_ready env _ (node_id node) w) as [r w1].
      simpl in Hp.
      destruct (IH (seen ++ [(k, set_ready node r)]) m
                  (dict_set (node_id node) r rs) w1) as (Hposts & Hkeys & Hnd).
      split; [congruence|]. split.
      * intros id. rewrite Hkeys, in_keys_dict_set. intuition.
      * intros Hrs. apply Hnd. now apply NoDup_keys_dict_set.
    + destruct (IH (seen ++ [(k, set_ready node false)]) m
                  (dict_set (node_id node) false rs) w) as (Hposts & Hkeys & Hnd).
      split; [assumption|]. split.
      * intros id. rewrite Hkeys, in_keys_dict_set. intuition.
      * intros Hrs. apply Hnd. now apply NoDup_keys_dict_set.
Qed.

Lemma check_all_nodes_ready_status (env : Env) (m : CameraManager) (w : World)
  (rs : dict Z bool) (m1 : CameraManager) (w1 : World) :
  check_all_nodes_ready env m w = (rs, m1, w1) ->
  posts_of (io_log w1) = posts_of (io_log w)
  /\ (forall id,
        In id (keys rs) <-> In id (map (fun kv => node_id (snd kv)) (nodes m)))
  /\ NoDup (keys rs).
Proof.
  intros Hc. unfold check_all_nodes_ready in Hc.
  destruct (ready_scan_status env (nodes m) [] m [] w) as (Hp & Hk & Hnd).
  rewrite Hc in Hp, Hk, Hnd. simpl in *.
  split; [assumption|]. split.
  - intros id. rewrite Hk. tauto.
  - apply Hnd. constructor.
Qed.

Lemma ready_nodes_of_nil (rs : dict Z bool) :
  ready_nodes_of rs = [] ->
  forall id b, dict_get id rs = Some b -> b = false.
Proof.
  intros Hnil id b Hg. apply dict_get_Some_In in Hg.
  destruct b; [|reflexivity].
  assert (Hin : In id (ready_nodes_of rs)).
  { unfold ready_nodes_of. change id with (fst (id, true)).
    apply in_map. apply filter_In. now split. }
  rewrite Hnil in Hin. contradiction.
Qed.

Lemma ready_nodes_of_spec (rs : dict Z bool) :
  NoDup (keys rs) ->
  NoDup (ready_nodes_of rs)
  /\ forall id, In id (ready_nodes_of rs) <-> dict_get id rs = Some true.
Proof.
  intros Hnd. split.
  - unfold ready_nodes_of. clear - Hnd.
    induction rs as [|[k b] rs IH]; simpl in *; [constructor|].
    inversion Hnd as [|? ? Hnot Hnd']; subst.
    destruct b; simpl; [|auto].
    constructor; [|auto].
    intros Hin. apply Hnot. apply in_map_iff in Hin.
    destruct Hin as ([k' b'] & <- & Hin). apply filter_In in Hin.
    unfold keys. change k' with (fst (k', b')). apply in_map. tauto.
  - intros id. unfold ready_nodes_of. split.
    + intros Hin. apply in_map_iff in Hin.
      destruct Hin as ([k b] & <- & Hin). apply filter_In in Hin.
      simpl in Hin. destruct Hin as [Hin ->]. now apply In_dict_get.
    + intros Hg. apply dict_get_Some_In in Hg.
      change id with (fst (id, true)). apply in_map. apply filter_In.
      now split.
Qed.

(** C1 (as amended): when the readiness check leaves no device ready,
    [trigger_scheduled_capture] returns the failure result with the
    readiness map of that check and sends no capture command.  The map has
    one entry, [False], for every tracked device; it is empty exactly when
    the registry tracks no device. *)
Theorem trigger_without_ready_devices (env : Env) (c : NTPClient)
  (m : CameraManager) (w : World) (delay : Q)
  (rs : dict Z bool) (m1 : CameraManager) (w1 : World) :
  check_all_nodes_ready env m w = (rs, m1, w1) ->
  ready_nodes_of rs = [] ->
  (exists error,
      trigger_scheduled_capture env c m w delay
      = (TriggerFailure error rs, c, m1, w1))
  /\ posts_of (io_log w1) = posts_of (io_log w)
  /\ (forall id,
        In id (keys rs) <-> In id (map (fun kv => node_id (snd kv)) (nodes m)))
  /\ (forall id b, dict_get id rs = Some b -> b = false)
  /\ (rs = [] <-> nodes m = []).
Proof.
  intros Hc Hnil.
  destruct (check_all_nodes_ready_status env m w rs m1 w1 Hc)
    as (Hposts & Hkeys & _).
  split.
  { unfold trigger_scheduled_capture. rewrite Hc, Hnil. eauto. }
  split; [assumption|]. split; [assumption|].
  split; [now apply ready_nodes_of_nil|].
  split.
  - intros ->. destruct (nodes m) as [|[k n] d]; [reflexivity|].
    exfalso. apply (proj2 (Hkeys (node_id n))). now left.
  - intros Hn. rewrite Hn in Hkeys. destruct rs as [|[k b] rs]; [reflexivity|].
    exfalso. apply (proj1 (Hkeys k)). now left.
Qed.

Example check_fleet_of_two_unreachable :
  check_all_nodes_ready env_unreachable fleet_of_two (world_at 100)
  = ([(1%Z, false); (2%Z, false)], fleet_of_two,
     {| wall := 100;
        io_log := [IoGetReady "192.168.1.11" 8084;
                   IoGetReady "192.168.1.12" 8084] |}).
Proof. reflexivity. Qed.

Lemma trigger_without_ready_devices_witness :
  (exists error,
      trigger_scheduled_capture env_unreachable (new_client None)
        fleet_of_two (world_at 100) (1 # 2)
      = (TriggerFailure error [(1%Z, false); (2%Z, false)], new_client None,
         fleet_of_two,
         {| wall := 100;
            io_log := [IoGetReady "192.168.1.11" 8084;
                       IoGetReady "192.168.1.12" 8084] |}))
  /\ posts_of [IoGetReady "192.168.1.11" 8084; IoGetReady "192.168.1.12" 8084]
     = posts_of []
  /\ (forall id,
        In id (keys [(1%Z, false); (2%Z, false)])
        <-> In id (map (fun kv => node_id (snd kv)) (nodes fleet_of_two)))
  /\ (forall id b,
        dict_get id [(1%Z, false); (2%Z, false)] = Some b -> b = false)
  /\ ([(1%Z, false); (2%Z, false)] = [] <-> nodes fleet_of_two = []).
Proof.
  exact (trigger_without_ready_devices env_unreachable (new_client None)
           fleet_of_two (world_at 100) (1 # 2) [(1%Z, false); (2%Z, false)]
           fleet_of_two _ eq_refl eq_refl).
Defined.

(** C1 as stated fails on the registry without devices: the ready set is
    empty and the failure result carries the empty readiness map. *)
Lemma trigger_on_empty_registry :
  ready_nodes_of
    (fst (fst (check_all_nodes_ready env_unreachable new_manager
                 (world_at 100)))) = []
  /\ fst (fst (fst (trigger_scheduled_capture env_unreachable
                      (new_client None) new_manager (world_at 100) (1 # 2))))
     = TriggerFailure "没有就绪的摄像头节点" [].
Proof. split; reflexivity. Qed.

Lemma send_capture_command_posts (env : Env) (m : CameraManager) (id : Z)
  (command : CaptureData) (w : World) :
  posts_of (io_log (snd (send_capture_command env m id command w)))
  = posts_of (io_log w) ++ capture_post m command id.
Proof.
  unfold send_capture_command, capture_post.
  destruct (dict_get id (nodes m)) as [node|]; [|now rewrite app_nil_r].
  destruct (http_post_capture env _ _ _ _) as [r t'].
  assert (Hlog : posts_of (io_log (at_time t'
                   (emit (IoPostCapture (host_of (ip_address node)) (node_port node)
                            command) w)))
                 = posts_of (io_log w)
                   ++ [IoPostCapture (host_of (ip_address node)) (node_port node)
                         command]).
  { simpl. now rewrite posts_of_app. }
  destruct r as [|st success]; [exact Hlog|].
  destruct (Z.eqb st 200); exact Hlog.
Qed.

Lemma send_all_spec (env : Env) (m : CameraManager) (command : CaptureData)
  (ids : list Z) :
  forall acc w,
    posts_of (io_log (snd (send_all env m command ids acc w)))
    = posts_of (io_log w) ++ posts_to m command ids
    /\ (NoDup (keys acc ++ ids) ->
        keys (fst (send_all env m command ids acc w)) = keys acc ++ ids).
Proof.
  induction ids as [|id rest IH]; intros acc w; simpl.
  - now rewrite !app_nil_r.
  - pose proof (send_capture_command_posts env m id command w) as Hp.
    destruct (send_capture_command env m id command w) as [success w1].
    simpl in Hp.
    destruct (IH (dict_set id success acc) w1) as (Hposts & Hkeys).
    split.
    + rewrite Hposts, Hp. now rewrite <- app_assoc.
    + intros Hnd.
      assert (Hnew : keys (dict_set id success acc) = keys acc ++ [id]).
      { apply keys_dict_set_new. intros Hin.
        apply NoDup_remove_2 in Hnd. apply Hnd.
        apply in_app_iff. now left. }
      rewrite Hkeys; rewrite Hnew, <- app_assoc; [reflexivity | exact Hnd].
Qed.

Lemma dict_set_new {V : Type} (k : Z) (v : V) (d : dict Z V) :
  ~ In k (keys d) -> dict_set k v d = d ++ [(k, v)].
Proof.
  induction d as [|[k' v'] d IH]; simpl; [reflexivity|].
  intros Hn. destruct (Z.eqb_spec k k') as [->|Hne].
  - exfalso. apply Hn. now left.
  - f_equal. apply IH. tauto.
Qed.

Lemma send_capture_command_delivered (env : Env) (m : CameraManager) (id : Z)
  (command : CaptureData) (w : World) :
  send_capture_command env m id command w
  = match dict_get id (nodes m) with
    | None => (false, w)
    | Some node =>
        let host := host_of (ip_address node) in
        let reply :=
          http_post_capture env host (node_port node) command (wall w) in
        (delivered (fst reply),
         at_time (snd reply)
           (emit (IoPostCapture host (node_port node) command) w))
    end.
Proof.
  unfold send_capture_command.
  destruct (dict_get id (nodes m)) as [node|]; [|reflexivity].
  cbv zeta. destruct (http_post_capture env _ _ _ _) as [r t'].
  cbn [fst snd delivered].
  destruct r as [|st success]; [reflexivity|].
  unfold delivered. now destruct (Z.eqb st 200).
Qed.

Lemma send_all_outcomes (env : Env) (m : CameraManager)
  (command : CaptureData) (ids : list Z) :
  forall acc w,
    NoDup (keys acc ++ ids) ->
    fst (send_all env m command ids acc w)
    = acc ++ recorded_outcomes env m command ids (wall w).
Proof.
  induction ids as [|id rest IH]; intros acc w Hnd;
    cbn [send_all recorded_outcomes].
  - now rewrite app_nil_r.
  - assert (Hnew : dict_set id (fst (send_capture_command env m id command w))
                     acc
                   = acc ++ [(id, fst (send_capture_command env m id command
                                          w))]).
    { apply dict_set_new. intros Hin.
      apply NoDup_remove_2 in Hnd. apply Hnd.
      apply in_app_iff. now left. }
    assert (Hnd' : NoDup (keys (acc ++ [(id, fst (send_capture_command env m
                                                    id command w))])
                          ++ rest)).
    { unfold keys. rewrite map_app. cbn [map fst].
      rewrite <- app_assoc. exact Hnd. }
    destruct (send_capture_command env m id command w) as [success w1] eqn:Hs.
    cbn [fst] in Hnew, Hnd'. rewrite Hnew, (IH _ w1 Hnd'), <- app_assoc.
    rewrite send_capture_command_delivered in Hs.
    destruct (dict_get id (nodes m)) as [node|].
    + cbv zeta in Hs. injection Hs as <- <-. reflexivity.
    + injection Hs as <- <-. reflexivity.
Qed.

(** The entry of a device in the outcome map is the verdict on a reply of
    that device to the command. *)
Lemma recorded_outcomes_lookup (env : Env) (m : CameraManager)
  (command : CaptureData) (id : Z) (node : CameraNode) :
  dict_get id (nodes m) = Some node ->
  forall ids t, In id ids ->
    exists sent,
      dict_get id (recorded_outcomes env m command ids t)
      = Some (delivered
                (fst (http_post_capture env (host_of (ip_address node))
                        (node_port node) command sent))).
Proof.
  intros Hg. induction ids as [|k rest IH]; intros t Hin; [destruct Hin|].
  cbn [recorded_outcomes].
  destruct (Z.eq_dec id k) as [<-|Hne].
  - rewrite Hg. cbv zeta. cbn [dict_get]. exists t.
    unfold keqb. cbn. now rewrite Z.eqb_refl.
  - destruct Hin as [Heq|Hin]; [congruence|].
    destruct (dict_get k (nodes m)) as [other|]; cbv zeta; cbn [dict_get];
      unfold keqb; cbn; rewrite (proj2 (Z.eqb_neq id k) Hne);
      apply IH; exact Hin.
Qed.

Lemma keys_recorded_outcomes (env : Env) (m : CameraManager)
  (command : CaptureData) (ids : list Z) :
  forall t, keys (recorded_outcomes env m command ids t) = ids.
Proof.
  induction ids as [|k rest IH]; intros t; cbn [recorded_outcomes];
    [reflexivity|].
  destruct (dict_get k (nodes m)); cbv zeta; unfold keys in *; cbn [map fst];
    now rewrite IH.
Qed.

Lemma trigger_with_ready_devices (env : Env) (c : NTPClient)
  (m : CameraManager) (w : World) (delay : Q)
  (rs : dict Z bool) (m1 : CameraManager) (w1 : World) :
  check_all_nodes_ready env m w = (rs, m1, w1) ->
  ready_nodes_of rs <> [] ->
  trigger_scheduled_capture env c m w delay =
    match generate_session_id w1 with
    | Raised exc => (TriggerRaised exc, c, m1, w1)
    | Returned session_id =>
        let '(scheduled, c1, w2) :=
          schedule_capture env c w1 session_id delay in
        match scheduled with
        | Raised exc => (TriggerRaised exc, c1, m1, w2)
        | Returned capture_time =>
            let command :=
              {| cd_capture_time := capture_time;
                 cd_session_id := session_id;
                 cd_delay_seconds := delay |} in
            let '(send_results, w3) :=
              send_all env m1 command (ready_nodes_of rs) [] w2 in
            match format_time env capture_time with
            | Raised exc => (TriggerRaised exc, c1, m1, w3)
            | Returned formatted =>
                (TriggerSuccess session_id capture_time (ready_nodes_of rs)
                   send_results formatted,
                 c1, m1, w3)
            end
        end
    end.
Proof.
  intros Hc Hne. unfold trigger_scheduled_capture. rewrite Hc.
  destruct (ready_nodes_of rs); [contradiction | reflexivity].
Qed.

Lemma ready_nodes_tracked (env : Env) (m : CameraManager) (w : World)
  (rs : dict Z bool) (m1 : CameraManager) (w1 : World) :
  well_formed m ->
  check_all_nodes_ready env m w = (rs, m1, w1) ->
  forall id, In id (ready_nodes_of rs) ->
    exists node, dict_get id (nodes m1) = Some node /\ node_id node = id.
Proof.
  intros Hwf Hc id Hin.
  destruct (check_all_nodes_ready_status env m w rs m1 w1 Hc)
    as (_ & Hkeys & Hnd).
  pose proof (well_formed_check env m w Hwf) as Hwf1.
  destruct (check_all_nodes_ready_nodes env m w) as (Hsame & _).
  rewrite Hc in Hwf1, Hsame. simpl in Hwf1, Hsame.
  assert (Hk : In id (keys rs)).
  { apply (proj2 (ready_nodes_of_spec rs Hnd)) in Hin.
    eapply dict_get_in_keys; eauto. }
  apply Hkeys in Hk. apply in_map_iff in Hk.
  destruct Hk as ([k n] & Hid & Hkn). simpl in Hid.
  pose proof (wf_keyed m Hwf) as Hkeyed. unfold keyed_by_id in Hkeyed.
  rewrite Forall_forall in Hkeyed. specialize (Hkeyed _ Hkn). simpl in Hkeyed.
  assert (Hin1 : In id (keys (nodes m1))).
  { rewrite (same_but_ready_keys _ _ Hsame). unfold keys.
    apply in_map_iff. exists (k, n). split; [simpl; congruence | assumption]. }
  destruct (dict_get id (nodes m1)) as [node|] eqn:Hg.
  - exists node. split; [reflexivity|].
    eapply keyed_lookup; [apply (wf_keyed m1 Hwf1) | exact Hg].
  - apply dict_get_None in Hg. contradiction.
Qed.

(** C2 (as amended): when the readiness check leaves some device ready,
    the call goes on to compute the session id and the capture time.  When
    either computation raises (a capture time that the calendar cannot
    render, say), the call raises and no capture command is sent.
    Otherwise a capture command is posted to exactly the devices of the
    ready set of that check, in its order, each to the address the registry
    holds for it; all posts carry one and the same capture time and session
    id, which are those of the result; and the outcome map of the result has
    one entry per device of the ready set, which is the verdict on what that
    device answered ([True] only for status 200 with a true [success]
    field, [False] for any other reply and for a failed connection).  This
    holds whatever the peers answer, so a failed send never cuts the
    remaining sends. *)
Theorem trigger_dispatches_to_ready_snapshot (env : Env) (c : NTPClient)
  (m : CameraManager) (w : World) (delay : Q)
  (rs : dict Z bool) (m1 : CameraManager) (w1 : World) :
  reachable m ->
  check_all_nodes_ready env m w = (rs, m1, w1) ->
  ready_nodes_of rs <> [] ->
  NoDup (ready_nodes_of rs)
  /\ (forall id, In id (ready_nodes_of rs) <-> dict_get id rs = Some true)
  /\ match generate_session_id w1 with
     | Raised exc =>
         trigger_scheduled_capture env c m w delay
         = (TriggerRaised exc, c, m1, w1)
         /\ posts_of (io_log w1) = posts_of (io_log w)
     | Returned session_id =>
         match schedule_capture env c w1 session_id delay with
         | (Raised exc, c1, w2) =>
             trigger_scheduled_capture env c m w delay
             = (TriggerRaised exc, c1, m1, w2)
             /\ posts_of (io_log w2) = posts_of (io_log w)
         | (Returned capture_time, c1, w2) =>
             let command :=
               {| cd_capture_time := capture_time;
                  cd_session_id := session_id;
                  cd_delay_seconds := delay |} in
             exists send_results w3 formatted,
               trigger_scheduled_capture env c m w delay
               = (TriggerSuccess session_id capture_time (ready_nodes_of rs)
                    send_results formatted, c1, m1, w3)
               /\ format_time env capture_time = Returned formatted
               /\ posts_of (io_log w3)
                  = posts_of (io_log w)
                    ++ posts_to m1 command (ready_nodes_of rs)
               /\ send_results
                  = recorded_outcomes env m1 command (ready_nodes_of rs)
                      (wall w2)
               /\ keys send_results = ready_nodes_of rs
               /\ (forall id, In id (ready_nodes_of rs) ->
                     exists node sent,
                       dict_get id (nodes m1) = Some node
                       /\ node_id node = id
                       /\ capture_post m1 command id
                          = [IoPostCapture (host_of (ip_address node))
                               (node_port node) command]
                       /\ dict_get id send_results
                          = Some (delivered
                                    (fst (http_post_capture env
                                            (host_of (ip_address node))
                                            (node_port node) command sent))))
         end
     end.
Proof.
  intros Hreach Hc Hne. apply reachable_well_formed in Hreach.
  destruct (check_all_nodes_ready_status env m w rs m1 w1 Hc)
    as (Hposts & _ & Hnd).
  destruct (ready_nodes_of_spec rs Hnd) as (Hnd_ready & Hready).
  split; [assumption|]. split; [assumption|].
  rewrite (trigger_with_ready_devices env c m w delay rs m1 w1 Hc Hne).
  destruct (generate_session_id w1) as [sid|exc]; [|now split].
  pose proof (schedule_capture_posts env c w1 sid delay) as Hsched.
  pose proof (schedule_capture_returned env c w1 sid delay) as Hret.
  destruct (schedule_capture env c w1 sid delay) as [[[ct|exc] c1] w2];
    cbn [fst snd] in Hsched, Hret.
  2:{ split; [reflexivity | now rewrite Hsched]. }
  destruct (Hret ct eq_refl) as (_ & text & Htext).
  cbv zeta.
  set (command := {| cd_capture_time := ct; cd_session_id := sid;
                     cd_delay_seconds := delay |}).
  destruct (send_all_spec env m1 command (ready_nodes_of rs) [] w2)
    as (Hsent & _).
  pose proof (send_all_outcomes env m1 command (ready_nodes_of rs) [] w2
                Hnd_ready) as Hout.
  destruct (send_all env m1 command (ready_nodes_of rs) [] w2)
    as [results w3].
  cbn [fst snd app] in Hsent, Hout. rewrite Htext.
  exists results, w3, text.
  split; [reflexivity|]. split; [reflexivity|].
  split; [now rewrite Hsent, Hsched, Hposts|].
  split; [exact Hout|].
  split; [rewrite Hout; apply keys_recorded_outcomes|].
  intros id Hin.
  destruct (ready_nodes_tracked env m w rs m1 w1 Hreach Hc id Hin)
    as (node & Hg & Hid).
  destruct (recorded_outcomes_lookup env m1 command id node Hg
              (ready_nodes_of rs) (wall w2) Hin) as (sent & Hsentat).
  exists node, sent. split; [assumption|]. split; [assumption|].
  split; [unfold capture_post; now rewrite Hg|].
  now rewrite Hout.
Qed.

Example trigger_fleet_of_three :
  trigger_summary
    (fst (fst (fst (trigger_scheduled_capture env_two_ready (new_client None)
                      fleet_of_three (world_at 100) (1 # 2)))))
    (snd (trigger_scheduled_capture env_two_ready (new_client None)
            fleet_of_three (world_at 100) (1 # 2)))
  = ("capture_100030", [1%Z; 2%Z], [(1%Z, true); (2%Z, false)],
     [("192.168.1.11", true, "capture_100030");
      ("192.168.1.12", true, "capture_100030")]).
Proof. vm_compute. reflexivity. Qed.

Lemma trigger_dispatches_to_ready_snapshot_witness :
  NoDup (ready_nodes_of (fst (fst checked_three)))
  /\ (forall id,
        In id (ready_nodes_of (fst (fst checked_three)))
        <-> dict_get id (fst (fst checked_three)) = Some true)
  /\ match generate_session_id (snd checked_three) with
     | Raised exc =>
         trigger_scheduled_capture env_two_ready (new_client None)
           fleet_of_three (world_at 100) (1 # 2)
         = (TriggerRaised exc, new_client None, snd (fst checked_three),
            snd checked_three)
         /\ posts_of (io_log (snd checked_three))
            = posts_of (io_log (world_at 100))
     | Returned session_id =>
         match schedule_capture env_two_ready (new_client None)
                 (snd checked_three) session_id (1 # 2) with
         | (Raised exc, c1, w2) =>
             trigger_scheduled_capture env_two_ready (new_client None)
               fleet_of_three (world_at 100) (1 # 2)
             = (TriggerRaised exc, c1, snd (fst checked_three), w2)
             /\ posts_of (io_log w2) = posts_of (io_log (world_at 100))
         | (Returned capture_time, c1, w2) =>
             let command :=
               {| cd_capture_time := capture_time;
                  cd_session_id := session_id;
                  cd_delay_seconds := 1 # 2 |} in
             exists send_results w3 formatted,
               trigger_scheduled_capture env_two_ready (new_client None)
                 fleet_of_three (world_at 100) (1 # 2)
               = (TriggerSuccess session_id capture_time
                    (ready_nodes_of (fst (fst checked_three)))
                    send_results formatted, c1, snd (fst checked_three), w3)
               /\ format_time env_two_ready capture_time = Returned formatted
               /\ posts_of (io_log w3)
                  = posts_of (io_log (world_at 100))
                    ++ posts_to (snd (fst checked_three)) command
                         (ready_nodes_of (fst (fst checked_three)))
               /\ send_results
                  = recorded_outcomes env_two_ready (snd (fst checked_three))
                      command (ready_nodes_of (fst (fst checked_three)))
                      (wall w2)
               /\ keys send_results
                  = ready_nodes_of (fst (fst checked_three))
               /\ (forall id,
                     In id (ready_nodes_of (fst (fst checked_three))) ->
                     exists node sent,
                       dict_get id (nodes (snd (fst checked_three)))
                       = Some node
                       /\ node_id node = id
                       /\ capture_post (snd (fst checked_three)) command id
                          = [IoPostCapture (host_of (ip_address node))
                               (node_port node) command]
                       /\ dict_get id send_results
                          = Some (delivered
                                    (fst (http_post_capture env_two_ready
                                            (host_of (ip_address node))
                                            (node_port node) command sent))))
         end
     end.
Proof.
  apply (trigger_dispatches_to_ready_snapshot env_two_ready (new_client None)
           fleet_of_three (world_at 100) (1 # 2) (fst (fst checked_three))
           (snd (fst checked_three)) (snd checked_three)).
  - apply reachable_fleet_of_three.
  - reflexivity.
  - vm_compute. discriminate.
Defined.

(** C2 as stated fails when the capture time cannot be rendered: with two
    devices ready and a delay of [10^12] seconds the call raises the
    [ValueError] of [datetime.fromtimestamp], and no capture command has
    been sent to any device. *)
Lemma trigger_with_unrenderable_capture_time :
  ready_nodes_of (fst (fst checked_three)) = [1%Z; 2%Z]
  /\ fst (fst (fst (trigger_scheduled_capture env_two_ready (new_client None)
                      fleet_of_three (world_at 100) 1000000000000)))
     = TriggerRaised "year 33658 is out of range"
  /\ posts_of
       (io_log (snd (trigger_scheduled_capture env_two_ready
                       (new_client None) fleet_of_three (world_at 100)
                       1000000000000)))
     = [].
Proof. repeat split; vm_compute; reflexivity. Qed.

End DispatchFacts.

(** ** The device-side capture handler *)

Module NodeFacts.
Import NtpSync NtpSpec NtpFacts Node NodeSpec.

Lemma dict_get_del_other {V : Type} (k k' : string) (d : dict string V) :
  k <> k' -> dict_get k (dict_del k' d) = dict_get k d.
Proof.
  intros Hne. unfold dict_del.
  induction d as [|[k2 v2] d IH]; simpl; [reflexivity|].
  destruct (String.eqb_spec k' k2) as [->|Hne2]; simpl.
  - destruct (String.eqb_spec k k2); [contradiction | exact IH].
  - destruct (String.eqb_spec k k2); [reflexivity | exact IH].
Qed.

Lemma perform_capture_captures (env : Env) (dev : Device) (sid : string)
  (ct : Q) (ns : NodeServer) :
  scheduled_captures (perform_capture env dev sid ct ns)
  = scheduled_captures ns.
Proof.
  unfold perform_capture, capture_image.
  destruct (generate_filename env (config_node_id ns) ct) as [name|exc];
    [|reflexivity].
  destruct (negb (initialized ns)); [reflexivity|].
  destruct (camera_capture dev _) as [p|]; [|reflexivity].
  destruct (Manager.truthy_string (Some p)); reflexivity.
Qed.

Lemma capture_handler_cases (env : Env) (ns : NodeServer)
  (data : CaptureRequest) :
  (truthy_time (rq_capture_time data) = false
   \/ Manager.truthy_string (rq_session_id data) = false
   \/ is_ready ns = false)
  /\ (exists e,
        capture_handler env ns (JsonBody data) = (Rejected 400 e, ns, None))
  \/ exists ct sid,
       rq_capture_time data = Some ct /\ rq_session_id data = Some sid
       /\ truthy_time (rq_capture_time data) = true
       /\ Manager.truthy_string (rq_session_id data) = true
       /\ is_ready ns = true
       /\ capture_handler env ns (JsonBody data)
          = (match format_time env ct with
             | Returned _ => Accepted sid ct (config_node_id ns)
             | Raised exc => Rejected 500 exc
             end,
             with_captures ns (dict_set sid (ct, sid) (scheduled_captures ns)),
             Some (ct, sid)).
Proof.
  unfold capture_handler.
  destruct (rq_capture_time data) as [ct|] eqn:Hct;
    [|left; split; [left; reflexivity | eauto]].
  destruct (rq_session_id data) as [sid|] eqn:Hsid;
    [|left; split; [right; left; reflexivity | eauto]].
  destruct (truthy_time (Some ct)) eqn:Ht;
    [|left; split; [left; reflexivity | simpl; eauto]].
  destruct (Manager.truthy_string (Some sid)) eqn:Hs;
    [|left; split; [right; left; reflexivity | simpl; eauto]].
  destruct (is_ready ns) eqn:Hr;
    [|left; split; [right; right; reflexivity | simpl; eauto]].
  right. exists ct, sid. cbn [negb orb].
  repeat split. now destruct (format_time env ct).
Qed.

(** C7 (as amended): for a decoded command, the handler answers 400 if and
    only if [capture_time] is missing or zero, or [session_id] is missing or
    empty, or the camera is not ready, and then nothing is scheduled.
    Otherwise it hands the wait to the event loop and files it under the
    session id; after that it answers success when the calendar can render
    the capture time for the log line, and 500 with the text of the
    exception when it cannot, the wait staying scheduled.  A body that
    cannot be decoded is answered 500 and schedules nothing.  Whatever the
    camera and the upload do, once the wait has run the callback and
    returned, the session id is no longer pending and the other pending
    sessions are untouched; and the wait does return provided that, from
    some suspension on, a sleep lasts at least as long as requested on the
    synchronized clock. *)
Theorem capture_handler_contract :
  (forall env ns data resp ns' task,
      capture_handler env ns (JsonBody data) = (resp, ns', task) ->
      (response_status resp = 400%Z
       <-> truthy_time (rq_capture_time data) = false
           \/ Manager.truthy_string (rq_session_id data) = false
           \/ is_ready ns = false)
      /\ (response_status resp = 400%Z -> ns' = ns /\ task = None)
      /\ (response_status resp <> 400%Z ->
          exists ct sid,
            rq_capture_time data = Some ct /\ rq_session_id data = Some sid
            /\ task = Some (ct, sid)
            /\ ns' = with_captures ns
                       (dict_set sid (ct, sid) (scheduled_captures ns))
            /\ dict_get sid (scheduled_captures ns') = Some (ct, sid)
            /\ (forall text,
                  format_time env ct = Returned text ->
                  resp = Accepted sid ct (config_node_id ns)
                  /\ response_success resp = true)
            /\ (forall exc,
                  format_time env ct = Raised exc ->
                  resp = Rejected 500 exc)))
  /\ (forall env ns exc,
        capture_handler env ns (BadJson exc) = (Rejected 500 exc, ns, None))
  /\ (forall fuel sleep env dev cw ns ct sid tr cw' ns',
        execute_scheduled_capture fuel sleep env dev cw ns ct sid
        = Some (tr, cw', ns') ->
        fire_count tr = 1%nat
        /\ dict_mem sid (scheduled_captures ns') = false
        /\ (forall other, other <> sid ->
              dict_get other (scheduled_captures ns')
              = dict_get other (scheduled_captures ns)))
  /\ (forall sleep env dev cw ns ct sid first,
        settles_after first sleep ->
        exists fuel0, forall fuel, (fuel0 <= fuel)%nat ->
          exists tr cw' ns',
            execute_scheduled_capture fuel sleep env dev cw ns ct sid
            = Some (tr, cw', ns')).
Proof.
  split; [|split; [|split]].
  - intros env ns data resp ns' task Hh.
    destruct (capture_handler_cases env ns data)
      as [[Hbad [e He]] | (ct & sid & Hct & Hsid & Ht & Hs & Hr & Hok)].
    + rewrite He in Hh. injection Hh as <- <- <-. simpl.
      split; [tauto|]. split; [tauto | intros Hne; now elim Hne].
    + rewrite Hok in Hh. injection Hh as <- <- <-.
      assert (Hst : response_status
                      (match format_time env ct with
                       | Returned _ => Accepted sid ct (config_node_id ns)
                       | Raised exc => Rejected 500 exc
                       end) <> 400%Z)
        by (destruct (format_time env ct); cbn; discriminate).
      split; [|split].
      * split; [intros H; now elim Hst|]. intros [H|[H|H]]; congruence.
      * intros H. now elim Hst.
      * intros _. exists ct, sid.
        split; [assumption|]. split; [assumption|].
        split; [reflexivity|]. split; [reflexivity|].
        split; [apply dict_get_set_same|].
        split.
        -- intros text Htext. rewrite Htext. now split.
        -- intros exc Hexc. now rewrite Hexc.
  - reflexivity.
  - intros fuel sleep env dev cw ns ct sid tr cw' ns' Hrun.
    unfold execute_scheduled_capture in Hrun.
    destruct (wait_for_capture_time fuel sleep 0 cw ns ct
                (Some (perform_capture env dev sid ct)))
      as [[[tr0 cw0] ns0]|] eqn:Hwait; [|discriminate].
    injection Hrun as <- <- <-.
    destruct (wait_is_run sleep ct _ fuel 0%nat cw ns tr0 cw0 ns0 Hwait)
      as [Hr ->].
    destruct (wait_run_fires_once sleep ct 0%nat cw tr0 cw0 Hr)
      as (Hcount & _).
    split; [exact Hcount|].
    rewrite perform_capture_captures.
    destruct (dict_mem sid (scheduled_captures ns)) eqn:Hmem; simpl.
    + split.
      * unfold dict_mem. now rewrite dict_get_del_same.
      * intros other Hne. now apply dict_get_del_other.
    + split; rewrite ?perform_capture_captures; [assumption | reflexivity].
  - intros sleep env dev cw ns ct sid first Hsettles.
    destruct (wait_ends sleep (perform_capture env dev sid ct) ns ct first
                Hsettles first 0%nat cw ltac:(lia)) as [fuel0 Hfuel0].
    exists fuel0. intros fuel Hfuel.
    destruct (Hfuel0 fuel Hfuel) as (tr & cw' & Hrun).
    unfold execute_scheduled_capture. rewrite Hrun. eauto.
Qed.

Example capture_handler_accepts :
  capture_handler env_unreachable node_ready
    (JsonBody (command_at (105 + (1 # 2)) "capture_100030"))
  = (Accepted "capture_100030" (105 + (1 # 2)) (Some 1%Z), node_pending,
     Some (105 + (1 # 2), "capture_100030")).
Proof. vm_compute. reflexivity. Qed.

Example capture_handler_undecodable :
  response_status
    (fst (fst (capture_handler env_unreachable node_ready
                 (BadJson "Expecting value"))))
  = 500%Z.
Proof. reflexivity. Qed.

Example execute_with_refused_upload :
  option_map (fun r => (List.length (fst (fst r)), snd r))
    (execute_scheduled_capture 10 punctual env_unreachable
       device_upload_refused (client_recent, world_at 100) node_pending
       (105 + (1 # 2)) "capture_100030")
  = Some (4%nat,
          {| config_node_id := Some 1%Z; initialized := true;
             scheduled_captures := [];
             images := ["/tmp/19700101_000145_500-node01.jpg"];
             uploads := [("19700101_000145_500-node01.jpg", false)] |}).
Proof. vm_compute. reflexivity. Qed.

Lemma capture_handler_contract_witness :
  ((response_status
      (Accepted "capture_100030" (105 + (1 # 2)) (Some 1%Z)) = 400%Z
    <-> truthy_time
          (rq_capture_time (command_at (105 + (1 # 2)) "capture_100030"))
        = false
        \/ Manager.truthy_string
             (rq_session_id (command_at (105 + (1 # 2)) "capture_100030"))
           = false
        \/ is_ready node_ready = false)
   /\ (response_status
         (Accepted "capture_100030" (105 + (1 # 2)) (Some 1%Z)) = 400%Z ->
       node_pending = node_ready
       /\ Some (105 + (1 # 2), "capture_100030") = None)
   /\ (response_status
         (Accepted "capture_100030" (105 + (1 # 2)) (Some 1%Z)) <> 400%Z ->
       exists ct sid,
         rq_capture_time (command_at (105 + (1 # 2)) "capture_100030")
         = Some ct
         /\ rq_session_id (command_at (105 + (1 # 2)) "capture_100030")
            = Some sid
         /\ Some (105 + (1 # 2), "capture_100030") = Some (ct, sid)
         /\ node_pending
            = with_captures node_ready
                (dict_set sid (ct, sid) (scheduled_captures node_ready))
         /\ dict_get sid (scheduled_captures node_pending) = Some (ct, sid)
         /\ (forall text,
               format_time env_unreachable ct = Returned text ->
               Accepted "capture_100030" (105 + (1 # 2)) (Some 1%Z)
               = Accepted sid ct (config_node_id node_ready)
               /\ response_success
                    (Accepted "capture_100030" (105 + (1 # 2)) (Some 1%Z))
                  = true)
         /\ (forall exc,
               format_time env_unreachable ct = Raised exc ->
               Accepted "capture_100030" (105 + (1 # 2)) (Some 1%Z)
               = Rejected 500 exc)))
  /\ (exists fuel0, forall fuel, (fuel0 <= fuel)%nat ->
        exists tr cw' ns',
          execute_scheduled_capture fuel restless env_unreachable
            device_upload_refused (client_recent, world_at 100) node_pending
            (105 + (1 # 2)) "capture_100030"
          = Some (tr, cw', ns')).
Proof.
  destruct capture_handler_contract as (Hhandler & _ & _ & Hexecute).
  split.
  - apply (Hhandler env_unreachable node_ready
             (command_at (105 + (1 # 2)) "capture_100030")
             (Accepted "capture_100030" (105 + (1 # 2)) (Some 1%Z))
             node_pending (Some (105 + (1 # 2), "capture_100030"))).
    vm_compute. reflexivity.
  - apply (Hexecute restless env_unreachable device_upload_refused
             (client_recent, world_at 100) node_pending (105 + (1 # 2))
             "capture_100030" 1%nat).
    intros n d cw Hn Hd. destruct n as [|n]; [lia|].
    unfold now_of, restless, punctual, get_synchronized_time. simpl. lra.
Defined.

(** C7 as stated fails in two ways.  A command that carries both fields,
    with the capture time 0, is answered 400 although the camera is ready.
    And a command with the capture time [10^12], which the calendar cannot
    render, is answered 500 although both fields are there and the camera
    is ready; the wait it asked for has been scheduled all the same. *)
Lemma capture_handler_rejects_zero_time :
  (rq_capture_time (command_at 0 "capture_100030") <> None
   /\ rq_session_id (command_at 0 "capture_100030") <> None
   /\ is_ready node_ready = true
   /\ response_status
        (fst (fst (capture_handler env_unreachable node_ready
                     (JsonBody (command_at 0 "capture_100030")))))
      = 400%Z)
  /\ capture_handler env_unreachable node_ready
       (JsonBody (command_at 1000000000000 "capture_100030"))
     = (Rejected 500 "year 33658 is out of range",
        with_captures node_ready
          [("capture_100030", (1000000000000, "capture_100030"))],
        Some (1000000000000, "capture_100030")).
Proof.
  split; [repeat split; discriminate | vm_compute; reflexivity].
Qed.

End NodeFacts.

(** ** Decoding the reply of a time source *)

Module PacketFacts.
Import NtpSync NtpSpec NtpFacts PacketSpec.

Lemma byte_val_byte_of_Z (z : Z) : byte_val (byte_of_Z z) = (z mod 256)%Z.
Proof.
  unfold byte_val, byte_of_Z.
  assert (Hr : (0 <= z mod 256 < 256)%Z) by (apply Z.mod_pos_bound; lia).
  destruct (Byte.of_N (Z.to_N (z mod 256))) as [b|] eqn:E.
  - apply Byte.to_of_N in E. rewrite E. apply Z2N.id. lia.
  - apply Byte.of_N_None_iff in E. lia.
Qed.

Lemma byte_val_range (b : Byte.byte) : (0 <= byte_val b <= 255)%Z.
Proof.
  unfold byte_val. pose proof (Byte.to_N_bounded b). lia.
Qed.

Lemma be32_decodes (ts : Z) :
  (0 <= ts < 2 ^ 32)%Z ->
  Z.lor (Z.shiftl (Z.shiftr ts 24 mod 256) 24)
    (Z.lor (Z.shiftl (Z.shiftr ts 16 mod 256) 16)
       (Z.lor (Z.shiftl (Z.shiftr ts 8 mod 256) 8) (ts mod 256))) = ts.
Proof.
  intros Hts. apply Z.bits_inj'. intros n Hn.
  assert (Hhigh : (32 <= n)%Z -> Z.testbit ts n = false).
  { intros Hbig. destruct (Z.eq_dec ts 0) as [->|Hnz]; [apply Z.testbit_0_l|].
    apply Z.bits_above_log2; [lia|].
    assert (Z.log2 ts < 32)%Z by (apply Z.log2_lt_pow2; lia). lia. }
  rewrite !Z.lor_spec, !Z.shiftl_spec by lia.
  change 256%Z with (2 ^ 8)%Z.
  rewrite !Z.testbit_mod_pow2 by lia.
  assert (Hbit : forall k, (0 <= k)%Z ->
            Z.testbit (Z.shiftr ts k) (n - k)
            = if (k <=? n)%Z then Z.testbit ts n else false).
  { intros k Hk. destruct (Z.leb_spec k n).
    - rewrite Z.shiftr_spec by lia. f_equal. lia.
    - apply Z.testbit_neg_r. lia. }
  rewrite !Hbit by lia.
  destruct (Z.ltb_spec (n - 24) 8), (Z.ltb_spec (n - 16) 8),
    (Z.ltb_spec (n - 8) 8), (Z.ltb_spec n 8),
    (Z.leb_spec 24 n), (Z.leb_spec 16 n), (Z.leb_spec 8 n);
    try lia; simpl; rewrite ?orb_false_r; try reflexivity.
  symmetry. apply Hhigh. lia.
Qed.

Lemma unpack_timestamp_be32 (header trailer : list Byte.byte) (ts : Z) :
  List.length header = 40%nat -> (0 <= ts < 2 ^ 32)%Z ->
  unpack_timestamp (header ++ be32 ts ++ trailer) = Some ts.
Proof.
  intros Hlen Hts. unfold unpack_timestamp.
  rewrite skipn_app, Hlen, Nat.sub_diag.
  rewrite (skipn_all2 header) by lia.
  unfold be32. cbn [app firstn skipn].
  rewrite !byte_val_byte_of_Z. f_equal. now apply be32_decodes.
Qed.

Lemma lor_below (a b n : Z) :
  (0 < n)%Z -> (0 <= a < 2 ^ n)%Z -> (0 <= b < 2 ^ n)%Z ->
  (0 <= Z.lor a b < 2 ^ n)%Z.
Proof.
  intros Hn Ha Hb.
  assert (Hnonneg : (0 <= Z.lor a b)%Z) by (apply Z.lor_nonneg; lia).
  split; [assumption|].
  destruct (Z.eq_dec (Z.lor a b) 0) as [->|Hnz].
  - apply Z.pow_pos_nonneg; lia.
  - apply Z.log2_lt_pow2; [lia|].
    rewrite Z.log2_lor by lia.
    apply Z.max_lub_lt.
    + destruct (Z.eq_dec a 0) as [->|Ha0]; [simpl; lia|].
      apply Z.log2_lt_pow2; lia.
    + destruct (Z.eq_dec b 0) as [->|Hb0]; [simpl; lia|].
      apply Z.log2_lt_pow2; lia.
Qed.

Lemma shiftl_byte_below (b : Byte.byte) (k : Z) :
  (0 <= k <= 24)%Z -> (0 <= Z.shiftl (byte_val b) k < 2 ^ 32)%Z.
Proof.
  intros Hk. pose proof (byte_val_range b) as Hb.
  rewrite Z.shiftl_mul_pow2 by lia.
  assert (Hp : (0 < 2 ^ k)%Z) by (apply Z.pow_pos_nonneg; lia).
  split; [nia|].
  assert (H8 : (byte_val b < 2 ^ 8)%Z) by (change (2 ^ 8)%Z with 256%Z; lia).
  assert (Hle : (2 ^ k <= 2 ^ 24)%Z) by (apply Z.pow_le_mono_r; lia).
  change (2 ^ 32)%Z with (2 ^ 8 * 2 ^ 24)%Z.
  change (2 ^ 8)%Z with 256%Z in *. nia.
Qed.

Lemma unpack_timestamp_range (response : list Byte.byte) (ts : Z) :
  unpack_timestamp response = Some ts -> (0 <= ts < 2 ^ 32)%Z.
Proof.
  unfold unpack_timestamp.
  destruct (firstn 4 (skipn 40 response)) as [|b0 [|b1 [|b2 [|b3 [|? ?]]]]];
    try discriminate.
  intros [= <-].
  pose proof (shiftl_byte_below b0 24 ltac:(lia)).
  pose proof (shiftl_byte_below b1 16 ltac:(lia)).
  pose proof (shiftl_byte_below b2 8 ltac:(lia)).
  pose proof (shiftl_byte_below b3 0 ltac:(lia)) as H3.
  rewrite Z.shiftl_0_r in H3.
  repeat (apply lor_below; [lia | try assumption | try assumption]).
Qed.

Lemma unpack_timestamp_short (response : list Byte.byte) :
  (List.length response < 44)%nat -> unpack_timestamp response = None.
Proof.
  intros Hlen. unfold unpack_timestamp.
  assert (Hl : (List.length (firstn 4 (skipn 40 response)) < 4)%nat).
  { rewrite length_firstn, length_skipn. lia. }
  destruct (firstn 4 (skipn 40 response)) as [|b0 [|b1 [|b2 [|b3 [|? ?]]]]];
    try reflexivity; simpl in Hl; lia.
Qed.

(** X1: a reply whose bytes 40..43 hold the seconds field [unix +
    2208988800] in network byte order is decoded by [get_ntp_time] to the
    Unix time [unix], whatever the other bytes of the datagram are. *)
Theorem get_ntp_time_round_trip (env : Env) (server : string) (w : World)
  (header trailer : list Byte.byte) (unix : Z) (t' : Q) :
  List.length header = 40%nat ->
  (- 2208988800 <= unix < 2 ^ 32 - 2208988800)%Z ->
  udp_exchange env server (wall w)
  = (UdpReply (header ++ be32 (unix + 2208988800) ++ trailer), t') ->
  fst (get_ntp_time env server w) = Some (inject_Z unix)
  /\ wall (snd (get_ntp_time env server w)) = t'.
Proof.
  intros Hlen Hrange Hex. unfold get_ntp_time. rewrite Hex.
  rewrite unpack_timestamp_be32 by (assumption || lia). simpl.
  split; [|reflexivity]. do 2 f_equal. lia.
Qed.

Lemma get_ntp_time_round_trip_witness :
  fst (get_ntp_time (env_replying
                       (repeat Byte.xff 40 ++ be32 (150 + 2208988800)
                        ++ [Byte.x01; Byte.x02; Byte.x03; Byte.x04])
                       (1 # 4))
         "time.nist.gov" (world_at 100))
  = Some (inject_Z 150)
  /\ wall (snd (get_ntp_time (env_replying
                                (repeat Byte.xff 40 ++ be32 (150 + 2208988800)
                                 ++ [Byte.x01; Byte.x02; Byte.x03; Byte.x04])
                                (1 # 4))
                  "time.nist.gov" (world_at 100)))
     = 100 + (1 # 4).
Proof.
  apply (get_ntp_time_round_trip _ "time.nist.gov" (world_at 100)
           (repeat Byte.xff 40) [Byte.x01; Byte.x02; Byte.x03; Byte.x04] 150).
  - reflexivity.
  - lia.
  - reflexivity.
Defined.

(** X2: [get_ntp_time] yields no time when the exchange raises or the
    datagram has fewer than 44 bytes; a time it does yield is a whole number
    of seconds between -2208988800 and 2085978495 (the 32-bit seconds field
    moved from the 1900 to the 1970 epoch; the fraction field is not
    read). *)
Theorem get_ntp_time_range (env : Env) (server : string) (w : World) :
  (forall t w',
      get_ntp_time env server w = (Some t, w') ->
      exists z, t = inject_Z z /\ (- 2208988800 <= z <= 2085978495)%Z)
  /\ (forall response t',
        udp_exchange env server (wall w) = (UdpReply response, t') ->
        (List.length response < 44)%nat ->
        fst (get_ntp_time env server w) = None)
  /\ (forall t',
        udp_exchange env server (wall w) = (UdpError, t') ->
        fst (get_ntp_time env server w) = None).
Proof.
  unfold get_ntp_time. split; [|split].
  - intros t w' Hg.
    destruct (udp_exchange env server (wall w)) as [[|response] t'];
      [discriminate|].
    destruct (unpack_timestamp response) as [ts|] eqn:Hu; [|discriminate].
    injection Hg as <- _.
    apply unpack_timestamp_range in Hu.
    exists (ts - 2208988800)%Z. split; [reflexivity|].
    change (2 ^ 32)%Z with 4294967296%Z in Hu. lia.
  - intros response t' Hex Hlen. rewrite Hex.
    now rewrite unpack_timestamp_short.
  - intros t' Hex. now rewrite Hex.
Qed.

Lemma get_ntp_time_range_witness :
  (exists z, inject_Z 150 = inject_Z z
             /\ (- 2208988800 <= z <= 2085978495)%Z)
  /\ fst (get_ntp_time (env_replying (repeat Byte.x00 43) 1) "pool.ntp.org"
            (world_at 100)) = None
  /\ fst (get_ntp_time env_unreachable "pool.ntp.org" (world_at 100)) = None.
Proof.
  split; [|split].
  - apply (proj1 (get_ntp_time_range env_second_answers "time.nist.gov"
                    (world_at 100)) (inject_Z 150)
             (snd (get_ntp_time env_second_answers "time.nist.gov"
                     (world_at 100)))).
    reflexivity.
  - apply (proj1 (proj2 (get_ntp_time_range (env_replying (repeat Byte.x00 43) 1)
                           "pool.ntp.org" (world_at 100)))
             (repeat Byte.x00 43) (100 + 1)); [reflexivity | simpl; lia].
  - apply (proj2 (proj2 (get_ntp_time_range env_unreachable "pool.ntp.org"
                           (world_at 100))) (100 + 5)).
    reflexivity.
Defined.

End PacketFacts.

(** ** More on the clock client *)

Module NtpMore.
Import NtpSync NtpSpec NtpFacts.

Lemma sync_servers_success (env : Env) (srvs : list string) (c : NTPClient) :
  forall w c' w1,
    sync_servers env srvs c w = (true, c', w1) ->
    exists t,
      ~ t == 0
      /\ c' = {| servers := servers c; time_offset := t - wall w1;
                 last_sync := wall w1 |}.
Proof.
  induction srvs as [|s rest IH]; intros w c' w1 Hs; simpl in Hs;
    [discriminate|].
  destruct (get_ntp_time env s w) as [[t|] w0]; [|eauto].
  destruct (truthy_time (Some t)) eqn:Ht; [|eauto].
  injection Hs as <- <-. exists t. split; [|reflexivity].
  now apply truthy_time_Some.
Qed.



Example synchronized_clock_after_zero_reply :
  get_synchronized_time
    (snd (fst (sync_time env_first_answers_zero (new_client None)
                 (world_at 100))))
    (snd (sync_time env_first_answers_zero (new_client None) (world_at 100)))
  == 150.
Proof. vm_compute. reflexivity. Qed.

Lemma string_of_Z_inj (a b : Z) : string_of_Z a = string_of_Z b -> a = b.
Proof.
  unfold string_of_Z. intros H.
  apply DecimalZ.to_int_inj.
  pose proof (NilEmpty.isi (Z.to_int a)) as Ha.
  pose proof (NilEmpty.isi (Z.to_int b)) as Hb.
  rewrite H in Ha. congruence.
Qed.

Lemma py_int_floor (x : Q) : 0 <= x -> py_int x = Qfloor x.
Proof.
  destruct x as [n d]. unfold Qle, py_int, Qfloor. simpl. intros Hn.
  apply Z.quot_div_nonneg; lia.
Qed.

Lemma generate_session_id_unfold (w : World) :
  generate_session_id w
  = match round_double (wall w * 1000) with
    | None => Raised "cannot convert float infinity to integer"
    | Some product =>
        Returned (String.append "capture_" (string_of_Z (py_int product)))
    end.
Proof. reflexivity. Qed.

Lemma pow2_53_lt_1024 : inject_Z (2 ^ 53) < 2 ^ 1024.
Proof.
  rewrite <- (pow2_inject 53) by lia.
  apply Qlt_le_trans with (2 ^ 54).
  - rewrite !pow2_inject by lia. rewrite <- Zlt_Qlt. reflexivity.
  - apply pow2_mono. lia.
Qed.

(** X4: [generate_session_id] multiplies the wall-clock reading by 1000 in
    double arithmetic.  It raises exactly when that product is an infinity;
    two calls that return give the same id exactly when their rounded
    products truncate to the same whole number; and two calls at
    non-negative times that lie two milliseconds or more apart, the earlier
    one before [2^53 - 2] milliseconds, never give the same id. *)
Theorem generate_session_id_distinct :
  (forall w,
      round_double (wall w * 1000) = None
      <-> generate_session_id w
          = Raised "cannot convert float infinity to integer")
  /\ (forall w1 w2 p1 p2,
        round_double (wall w1 * 1000) = Some p1 ->
        round_double (wall w2 * 1000) = Some p2 ->
        generate_session_id w1
        = Returned (String.append "capture_" (string_of_Z (py_int p1)))
        /\ (generate_session_id w1 = generate_session_id w2
            <-> py_int p1 = py_int p2))
  /\ (forall w1 w2,
        0 <= wall w1 -> wall w1 * 1000 + 2 < 2 ^ 53 ->
        wall w1 + (2 # 1000) <= wall w2 ->
        (exists id, generate_session_id w1 = Returned id)
        /\ generate_session_id w1 <> generate_session_id w2).
Proof.
  split; [|split].
  - intros w. rewrite generate_session_id_unfold.
    destruct (round_double (wall w * 1000)); split;
      (discriminate || reflexivity).
  - intros w1 w2 p1 p2 H1 H2. rewrite !generate_session_id_unfold, H1, H2.
    split; [reflexivity|]. split.
    + intros [= H]. now apply string_of_Z_inj.
    + intros H. now rewrite H.
  - intros w1 w2 H0 Hbound Hgap.
    set (x1 := wall w1 * 1000) in *.
    set (N := (Qfloor x1 + 1)%Z).
    destruct (floor_bounds x1) as [Hf1 Hf2].
    rewrite (pow2_inject 53) in Hbound by lia.
    assert (Hx1 : 0 <= x1) by (unfold x1; lra).
    assert (Hfl : (0 <= Qfloor x1)%Z).
    { change 0%Z with (Qfloor 0). now apply Qfloor_resp_le. }
    assert (HN : (0 <= N /\ N + 1 < 2 ^ 53)%Z).
    { split; [unfold N; lia|]. rewrite Zlt_Qlt.
      unfold N. rewrite !inject_Z_plus. change (inject_Z 1) with 1. lra. }
    assert (Hr1 : round_raw x1 <= inject_Z N).
    { rewrite <- (round_raw_int N) by lia. apply round_raw_mono.
      unfold N. rewrite inject_Z_plus. change (inject_Z 1) with 1. lra. }
    assert (Hr1' : 0 <= round_raw x1).
    { change 0 with (round_raw 0). now apply round_raw_mono. }
    assert (Hr2 : inject_Z (N + 1) <= round_raw (wall w2 * 1000)).
    { rewrite <- (round_raw_int (N + 1)) by lia. apply round_raw_mono.
      unfold N. rewrite !inject_Z_plus. change (inject_Z 1) with 1.
      unfold x1 in *. lra. }
    assert (Hsome : round_double x1 = Some (round_raw x1)).
    { unfold round_double. cbv zeta.
      destruct (Qle_bool (2 ^ 1024) (Qabs (round_raw x1))) eqn:E;
        [|reflexivity].
      exfalso. apply Qle_bool_iff in E. rewrite Qabs_pos in E by exact Hr1'.
      pose proof pow2_53_lt_1024 as Hp.
      assert (inject_Z N < inject_Z (2 ^ 53)) by (rewrite <- Zlt_Qlt; lia).
      lra. }
    split.
    { rewrite generate_session_id_unfold. fold x1. rewrite Hsome. eauto. }
    rewrite !generate_session_id_unfold. fold x1. rewrite Hsome.
    destruct (round_double (wall w2 * 1000)) as [p2|] eqn:E2;
      [|discriminate].
    intros [= H]. apply string_of_Z_inj in H.
    assert (Hp2 : p2 = round_raw (wall w2 * 1000)).
    { unfold round_double in E2. cbv zeta in E2.
      destruct (Qle_bool _ _) in E2; [discriminate|]. now injection E2. }
    subst p2.
    assert (Hr2' : 0 <= round_raw (wall w2 * 1000)).
    { apply Qle_trans with (inject_Z (N + 1)); [|exact Hr2].
      change 0 with (inject_Z 0). rewrite <- Zle_Qle. lia. }
    rewrite !py_int_floor in H by assumption.
    pose proof (Qfloor_le (round_raw x1)) as Ha.
    pose proof (Qfloor_resp_le _ _ Hr2) as Hb.
    pose proof (Qfloor_resp_le _ _ Hr1) as Hc.
    rewrite Qfloor_Z in Hb, Hc. lia.
Qed.

Example session_id_at_100_03 :
  generate_session_id (world_at (100 + (3 # 100)))
  = Returned "capture_100030".
Proof. vm_compute. reflexivity. Qed.

(** The product is rounded before it is truncated: at this time in 2025
    the exact product lies below [1762243200001], and the double nearest to
    it is that whole number. *)
Example session_id_rounds_up :
  generate_session_id (world_at (3695691851368497 # 2097152))
  = Returned "capture_1762243200001"
  /\ py_int ((3695691851368497 # 2097152) * 1000) = 1762243200000%Z.
Proof. split; vm_compute; reflexivity. Qed.

Lemma generate_session_id_distinct_witness :
  (exists id, generate_session_id (world_at 100) = Returned id)
  /\ generate_session_id (world_at 100)
     <> generate_session_id (world_at (100 + (2 # 1000))).
Proof.
  apply (proj2 (proj2 generate_session_id_distinct) (world_at 100)
           (world_at (100 + (2 # 1000)))).
  - unfold Qle. simpl. lia.
  - vm_compute. reflexivity.
  - unfold Qle. simpl. lia.
Defined.

(** X5: without any assumption on how long sleeps last or on what the
    re-synchronisation task does to the offset meanwhile: if
    [wait_for_capture_time] returns, every sleep it asked for was positive
    and at most one second, the synchronized clock it read last had reached
    the capture time, and the callback, when one was given, ran exactly once
    and at that reading; without a callback nothing ran. *)
Theorem wait_for_capture_time_is_safe {S : Type} (sleep : Sleeper) (t : Q)
  (cb : option (S -> S)) (fuel : nat) :
  forall n cw s tr cw' s',
    wait_for_capture_time fuel sleep n cw s t cb = Some (tr, cw', s') ->
    t <= now_of cw'
    /\ (forall seen, In (EvFire seen) tr -> seen = now_of cw')
    /\ (forall seen d, In (EvSleep seen d) tr -> seen < t /\ 0 < d /\ d <= 1)
    /\ match cb with
       | Some f => fire_count tr = 1%nat /\ s' = f s
       | None => fire_count tr = 0%nat /\ s' = s
       end.
Proof.
  induction fuel as [|fuel IH]; intros n cw s tr cw' s' Hrun; [discriminate|].
  simpl in Hrun. fold (now_of cw) in Hrun.
  destruct (Qle_bool (t - now_of cw) 0) eqn:Hnow.
  - apply Qle_bool_iff in Hnow.
    destruct cb as [f|]; injection Hrun as <- <- <-.
    + split; [lra|]. split; [intros x [[= <-]|[]]; reflexivity|].
      split; [intros x d [E|[]]; discriminate | now split].
    + split; [lra|]. split; [intros x []|].
      split; [intros x d [] | now split].
  - apply Qle_bool_false in Hnow.
    match type of Hrun with
    | match ?r with _ => _ end = _ => destruct r as [[[tr0 cw0] s0]|] eqn:Hrec
    end; [|discriminate].
    injection Hrun as <- <- <-.
    destruct (IH _ _ _ _ _ _ Hrec) as (Hend & Hfire & Hsleep & Hcb).
    split; [assumption|]. split.
    { intros x [E|Hx]; [discriminate | auto]. }
    split.
    { intros x d [[= <- <-]|Hx]; [|eauto].
      split; [lra|].
      destruct (Qgtb (t - now_of cw) 1) eqn:Hgt; [lra|].
      apply Qltb_ge in Hgt. lra. }
    destruct cb; exact Hcb.
Qed.

Example wait_with_restless_sleeps :
  option_map (fun r => (fst (fst r), snd r)) restless_run
  = Some ([EvSleep 103 1; EvSleep (205 # 2) 1; EvSleep (207 # 2) (4 # 4);
           EvFire (836 # 8)], 1%nat).
Proof. vm_compute. reflexivity. Qed.

Lemma wait_for_capture_time_is_safe_witness :
  104 + (1 # 2) <= now_of (snd (fst restless_result))
  /\ (forall seen, In (EvFire seen) (fst (fst restless_result)) ->
        seen = now_of (snd (fst restless_result)))
  /\ (forall seen d, In (EvSleep seen d) (fst (fst restless_result)) ->
        seen < 104 + (1 # 2) /\ 0 < d /\ d <= 1)
  /\ (fire_count (fst (fst restless_result)) = 1%nat
      /\ snd restless_result = 1%nat).
Proof.
  apply (wait_for_capture_time_is_safe restless (104 + (1 # 2))
           (Some Datatypes.S) 8 0 (client_recent, world_at 100) 0%nat
           (fst (fst restless_result)) (snd (fst restless_result))
           (snd restless_result)).
  vm_compute. reflexivity.
Defined.

End NtpMore.

(** ** Invariants of the registry *)

Module ManagerMore.
Import NtpSync Manager NtpSpec ManagerSpec NtpFacts ManagerFacts.

Lemma Forall_dict_set {V : Type} (P : Z * V -> Prop) (k : Z) (v : V)
  (d : dict Z V) :
  Forall P d -> (forall k', P (k', v)) -> Forall P (dict_set k v d).
Proof.
  intros Hd Hv. induction d as [|[k' v'] d IH]; simpl.
  - constructor; [apply Hv | constructor].
  - inversion Hd; subst. destruct (Z.eqb k k'); constructor; auto.
Qed.

Lemma nodes_ok_lookup (d : dict Z CameraNode) (k : Z) (node : CameraNode) :
  nodes_ok d -> dict_get k d = Some node -> node_ok node.
Proof.
  intros Hd Hg. apply dict_get_Some_In in Hg.
  unfold nodes_ok in Hd. rewrite Forall_forall in Hd.
  exact (Hd _ Hg).
Qed.

Lemma node_ok_online (node : CameraNode) :
  status node = "online" -> node_ok node.
Proof. intros H. split; auto. Qed.

Lemma node_ok_gone (node : CameraNode) : node_ok (gone_offline node).
Proof. split; [now right | discriminate]. Qed.

Lemma ready_scan_probed (env : Env) (todo : dict Z CameraNode) :
  forall seen m rs w,
    exists todo',
      nodes (snd (fst (ready_scan env seen todo m rs w))) = seen ++ todo'
      /\ probed todo todo'.
Proof.
  induction todo as [|[k node] rest IH]; intros seen m rs w; simpl.
  - exists []. rewrite app_nil_r. split; [reflexivity | constructor].
  - destruct (is_online node) eqn:Hon.
    + destruct (check_node_ready env _ (node_id node) w) as [r w1] eqn:Hc.
      destruct (IH (seen ++ [(k, set_ready node r)]) m
                  (dict_set (node_id node) r rs) w1) as (todo' & Hn & Hp).
      exists ((k, set_ready node r) :: todo').
      rewrite Hn, <- app_assoc. split; [reflexivity|].
      constructor; [|assumption].
      split; [reflexivity|]. exists r. split; [reflexivity | auto].
    + destruct (IH (seen ++ [(k, set_ready node false)]) m
                  (dict_set (node_id node) false rs) w) as (todo' & Hn & Hp).
      exists ((k, set_ready node false) :: todo').
      rewrite Hn, <- app_assoc. split; [reflexivity|].
      constructor; [|assumption].
      split; [reflexivity|]. exists false. split; [reflexivity | discriminate].
Qed.

Lemma probed_nodes_ok (d d' : dict Z CameraNode) :
  probed d d' -> nodes_ok d -> nodes_ok d'.
Proof.
  induction 1 as [|a b d d' (Hk & r & Hr & Hon) _ IH]; intros Hok;
    [constructor|].
  inversion Hok as [|? ? [Hst Hrd] Hd]; subst.
  constructor; [|now apply IH].
  rewrite Hr. split; [exact Hst|]. simpl. intros Hrt.
  apply is_online_true. auto.
Qed.

Lemma nodes_ok_tick (now : Q) (d : dict Z CameraNode) :
  nodes_ok d -> nodes_ok (map (tick_entry now) d).
Proof.
  intros Hd. unfold nodes_ok in *. rewrite Forall_map.
  eapply Forall_impl; [|exact Hd].
  intros [k n] Hn. unfold tick_entry. simpl.
  destruct (timed_out now n); [apply node_ok_gone | exact Hn].
Qed.

Lemma node_offline_nodes_ok (m : CameraManager) (off : NodeData) :
  nodes_ok (nodes m) -> nodes_ok (nodes (snd (node_offline m off))).
Proof.
  intros Hok.
  destruct (dict_get (nd_node_id off) (nodes m)) as [old|] eqn:Hg.
  - destruct (node_offline_known m off old Hg) as (_ & -> & _).
    apply Forall_dict_set; [assumption|]. intros k'. apply node_ok_gone.
  - unfold node_offline. now rewrite Hg.
Qed.

Lemma reachable_nodes_ok (m : CameraManager) :
  reachable m -> nodes_ok (nodes m).
Proof.
  intros Hreach.
    induction Hreach as
        [ | m b Hr IH | now m data r m' Hr IH Hreg | now m data Hr IH
        | m data Hr IH | now m data Hr IH | now m Hr IH | m id Hr IH
        | env m w Hr IH ].
    - constructor.
    - exact IH.
    - apply reachable_well_formed in Hr.
      destruct (truthy_string (nd_local_ip data)) eqn:Haddr.
      + destruct (register_node_spec now m data Hr Haddr)
          as (id & ip & m2 & Hreg' & _ & _ & Hn & _).
        rewrite Hreg' in Hreg. injection Hreg as <- <-. rewrite Hn.
        apply Forall_app. split; [exact IH|].
        constructor; [now apply node_ok_online | constructor].
      + destruct (register_node_refused now m data Haddr) as [e He].
        rewrite He in Hreg. injection Hreg as <- <-. exact IH.
    - unfold node_online.
      destruct (dict_get (nd_node_id data) (nodes m)) as [node|] eqn:Hg;
        simpl; (apply Forall_dict_set; [exact IH|]);
        intros k'; now apply node_ok_online.
    - now apply node_offline_nodes_ok.
    - unfold update_heartbeat.
      destruct (dict_get (nd_node_id data) (nodes m)) as [node|] eqn:Hg;
        [|exact IH].
      simpl. apply Forall_dict_set; [exact IH|]. intros k'.
      apply node_ok_online. simpl.
      destruct (nodes_ok_lookup _ _ _ IH Hg) as [[Hon|Hoff] _].
      + unfold is_offline. rewrite Hon. reflexivity.
      + unfold is_offline. rewrite Hoff. reflexivity.
    - rewrite heartbeat_monitor_tick_nodes. now apply nodes_ok_tick.
    - unfold switch_preview_camera.
      destruct (dict_get id (nodes m)) as [node|]; [|exact IH].
      destruct (is_online node); exact IH.
    - unfold check_all_nodes_ready.
      destruct (ready_scan_probed env (nodes m) [] m [] w)
        as (todo' & -> & Hp).
      simpl. eapply probed_nodes_ok; eauto.
Qed.




Lemma first_online_lookup (d : dict Z CameraNode) (k : Z) :
  NoDup (keys d) -> first_online d = Some k ->
  exists node, dict_get k d = Some node /\ status node = "online".
Proof.
  intros Hnd Hf. symmetry in Hf. apply first_online_is_iff in Hf.
  destruct Hf as (before & node & after & -> & Hon & _).
  exists node. split; [|assumption].
  apply In_dict_get; [assumption|]. apply in_app_iff. right. now left.
Qed.

Lemma same_but_ready_lookup (d d' : dict Z CameraNode) (k : Z)
  (node : CameraNode) :
  same_but_ready d d' -> dict_get k d = Some node ->
  exists r, dict_get k d' = Some (set_ready node r).
Proof.
  induction 1 as [|[ka na] [kb nb] d d' [Hk [r Hr]] _ IH]; simpl;
    [discriminate|].
  simpl in Hk, Hr. subst kb nb.
  destruct (Z.eqb k ka); [|exact IH].
  intros [= ->]. eauto.
Qed.

Lemma preview_ok_same_fields (m m' : CameraManager) :
  preview_ok m -> nodes m' = nodes m ->
  current_preview_node m' = current_preview_node m -> preview_ok m'.
Proof.
  intros Hp Hn Hc p Hp'. rewrite Hn. apply Hp. congruence.
Qed.

(** Replacing the record of device [k] by one that is online, or by any
    record when [k] is not the preview device. *)
Lemma preview_ok_dict_set (m : CameraManager) (k : Z) (v : CameraNode) :
  preview_ok m ->
  (current_preview_node m = Some k -> status v = "online") ->
  preview_ok (with_nodes m (dict_set k v (nodes m))).
Proof.
  intros Hp Hv p Hcur. simpl in *.
  destruct (Z.eq_dec p k) as [->|Hne].
  - exists v. rewrite dict_get_set_same. auto.
  - rewrite dict_get_set_other by assumption. now apply Hp.
Qed.

(** X7: in every registry state the public operations can produce, the
    preview pointer is either [None] or the id of a tracked device whose
    status is ["online"]. *)
Theorem preview_device_is_online (m : CameraManager) (p : Z) :
  reachable m ->
  current_preview_node m = Some p ->
  exists node, dict_get p (nodes m) = Some node /\ status node = "online".
Proof.
  intros Hreach. revert p. change (preview_ok m).
  induction Hreach as
      [ | m b Hr IH | now m data r m' Hr IH Hreg | now m data Hr IH
      | m data Hr IH | now m data Hr IH | now m Hr IH | m id Hr IH
      | env m w Hr IH ].
  - intros p Hp. discriminate.
  - eapply preview_ok_same_fields; eauto.
  - apply reachable_well_formed in Hr.
    destruct (truthy_string (nd_local_ip data)) eqn:Haddr.
    + destruct (register_node_spec now m data Hr Haddr)
        as (id & ip & m2 & Hreg' & _ & (_ & Hnot & _) & Hn & _ & _ & Hprev).
      rewrite Hreg' in Hreg. injection Hreg as <- <-.
      intros p Hp. rewrite Hprev in Hp. rewrite Hn, dict_get_app.
      destruct (current_preview_node m) as [q|] eqn:Hq.
      * injection Hp as <-. destruct (IH q Hq) as (node & Hg & Hon).
        rewrite Hg. eauto.
      * injection Hp as <-. apply dict_get_None in Hnot. rewrite Hnot.
        simpl. rewrite Z.eqb_refl. eauto.
    + destruct (register_node_refused now m data Haddr) as [e He].
      rewrite He in Hreg. injection Hreg as <- <-. exact IH.
  - unfold node_online.
    destruct (dict_get (nd_node_id data) (nodes m)) as [node|] eqn:Hg; simpl;
      apply preview_ok_dict_set; auto.
  - destruct (dict_get (nd_node_id data) (nodes m)) as [old|] eqn:Hg.
    + pose proof (well_formed_offline m data (reachable_well_formed m Hr))
        as Hwf.
      destruct (node_offline_known m data old Hg) as (_ & Hn & _).
      intros p Hp.
      destruct (preview_is m (nd_node_id data)) eqn:Hpre.
      * apply preview_is_true in Hpre.
        rewrite (node_offline_preview m data old Hg Hpre) in Hp.
        apply first_online_lookup; [apply (wf_nodup _ Hwf) | assumption].
      * assert (Hsame : current_preview_node (snd (node_offline m data))
                        = current_preview_node m).
        { unfold node_offline. rewrite Hg. simpl.
          change (preview_is (with_nodes m _) (nd_node_id data))
            with (preview_is m (nd_node_id data)).
          now rewrite Hpre. }
        rewrite Hsame in Hp. rewrite Hn.
        assert (Hne : p <> nd_node_id data).
        { intros ->. apply preview_is_true in Hp. congruence. }
        rewrite dict_get_set_other by assumption. now apply IH.
    + unfold node_offline. rewrite Hg. exact IH.
  - unfold update_heartbeat.
    destruct (dict_get (nd_node_id data) (nodes m)) as [node|] eqn:Hg;
      [|exact IH].
    apply preview_ok_dict_set; [exact IH|].
    intros Hp. destruct (IH _ Hp) as (node' & Hg' & Hon).
    rewrite Hg in Hg'. injection Hg' as <-. simpl.
    unfold is_offline. rewrite Hon. reflexivity.
  - pose proof (reachable_well_formed m Hr) as Hwf.
    pose proof (well_formed_monitor now m Hwf) as Hwf'.
    intros p Hp.
    destruct (heartbeat_monitor_tick_preview now m (wf_keyed m Hwf))
      as [[Hsame Hnot]|Hfirst].
    + rewrite Hsame in Hp. destruct (IH p Hp) as (node & Hg & Hon).
      exists node. split; [|assumption].
      rewrite heartbeat_monitor_tick_nodes, dict_get_tick, Hg. simpl.
      unfold tick_entry. simpl.
      rewrite (Hnot p node Hp (dict_get_Some_In _ _ _ Hg)). reflexivity.
    + rewrite app_nil_r, <- heartbeat_monitor_tick_nodes in Hfirst.
      rewrite Hfirst in Hp.
      apply first_online_lookup; [apply (wf_nodup _ Hwf') | auto].
  - unfold switch_preview_camera.
    destruct (dict_get id (nodes m)) as [node|] eqn:Hg; [|exact IH].
    destruct (is_online node) eqn:Hon; [|exact IH].
    intros p Hp. simpl in *. injection Hp as <-.
    exists node. split; [assumption | now apply is_online_true].
  - destruct (check_all_nodes_ready_nodes env m w) as (Hs & _ & _ & Hprev).
    intros p Hp. rewrite Hprev in Hp.
    destruct (IH p Hp) as (node & Hg & Hon).
    destruct (same_but_ready_lookup _ _ _ _ Hs Hg) as [r Hset].
    exists (set_ready node r). split; assumption.
Qed.

Lemma preview_device_is_online_witness :
  exists node,
    dict_get 3%Z (nodes (heartbeat_monitor_tick (41 + (1 # 2)) fleet_running))
    = Some node
    /\ status node = "online".
Proof.
  apply (preview_device_is_online
           (heartbeat_monitor_tick (41 + (1 # 2)) fleet_running) 3).
  - apply reach_monitor. apply reach_running. apply reachable_fleet_of_three.
  - reflexivity.
Defined.


(** *** The readiness report *)

Lemma keys_app {V : Type} (a b : dict Z V) : keys (a ++ b) = keys a ++ keys b.
Proof. apply map_app. Qed.

Lemma probes_of_app (a b : list io_event) :
  probes_of (a ++ b) = probes_of a ++ probes_of b.
Proof. apply filter_app. Qed.

Lemma check_node_ready_probes (env : Env) (m : CameraManager) (id : Z)
  (w : World) (node : CameraNode) :
  dict_get id (nodes m) = Some node ->
  is_online node = true ->
  probes_of (io_log (snd (check_node_ready env m id w)))
  = probes_of (io_log w) ++ [probe_of node].
Proof.
  intros Hg Hon. unfold check_node_ready. rewrite Hg, Hon. simpl.
  destruct (http_get_ready env _ _ _) as [r t'].
  assert (Hlog : probes_of (io_log (at_time t'
                   (emit (IoGetReady (host_of (ip_address node)) (node_port node)) w)))
                 = probes_of (io_log w) ++ [probe_of node]).
  { simpl. now rewrite probes_of_app. }
  destruct r as [|st ready]; [exact Hlog|].
  destruct (Z.eqb st 200); exact Hlog.
Qed.

Lemma ready_scan_report (env : Env) (todo : dict Z CameraNode) :
  forall seen m rs w,
    NoDup (keys (seen ++ todo)) ->
    keyed_by_id todo ->
    keys rs = keys seen ->
    exists todo',
      nodes (snd (fst (ready_scan env seen todo m rs w))) = seen ++ todo'
      /\ keys todo' = keys todo
      /\ keys (fst (fst (ready_scan env seen todo m rs w)))
         = keys (seen ++ todo)
      /\ (forall id,
            dict_get id (fst (fst (ready_scan env seen todo m rs w)))
            = match dict_get id todo' with
              | Some n => Some (is_ready n)
              | None => dict_get id rs
              end)
      /\ probes_of (io_log (snd (ready_scan env seen todo m rs w)))
         = probes_of (io_log w)
           ++ map probe_of (filter is_online (values todo)).
Proof.
  induction todo as [|[k node] rest IH]; intros seen m rs w Hnd Hkeyed Hrs.
  - exists []. simpl. rewrite !app_nil_r. repeat split; auto.
  - inversion Hkeyed as [|? ? Hid Hkeyed']; subst. simpl in Hid.
    rewrite keys_app in Hnd. simpl in Hnd.
    pose proof (NoDup_remove_2 _ _ _ Hnd) as Hfresh.
    pose proof (NoDup_remove_1 _ _ _ Hnd) as Hnd'.
    assert (Hseen : ~ In k (keys seen)).
    { intros Hin. apply Hfresh. apply in_or_app. now left. }
    assert (Hrest : ~ In k (keys rest)).
    { intros Hin. apply Hfresh. apply in_or_app. now right. }
    assert (Hget : dict_get k (seen ++ (k, node) :: rest) = Some node).
    { rewrite dict_get_app.
      replace (dict_get k seen) with (@None CameraNode)
        by (symmetry; now apply dict_get_None).
      simpl. now rewrite Z.eqb_refl. }
    assert (Hstep : forall r w1,
      probes_of (io_log w1)
      = probes_of (io_log w)
        ++ (if is_online node then [probe_of node] else []) ->
      exists todo',
        nodes (snd (fst (ready_scan env (seen ++ [(k, set_ready node r)]) rest
                           m (dict_set k r rs) w1)))
        = seen ++ todo'
        /\ keys todo' = keys ((k, node) :: rest)
        /\ keys (fst (fst (ready_scan env (seen ++ [(k, set_ready node r)])
                             rest m (dict_set k r rs) w1)))
           = keys (seen ++ (k, node) :: rest)
        /\ (forall id,
              dict_get id
                (fst (fst (ready_scan env (seen ++ [(k, set_ready node r)])
                             rest m (dict_set k r rs) w1)))
              = match dict_get id todo' with
                | Some n => Some (is_ready n)
                | None => dict_get id rs
                end)
        /\ probes_of
             (io_log (snd (ready_scan env (seen ++ [(k, set_ready node r)])
                             rest m (dict_set k r rs) w1)))
           = probes_of (io_log w)
             ++ map probe_of (filter is_online (values ((k, node) :: rest)))).
    { intros r w1 Hw1.
      destruct (IH (seen ++ [(k, set_ready node r)]) m (dict_set k r rs) w1)
        as (todo' & Hn & Hk & Hkr & Hlook & Hprobe).
      - rewrite <- app_assoc, keys_app. simpl. exact Hnd.
      - exact Hkeyed'.
      - rewrite keys_dict_set_new by now rewrite Hrs.
        rewrite keys_app, Hrs. reflexivity.
      - exists ((k, set_ready node r) :: todo').
        split; [now rewrite Hn, <- app_assoc|].
        split; [simpl; now rewrite Hk|].
        split; [rewrite Hkr, <- app_assoc, !keys_app; reflexivity|].
        split.
        + intros id. rewrite Hlook. simpl.
          destruct (Z.eqb_spec id k) as [->|Hne].
          * replace (dict_get k todo') with (@None CameraNode)
              by (symmetry; apply dict_get_None; now rewrite Hk).
            now rewrite dict_get_set_same.
          * destruct (dict_get id todo'); [reflexivity|].
            now apply dict_get_set_other.
        + rewrite Hprobe, Hw1. simpl.
          destruct (is_online node); simpl; now rewrite <- app_assoc. }
    cbn [ready_scan]. rewrite Hid. destruct (is_online node) eqn:Hon.
    + pose proof (check_node_ready_probes env
                    (with_nodes m (seen ++ (k, node) :: rest)) k w node
                    Hget Hon) as Hp.
      destruct (check_node_ready env _ k w) as [r w1]. simpl in Hp.
      apply Hstep. exact Hp.
    + apply Hstep. now rewrite app_nil_r.
Qed.

Lemma probed_lookup (d d' : dict Z CameraNode) (k : Z) (node : CameraNode) :
  probed d d' ->
  dict_get k d = Some node ->
  exists r, dict_get k d' = Some (set_ready node r)
            /\ (r = true -> is_online node = true).
Proof.
  induction 1 as [|[ka a] [kb b] d d' (Hk & r & Hr & Hon) _ IH]; simpl;
    [discriminate|].
  simpl in Hk, Hr, Hon. subst kb.
  destruct (Z.eqb k ka); [|exact IH].
  intros [= <-]. exists r. now rewrite Hr.
Qed.

(** X8: on a registry the public operations can produce,
    [check_all_nodes_ready] reports every tracked device once, in registry
    order; the value reported for a device is the [is_ready] flag stored for
    it afterwards; a device that is not online is reported [False]; and the
    devices probed over HTTP are exactly the online ones, each once, in
    registry order, at the address and port on record. *)
Theorem check_all_nodes_ready_report (env : Env) (m : CameraManager)
  (w : World) (rs : dict Z bool) (m1 : CameraManager) (w1 : World) :
  reachable m ->
  check_all_nodes_ready env m w = (rs, m1, w1) ->
  keys rs = keys (nodes m)
  /\ (forall id, dict_get id rs = option_map is_ready (dict_get id (nodes m1)))
  /\ (forall id node,
        dict_get id (nodes m) = Some node -> status node <> "online" ->
        dict_get id rs = Some false)
  /\ probes_of (io_log w1)
     = probes_of (io_log w)
       ++ map probe_of (filter is_online (values (nodes m))).
Proof.
  intros Hreach Hc.
  pose proof (reachable_well_formed m Hreach) as [Hnd Hkeyed _ _].
  unfold check_all_nodes_ready in Hc.
  destruct (ready_scan_report env (nodes m) [] m [] w Hnd Hkeyed eq_refl)
    as (todo' & Hn & Hk & Hkr & Hlook & Hprobe).
  destruct (ready_scan_probed env (nodes m) [] m [] w) as (todo2 & Hn2 & Hp).
  rewrite Hc in Hn, Hkr, Hlook, Hprobe, Hn2. simpl in *.
  assert (Hrep : forall id,
            dict_get id rs = option_map is_ready (dict_get id (nodes m1))).
  { intros id. rewrite Hlook, Hn. now destruct (dict_get id todo'). }
  split; [exact Hkr|]. split; [exact Hrep|]. split; [|exact Hprobe].
  intros id node Hg Hst. rewrite Hrep, Hn2.
  destruct (probed_lookup _ _ _ _ Hp Hg) as (r & -> & Hr). simpl.
  destruct r; [|reflexivity].
  apply is_online_true in Hr; [contradiction | reflexivity].
Qed.

Lemma check_all_nodes_ready_report_witness :
  keys (fst (fst (check_all_nodes_ready env_two_ready fleet_second_gone
                    (world_at 100))))
  = keys (nodes fleet_second_gone)
  /\ (forall id,
        dict_get id (fst (fst (check_all_nodes_ready env_two_ready
                                 fleet_second_gone (world_at 100))))
        = option_map is_ready
            (dict_get id
               (nodes (snd (fst (check_all_nodes_ready env_two_ready
                                   fleet_second_gone (world_at 100)))))))
  /\ (forall id node,
        dict_get id (nodes fleet_second_gone) = Some node ->
        status node <> "online" ->
        dict_get id (fst (fst (check_all_nodes_ready env_two_ready
                                 fleet_second_gone (world_at 100))))
        = Some false)
  /\ probes_of (io_log (snd (check_all_nodes_ready env_two_ready
                               fleet_second_gone (world_at 100))))
     = probes_of (io_log (world_at 100))
       ++ map probe_of (filter is_online (values (nodes fleet_second_gone))).
Proof.
  apply (check_all_nodes_ready_report env_two_ready fleet_second_gone
           (world_at 100)).
  - apply reach_offline. apply reachable_fleet_of_three.
  - reflexivity.
Defined.

Example readiness_report_second_gone :
  fst (fst (check_all_nodes_ready env_two_ready fleet_second_gone
              (world_at 100)))
  = [(1%Z, true); (2%Z, false); (3%Z, false)]
  /\ probes_of (io_log (snd (check_all_nodes_ready env_two_ready
                               fleet_second_gone (world_at 100))))
     = [IoGetReady "192.168.1.11" 8084; IoGetReady "192.168.1.13" 8084].
Proof. split; reflexivity. Qed.


(** *** Heartbeats and announcements *)

(** X9: a heartbeat from a tracked device of a registry the public
    operations can produce leaves the device online, whatever its status
    was, with the heartbeat time and the readiness flag of the message
    ([False] when the message has none); address, port and capabilities stay.
    No other device, the order of the devices, the preview pointer nor the
    allocation counter changes; in particular a revived device does not
    become the preview device.  Monitor passes within 30 seconds of the
    heartbeat leave the record as it is. *)
Theorem update_heartbeat_revives (now : Q) (m : CameraManager)
  (data : NodeData) (old : CameraNode) :
  reachable m ->
  dict_get (nd_node_id data) (nodes m) = Some old ->
  dict_get (nd_node_id data) (nodes (update_heartbeat now m data))
  = Some (heartbeat_record now old (get_default (nd_is_ready data) false))
  /\ (forall k, k <> nd_node_id data ->
        dict_get k (nodes (update_heartbeat now m data))
        = dict_get k (nodes m))
  /\ keys (nodes (update_heartbeat now m data)) = keys (nodes m)
  /\ current_preview_node (update_heartbeat now m data)
     = current_preview_node m
  /\ next_node_id (update_heartbeat now m data) = next_node_id m
  /\ (forall ticks,
        Forall (fun t => t - now <= 30) ticks ->
        dict_get (nd_node_id data)
          (nodes (heartbeat_monitor ticks (update_heartbeat now m data)))
        = Some (heartbeat_record now old
                  (get_default (nd_is_ready data) false))).
Proof.
  intros Hreach Hg.
  pose proof (reachable_nodes_ok m Hreach) as Hok.
  assert (Hst : (if is_offline old then "online" else status old) = "online").
  { destruct (nodes_ok_lookup _ _ _ Hok Hg) as [[Hon|Hoff] _];
      unfold is_offline; [rewrite Hon | rewrite Hoff]; reflexivity. }
  assert (Hrec : dict_get (nd_node_id data)
                   (nodes (update_heartbeat now m data))
                 = Some (heartbeat_record now old
                           (get_default (nd_is_ready data) false))).
  { unfold update_heartbeat. rewrite Hg. simpl. rewrite Hst.
    apply dict_get_set_same. }
  split; [exact Hrec|].
  unfold update_heartbeat in *. rewrite Hg in *. simpl in *.
  split; [intros k Hne; now apply dict_get_set_other|].
  split; [apply keys_dict_set_old; eapply dict_get_in_keys; eauto|].
  repeat split.
  intros ticks Hticks.
  apply heartbeat_monitor_within; [exact Hticks | exact Hrec].
Qed.

Lemma update_heartbeat_revives_witness :
  dict_get 1%Z
    (nodes (update_heartbeat 50 fleet_two_timed_out (message_from 1 true)))
  = Some (heartbeat_record 50 (gone_offline first_device) true).
Proof.
  apply (update_heartbeat_revives 50 fleet_two_timed_out (message_from 1 true)
           (gone_offline first_device)).
  - apply reach_monitor. apply reach_running. apply reachable_fleet_of_three.
  - reflexivity.
Defined.

Lemma keys_dict_set_mem {V : Type} (k : Z) (v : V) (d : dict Z V) :
  keys (dict_set k v d) = if dict_mem k d then keys d else keys d ++ [k].
Proof.
  destruct (dict_mem k d) eqn:E.
  - apply keys_dict_set_old. now apply dict_mem_true.
  - apply keys_dict_set_new. now apply dict_mem_false.
Qed.

(** X10: [node_online] always answers success.  On a registry the public
    operations can produce it files, under the announced id, a record with
    that id, status online, the announcement time, and the address, port
    and capabilities of the message (the address [None], port 8084 and no
    capabilities when the key is missing; a record without an address is
    probed under the host name [None]); a tracked device keeps its place and its
    readiness flag, an untracked id is added last with the flag off.  No
    other device, the preview pointer nor the allocation counter changes,
    and a later registration is given an id that is neither the announced
    one nor one tracked before. *)
Theorem node_online_upserts (now : Q) (m : CameraManager) (data : NodeData) :
  reachable m ->
  fst (node_online now m data) = true
  /\ dict_get (nd_node_id data) (nodes (snd (node_online now m data)))
     = Some (announced_record now data
               match dict_get (nd_node_id data) (nodes m) with
               | Some old => is_ready old
               | None => false
               end)
  /\ keys (nodes (snd (node_online now m data)))
     = (if dict_mem (nd_node_id data) (nodes m) then keys (nodes m)
        else keys (nodes m) ++ [nd_node_id data])
  /\ (forall k, k <> nd_node_id data ->
        dict_get k (nodes (snd (node_online now m data)))
        = dict_get k (nodes m))
  /\ current_preview_node (snd (node_online now m data))
     = current_preview_node m
  /\ next_node_id (snd (node_online now m data)) = next_node_id m
  /\ (forall later request,
        has_address request ->
        exists new_id m2,
          register_node later (snd (node_online now m data)) request
          = Some (RegisterOk new_id, m2)
          /\ new_id <> nd_node_id data
          /\ dict_mem new_id (nodes m) = false).
Proof.
  intros Hreach.
  pose proof (reachable_well_formed m Hreach) as Hwf.
  pose proof (reachable_well_formed _ (reach_online now m data Hreach)) as Hwf'.
  assert (Hrec : dict_get (nd_node_id data)
                   (nodes (snd (node_online now m data)))
                 = Some (announced_record now data
                           match dict_get (nd_node_id data) (nodes m) with
                           | Some old => is_ready old
                           | None => false
                           end)).
  { unfold node_online.
    destruct (dict_get (nd_node_id data) (nodes m)) as [old|] eqn:Hg; simpl;
      rewrite dict_get_set_same; [|reflexivity].
    unfold announced_record.
    now rewrite (keyed_lookup _ _ _ (wf_keyed m Hwf) Hg). }
  assert (Hkeys : keys (nodes (snd (node_online now m data)))
                  = (if dict_mem (nd_node_id data) (nodes m)
                     then keys (nodes m)
                     else keys (nodes m) ++ [nd_node_id data])).
  { unfold node_online.
    destruct (dict_get (nd_node_id data) (nodes m)) as [old|] eqn:Hg; simpl;
      apply keys_dict_set_mem. }
  assert (Hfields : fst (node_online now m data) = true
                    /\ current_preview_node (snd (node_online now m data))
                       = current_preview_node m
                    /\ next_node_id (snd (node_online now m data))
                       = next_node_id m).
  { unfold node_online.
    destruct (dict_get (nd_node_id data) (nodes m)); simpl; auto. }
  destruct Hfields as (Hfst & Hprev & Hnext).
  split; [exact Hfst|].
  split; [exact Hrec|]. split; [exact Hkeys|].
  split.
  { intros k Hne. unfold node_online.
    destruct (dict_get (nd_node_id data) (nodes m)); simpl;
      now apply dict_get_set_other. }
  split; [exact Hprev|]. split; [exact Hnext|].
  intros later request Haddr.
  destruct (register_node_spec later _ request Hwf' Haddr)
    as (new_id & ip & m2 & Hreg & _ & (_ & Hfresh & _) & _).
  exists new_id, m2. split; [exact Hreg|]. split.
  - intros ->. apply Hfresh. eapply dict_get_in_keys. exact Hrec.
  - apply dict_mem_false. intros Hin. apply Hfresh. rewrite Hkeys.
    destruct (dict_mem (nd_node_id data) (nodes m)); [assumption|].
    apply in_or_app. now left.
Qed.

Lemma node_online_upserts_witness :
  dict_get 7%Z (nodes (snd (node_online 60 fleet_two_timed_out
                              (message_from 7 true))))
  = Some (announced_record 60 (message_from 7 true) false).
Proof.
  apply (node_online_upserts 60 fleet_two_timed_out (message_from 7 true)).
  apply reach_monitor. apply reach_running. apply reachable_fleet_of_three.
Defined.

Example announce_without_address :
  option_map (fun node => (ip_address node, probe_of node))
    (dict_get 7%Z (nodes (snd (node_online 60 fleet_two_timed_out
                                 (message_from 7 true)))))
  = Some (None, IoGetReady "None" 8084).
Proof. reflexivity. Qed.

Example announce_then_register :
  option_map fst
    (register_node 70
       (snd (node_online 60 fleet_of_three (message_from 4 true)))
       (request_from "192.168.1.15"))
  = Some (RegisterOk 5).
Proof. reflexivity. Qed.

(** *** Nothing is forgotten *)

Lemma operation_keeps_devices (m m' : CameraManager) :
  operation m m' ->
  (exists added, keys (nodes m') = keys (nodes m) ++ added)
  /\ (next_node_id m <= next_node_id m')%Z.
Proof.
  assert (Hset : forall k v (d : dict Z CameraNode),
            exists added, keys (dict_set k v d) = keys d ++ added).
  { intros k v d. rewrite keys_dict_set_mem.
    destruct (dict_mem k d); [exists []; now rewrite app_nil_r | eauto]. }
  assert (Hsame : forall d : dict Z CameraNode,
            exists added : list Z, keys d = keys d ++ added).
  { intros d. exists []. now rewrite app_nil_r. }
  intros Hop.
  destruct Hop as [m b | now m data r m' Hreg | now m data | m data
                  | now m data | now m | m id | env m w].
  - split; [apply Hsame | simpl; lia].
  - unfold register_node in Hreg.
    destruct (nd_local_ip data) as [ip|];
      [|injection Hreg as <- <-; split; [apply Hsame | lia]].
    destruct (truthy_string (Some ip));
      [|injection Hreg as <- <-; split; [apply Hsame | lia]].
    unfold allocate_node_id in Hreg.
    destruct (allocate_scan _ (nodes m) (next_node_id m)) as [id|] eqn:Hscan;
      [|discriminate].
    apply allocate_scan_sound in Hscan. destruct Hscan as (Hle & _).
    injection Hreg as <- <-. simpl.
    destruct (current_preview_node m); simpl; (split; [apply Hset | lia]).
  - unfold node_online.
    destruct (dict_get (nd_node_id data) (nodes m)); simpl;
      (split; [apply Hset | lia]).
  - unfold node_offline.
    destruct (dict_get (nd_node_id data) (nodes m)) as [old|];
      [|split; [apply Hsame | simpl; lia]].
    simpl. destruct (preview_is _ _); simpl;
      rewrite ?switch_to_next_online_node_fields; simpl.
    + unfold switch_to_next_online_node.
      destruct (find _ _) as [[? ?]|]; simpl; (split; [apply Hset | lia]).
    + split; [apply Hset | lia].
  - unfold update_heartbeat.
    destruct (dict_get (nd_node_id data) (nodes m));
      [simpl; split; [apply Hset | lia] | split; [apply Hsame | lia]].
  - rewrite heartbeat_monitor_tick_nodes, keys_tick.
    split; [apply Hsame|].
    unfold heartbeat_monitor_tick.
    destruct (monitor_scan_nodes now (nodes m) [] m) as (_ & _ & ->). lia.
  - unfold switch_preview_camera.
    destruct (dict_get id (nodes m)) as [node|];
      [destruct (is_online node)|]; simpl; (split; [apply Hsame | lia]).
  - destruct (check_all_nodes_ready_nodes env m w) as (Hs & _ & -> & _).
    rewrite (same_but_ready_keys _ _ Hs). split; [apply Hsame | lia].
Qed.

(** X11: no sequence of public operations removes a device from the
    registry, reorders the devices or lowers the allocation counter: the
    ids tracked before are a prefix of the ids tracked after, so a device
    once tracked stays tracked (timeouts and goodbyes only mark it
    offline). *)
Theorem devices_are_never_forgotten (m m' : CameraManager) :
  evolves m m' ->
  (exists added, keys (nodes m') = keys (nodes m) ++ added)
  /\ (next_node_id m <= next_node_id m')%Z
  /\ (forall id, dict_mem id (nodes m) = true ->
                 dict_mem id (nodes m') = true).
Proof.
  intros Hev.
  assert (Hpre : (exists added, keys (nodes m') = keys (nodes m) ++ added)
                 /\ (next_node_id m <= next_node_id m')%Z).
  { induction Hev as [m | m m1 m2 _ [[a Ha] Hn] Hop].
    - split; [exists []; now rewrite app_nil_r | lia].
    - destruct (operation_keeps_devices m1 m2 Hop) as [[b Hb] Hn2].
      split; [|lia]. exists (a ++ b). now rewrite Hb, Ha, app_assoc. }
  destruct Hpre as [[added Hk] Hn].
  split; [eauto|]. split; [exact Hn|].
  intros id Hmem. apply dict_mem_true. rewrite Hk.
  apply in_or_app. left. now apply dict_mem_true.
Qed.

Lemma devices_are_never_forgotten_witness :
  (exists added,
      keys (nodes (update_heartbeat 50 fleet_second_gone (message_from 9 true)))
      = keys (nodes fleet_of_three) ++ added)
  /\ (next_node_id fleet_of_three
      <= next_node_id
           (update_heartbeat 50 fleet_second_gone (message_from 9 true)))%Z
  /\ (forall id,
        dict_mem id (nodes fleet_of_three) = true ->
        dict_mem id
          (nodes (update_heartbeat 50 fleet_second_gone (message_from 9 true)))
        = true).
Proof.
  apply (devices_are_never_forgotten fleet_of_three
           (update_heartbeat 50 fleet_second_gone (message_from 9 true))).
  eapply evolves_step; [eapply evolves_step; [apply evolves_refl|]|].
  - apply (op_offline fleet_of_three (message_from 2 false)).
  - apply (op_heartbeat 50 fleet_second_gone (message_from 9 true)).
Defined.

(** *** A monitor pass settles the registry *)

Lemma monitor_scan_quiet (now : Q) (todo : dict Z CameraNode) :
  forall seen m,
    Forall (fun kv => timed_out now (snd kv) = false) todo ->
    monitor_scan now seen todo m = with_nodes m (seen ++ todo).
Proof.
  induction todo as [|[k node] rest IH]; intros seen m Hq; simpl.
  - now rewrite app_nil_r.
  - inversion Hq as [|? ? Hn Hrest]; subst. simpl in Hn. rewrite Hn.
    rewrite IH by assumption. now rewrite <- app_assoc.
Qed.

Lemma timed_out_false (now : Q) (node : CameraNode) :
  timed_out now node = false ->
  status node = "offline" \/ now - last_heartbeat node <= 30.
Proof.
  unfold timed_out, Qgtb. intros H. apply andb_false_iff in H.
  destruct H as [H|H].
  - right. now apply Qltb_ge.
  - left. apply negb_false_iff in H. now apply String.eqb_eq.
Qed.

Lemma tick_entry_settled (now : Q) (kv : Z * CameraNode) :
  timed_out now (snd (tick_entry now kv)) = false.
Proof.
  unfold tick_entry. destruct (timed_out now (snd kv)) eqn:E; [|exact E].
  simpl. unfold timed_out. simpl. apply andb_false_r.
Qed.

(** X12: after a monitor pass at time [now], every tracked device is
    either offline or has a heartbeat at most 30 seconds old, and a second
    pass at the same time changes nothing: neither a record nor the preview
    pointer. *)
Theorem heartbeat_monitor_tick_settles (now : Q) (m : CameraManager) :
  (forall k node,
      dict_get k (nodes (heartbeat_monitor_tick now m)) = Some node ->
      status node = "offline" \/ now - last_heartbeat node <= 30)
  /\ heartbeat_monitor_tick now (heartbeat_monitor_tick now m)
     = heartbeat_monitor_tick now m.
Proof.
  split.
  - intros k node Hg. rewrite heartbeat_monitor_tick_nodes, dict_get_tick in Hg.
    destruct (dict_get k (nodes m)) as [n0|]; [|discriminate].
    simpl in Hg. injection Hg as <-.
    apply timed_out_false.
    exact (tick_entry_settled now (k, n0)).
  - unfold heartbeat_monitor_tick at 1.
    rewrite monitor_scan_quiet.
    + now destruct (heartbeat_monitor_tick now m).
    + rewrite heartbeat_monitor_tick_nodes. apply Forall_map.
      apply Forall_forall. intros kv _. apply tick_entry_settled.
Qed.


(** *** The device list *)

Lemma get_node_list_values (m : CameraManager) :
  get_node_list m = values (nodes m).
Proof.
  unfold get_node_list. rewrite <- (map_id (values (nodes m))) at 2.
  apply map_ext. now intros [].
Qed.

(** X13: on a registry the public operations can produce, [get_node_list]
    has one entry per tracked device, in registry order; the [node_id]s of
    the entries are pairwise distinct and are the keys of the registry; an
    entry is listed exactly when it is the record stored under its
    [node_id]; and the entries with status online number
    [get_online_node_count]. *)
Theorem get_node_list_lists_each_device (m : CameraManager) :
  reachable m ->
  map node_id (get_node_list m) = keys (nodes m)
  /\ NoDup (map node_id (get_node_list m))
  /\ (forall entry,
        In entry (get_node_list m)
        <-> dict_get (node_id entry) (nodes m) = Some entry)
  /\ List.length (filter is_online (get_node_list m))
     = get_online_node_count m.
Proof.
  intros Hreach.
  pose proof (reachable_well_formed m Hreach) as [Hnd Hkeyed _ _].
  rewrite get_node_list_values.
  assert (Hids : map node_id (values (nodes m)) = keys (nodes m)).
  { unfold values, keys. rewrite map_map. apply map_ext_in.
    intros kv Hin. unfold keyed_by_id in Hkeyed.
    rewrite Forall_forall in Hkeyed. now apply Hkeyed. }
  split; [exact Hids|]. split; [now rewrite Hids|]. split; [|reflexivity].
  intros entry. split.
  - intros Hin. unfold values in Hin. apply in_map_iff in Hin.
    destruct Hin as ([k n] & Hn & Hin). simpl in Hn. subst n.
    unfold keyed_by_id in Hkeyed. rewrite Forall_forall in Hkeyed.
    pose proof (Hkeyed _ Hin) as Hk. simpl in Hk. rewrite Hk.
    now apply In_dict_get.
  - intros Hg. apply dict_get_Some_In in Hg.
    unfold values. change entry with (snd (node_id entry, entry)).
    now apply in_map.
Qed.

Lemma get_node_list_lists_each_device_witness :
  map node_id (get_node_list fleet_two_timed_out)
  = keys (nodes fleet_two_timed_out).
Proof.
  destruct (get_node_list_lists_each_device fleet_two_timed_out) as (H & _).
  - apply reach_monitor. apply reach_running. apply reachable_fleet_of_three.
  - exact H.
Defined.

End ManagerMore.

(** ** Sessions on a device *)

Module NodeMore.
Import NtpSync NtpSpec NtpFacts Node NodeSpec NodeFacts.

Lemma length_dict_set {V : Type} (k : string) (v : V) (d : dict string V) :
  List.length (dict_set k v d)
  = if dict_mem k d then List.length d else S (List.length d).
Proof.
  unfold dict_mem. induction d as [|[k' v'] d IH]; simpl; [reflexivity|].
  destruct (String.eqb k k'); simpl; [reflexivity|].
  rewrite IH. now destruct (dict_get k d).
Qed.

Lemma length_dict_del {V : Type} (k : string) (d : dict string V) :
  dict_mem k d = true ->
  (List.length (dict_del k d) < List.length d)%nat.
Proof.
  unfold dict_mem, dict_del.
  induction d as [|[k' v'] d IH]; simpl; [discriminate|].
  destruct (String.eqb k k'); simpl.
  - intros _. apply Nat.lt_succ_r. apply filter_length_le.
  - intros H. apply IH in H. apply -> Nat.succ_lt_mono. exact H.
Qed.

Lemma capture_handler_accepts_valid (env : Env) (ns : NodeServer) (ct : Q)
  (sid : string) :
  is_ready ns = true -> ~ ct == 0 -> sid <> "" ->
  capture_handler env ns (JsonBody (command_at ct sid))
  = (scheduled_reply env ns ct sid,
     with_captures ns (dict_set sid (ct, sid) (scheduled_captures ns)),
     Some (ct, sid)).
Proof.
  intros Hr Hct Hsid. unfold capture_handler, command_at, scheduled_reply.
  cbn [rq_capture_time rq_session_id].
  apply truthy_time_Some in Hct. rewrite Hct.
  assert (Hs : Manager.truthy_string (Some sid) = true).
  { simpl. apply negb_true_iff. now apply String.eqb_neq. }
  rewrite Hs, Hr. cbn [negb orb]. now destruct (format_time env ct).
Qed.

Lemma scheduled_reply_cases (env : Env) (ns : NodeServer) (ct : Q)
  (sid : string) :
  (scheduled_reply env ns ct sid = Accepted sid ct (config_node_id ns)
   <-> exists text, format_time env ct = Returned text)
  /\ (forall exc,
        scheduled_reply env ns ct sid = Rejected 500 exc
        <-> format_time env ct = Raised exc).
Proof.
  unfold scheduled_reply. destruct (format_time env ct) as [text|exc0].
  - split.
    + split; [eauto | reflexivity].
    + intros exc. split; discriminate.
  - split.
    + split; [discriminate | intros [text H]; discriminate H].
    + intros exc. split; intros [= ->]; reflexivity.
Qed.

(** X14: a ready device that is sent two valid commands with the same
    session id creates a task for each, but keeps one pending entry for the
    session: the second command replaces the entry of the first, the number
    of pending sessions reported by the status page does not grow, and
    other sessions are untouched.  Either command is answered with success
    exactly when the calendar can render its capture time for the log line,
    and with 500 and the text of the exception otherwise; the task and the
    entry are there in both cases.  When the task of the first command has
    run (it does, provided that from some suspension on a sleep lasts as
    long as requested), the session is no longer pending and the number
    reported has dropped, although the task of the second command has not
    run. *)
Theorem duplicate_session_shares_one_entry (env : Env) (ns : NodeServer)
  (ct1 ct2 : Q) (sid : string) :
  is_ready ns = true -> ~ ct1 == 0 -> ~ ct2 == 0 -> sid <> "" ->
  exists resp1 resp2 ns1 ns2,
    capture_handler env ns (JsonBody (command_at ct1 sid))
    = (resp1, ns1, Some (ct1, sid))
    /\ capture_handler env ns1 (JsonBody (command_at ct2 sid))
       = (resp2, ns2, Some (ct2, sid))
    /\ (resp1 = Accepted sid ct1 (config_node_id ns)
        <-> exists text, format_time env ct1 = Returned text)
    /\ (forall exc,
          resp1 = Rejected 500 exc <-> format_time env ct1 = Raised exc)
    /\ (resp2 = Accepted sid ct2 (config_node_id ns)
        <-> exists text, format_time env ct2 = Returned text)
    /\ (forall exc,
          resp2 = Rejected 500 exc <-> format_time env ct2 = Raised exc)
    /\ dict_get sid (scheduled_captures ns1) = Some (ct1, sid)
    /\ dict_get sid (scheduled_captures ns2) = Some (ct2, sid)
    /\ status_scheduled_captures ns2 = status_scheduled_captures ns1
    /\ (forall other, other <> sid ->
          dict_get other (scheduled_captures ns2)
          = dict_get other (scheduled_captures ns))
    /\ (forall sleep first dev cw,
          settles_after first sleep ->
          exists fuel0, forall fuel, (fuel0 <= fuel)%nat ->
            exists tr cw' ns3,
              execute_scheduled_capture fuel sleep env dev cw ns2 ct1 sid
              = Some (tr, cw', ns3)
              /\ dict_mem sid (scheduled_captures ns3) = false
              /\ (status_scheduled_captures ns3
                  < status_scheduled_captures ns2)%nat).
Proof.
  intros Hr Hct1 Hct2 Hsid.
  set (ns1 := with_captures ns
                (dict_set sid (ct1, sid) (scheduled_captures ns))).
  set (ns2 := with_captures ns1
                (dict_set sid (ct2, sid) (scheduled_captures ns1))).
  assert (Hmem1 : dict_mem sid (scheduled_captures ns1) = true).
  { unfold dict_mem, ns1. simpl. now rewrite dict_get_set_same. }
  assert (Hmem2 : dict_mem sid (scheduled_captures ns2) = true).
  { unfold dict_mem, ns2. simpl. now rewrite dict_get_set_same. }
  exists (scheduled_reply env ns ct1 sid), (scheduled_reply env ns1 ct2 sid),
    ns1, ns2.
  split; [now apply capture_handler_accepts_valid|].
  split; [now apply (capture_handler_accepts_valid env ns1)|].
  destruct (scheduled_reply_cases env ns ct1 sid) as [Ha1 Hb1].
  destruct (scheduled_reply_cases env ns1 ct2 sid) as [Ha2 Hb2].
  split; [exact Ha1|]. split; [exact Hb1|].
  split; [exact Ha2|]. split; [exact Hb2|].
  split; [unfold ns1; simpl; apply dict_get_set_same|].
  split; [unfold ns2; simpl; apply dict_get_set_same|].
  split.
  { unfold status_scheduled_captures.
    change (scheduled_captures ns2)
      with (dict_set sid (ct2, sid) (scheduled_captures ns1)).
    now rewrite length_dict_set, Hmem1. }
  split.
  { intros other Hne. unfold ns2, ns1. simpl.
    now rewrite !dict_get_set_other. }
  intros sleep first dev cw Hprog.
  destruct (wait_ends sleep (perform_capture env dev sid ct1) ns2 ct1 first
              Hprog first 0%nat cw ltac:(lia)) as [fuel0 Hfuel0].
  exists fuel0. intros fuel Hfuel.
  destruct (Hfuel0 fuel Hfuel) as (tr & cw' & Hrun).
  unfold execute_scheduled_capture. rewrite Hrun.
  rewrite perform_capture_captures, Hmem2.
  eexists _, _, _. split; [reflexivity|].
  unfold status_scheduled_captures.
  cbn [scheduled_captures with_captures].
  rewrite ?perform_capture_captures. split.
  - unfold dict_mem. now rewrite dict_get_del_same.
  - now apply length_dict_del.
Qed.

Lemma duplicate_session_shares_one_entry_witness :
  exists resp1 resp2 ns1 ns2,
    capture_handler env_unreachable node_ready
      (JsonBody (command_at (105 + (1 # 2)) "capture_100030"))
    = (resp1, ns1, Some (105 + (1 # 2), "capture_100030"))
    /\ capture_handler env_unreachable ns1
         (JsonBody (command_at 1000000000000 "capture_100030"))
       = (resp2, ns2, Some (1000000000000, "capture_100030"))
    /\ (resp1
        = Accepted "capture_100030" (105 + (1 # 2))
            (config_node_id node_ready)
        <-> exists text,
              format_time env_unreachable (105 + (1 # 2)) = Returned text)
    /\ (forall exc,
          resp2 = Rejected 500 exc
          <-> format_time env_unreachable 1000000000000 = Raised exc)
    /\ status_scheduled_captures ns2 = status_scheduled_captures ns1.
Proof.
  destruct (duplicate_session_shares_one_entry env_unreachable node_ready
              (105 + (1 # 2)) 1000000000000 "capture_100030")
    as (resp1 & resp2 & ns1 & ns2 & H1 & H2 & H3 & _ & _ & H6 & _ & _ & H9
        & _).
  - reflexivity.
  - intros H. vm_compute in H. discriminate H.
  - intros H. vm_compute in H. discriminate H.
  - discriminate.
  - exists resp1, resp2, ns1, ns2. auto.
Defined.

Example duplicate_session_second_unrenderable :
  fst (fst (capture_handler env_unreachable node_pending
              (JsonBody (command_at 1000000000000 "capture_100030"))))
  = Rejected 500 "year 33658 is out of range"
  /\ dict_get "capture_100030"
       (scheduled_captures
          (snd (fst (capture_handler env_unreachable node_pending
                       (JsonBody (command_at 1000000000000
                                    "capture_100030"))))))
     = Some (1000000000000, "capture_100030").
Proof. split; vm_compute; reflexivity. Qed.

Lemma generate_filename_cases (env : Env) (id : option Z) (ct : Q) :
  (forall name,
      generate_filename env id ct = Returned name
      <-> exists dt n,
            fromtimestamp env ct = Returned dt /\ id = Some n
            /\ name = picture_name env dt n)
  /\ (forall exc,
        generate_filename env id ct = Raised exc
        <-> fromtimestamp env ct = Raised exc
            \/ (exists dt, fromtimestamp env ct = Returned dt)
               /\ id = None
               /\ exc
                  = "unsupported format string passed to NoneType.__format__").
Proof.
  unfold generate_filename, picture_name.
  destruct (fromtimestamp env ct) as [dt|exc0].
  - destruct id as [n|].
    + split.
      * intros name. split.
        -- intros [= <-]. exists dt, n. repeat split.
        -- intros (dt' & n' & [= <-] & [= <-] & ->). reflexivity.
      * intros exc. split; [discriminate|].
        intros [H | (_ & H & _)]; discriminate H.
    + split.
      * intros name. split; [discriminate|].
        intros (dt' & n' & _ & H & _). discriminate H.
      * intros exc. split.
        -- intros [= <-]. right. split; [eauto|]. split; reflexivity.
        -- intros [H | (_ & _ & ->)]; [discriminate H | reflexivity].
  - split.
    + intros name. split; [discriminate|].
      intros (dt' & n' & H & _). discriminate H.
    + intros exc. split.
      * intros [= <-]. now left.
      * intros [[= <-] | ((dt & H) & _)]; [reflexivity | discriminate H].
Qed.

Lemma perform_capture_outcome (env : Env) (dev : Device) (sid : string)
  (ct : Q) (ns : NodeServer) :
  initialized (perform_capture env dev sid ct ns) = initialized ns
  /\ config_node_id (perform_capture env dev sid ct ns) = config_node_id ns
  /\ (initialized ns = false
      \/ (exists exc,
            generate_filename env (config_node_id ns) ct = Raised exc)
      \/ (exists name,
            generate_filename env (config_node_id ns) ct = Returned name
            /\ camera_capture dev name = None) ->
      images (perform_capture env dev sid ct ns) = images ns
      /\ uploads (perform_capture env dev sid ct ns) = uploads ns)
  /\ (forall name path,
        initialized ns = true ->
        generate_filename env (config_node_id ns) ct = Returned name ->
        camera_capture dev name = Some path ->
        images (perform_capture env dev sid ct ns) = images ns ++ [path]
        /\ (path = "" ->
            uploads (perform_capture env dev sid ct ns) = uploads ns)
        /\ (path <> "" ->
            exists ok,
              uploads (perform_capture env dev sid ct ns)
              = uploads ns ++ [(name, ok)]
              /\ (ok = true
                  <-> upload_image dev path name
                      = UploadResponse 200 (Some true)))).
Proof.
  unfold perform_capture, capture_image.
  destruct (generate_filename env (config_node_id ns) ct) as [name|exc].
  2:{ split; [reflexivity|]. split; [reflexivity|].
      split; [intros _; split; reflexivity|].
      intros name path _ H. discriminate H. }
  destruct (initialized ns) eqn:Hinit; cbn [negb].
  2:{ split; [first [reflexivity | assumption]|]. split; [reflexivity|].
      split; [intros _; split; reflexivity|].
      intros name' path H. discriminate H. }
  destruct (camera_capture dev name) as [p|] eqn:Hcam.
  2:{ split; [first [reflexivity | assumption]|]. split; [reflexivity|].
      split; [intros _; split; reflexivity|].
      intros name' path _ [= <-] H. rewrite Hcam in H. discriminate H. }
  unfold Manager.truthy_string.
  destruct (String.eqb_spec p "") as [->|Hne]; cbn [negb].
  - split; [first [reflexivity | assumption]|]. split; [reflexivity|]. split.
    + intros [H | [[exc H] | (name' & [= <-] & H)]];
        [discriminate H | discriminate H |].
      rewrite Hcam in H. discriminate H.
    + intros name' path _ [= <-] H. rewrite Hcam in H. injection H as <-.
      split; [reflexivity|]. split; [reflexivity|].
      intros H. now elim H.
  - split; [first [reflexivity | assumption]|]. split; [reflexivity|]. split.
    + intros [H | [[exc H] | (name' & [= <-] & H)]];
        [discriminate H | discriminate H |].
      rewrite Hcam in H. discriminate H.
    + intros name' path _ [= <-] H. rewrite Hcam in H. injection H as <-.
      split; [reflexivity|].
      split; [intros H; contradiction|]. intros _.
      eexists. split; [reflexivity|].
      destruct (upload_image dev p name) as [|st success].
      * split; discriminate.
      * split.
        -- intros H. apply andb_true_iff in H. destruct H as [Hst Hs].
           apply Z.eqb_eq in Hst. subst st.
           destruct success as [[|]|]; simpl in Hs; congruence.
        -- intros [= -> ->]. reflexivity.
Qed.

(** X15: provided that from some suspension on a sleep lasts as long as
    requested, a scheduled capture returns, and by then the device has taken at most one picture and made
    at most one upload attempt.  The file name is generated from the
    capture time and the device number; that raises when the calendar
    cannot convert the capture time or the device has no number yet, and
    returns the name built from the two otherwise.  Nothing is captured or
    uploaded when the camera is not initialized, the file name cannot be
    generated or the capture fails; otherwise there is exactly the one file
    the camera wrote under the generated name and, unless the returned path
    is empty, exactly one upload of it, which counts as done only for a 200
    reply whose [success] field is true.  The camera state and the device
    number are as before; a failed upload is not retried. *)
Theorem scheduled_capture_takes_one_picture (sleep : Sleeper) (first : nat)
  (env : Env) (dev : Device) (cw : NTPClient * World) (ns : NodeServer)
  (ct : Q) (sid : string) :
  settles_after first sleep ->
  ((forall name,
       generate_filename env (config_node_id ns) ct = Returned name
       <-> exists dt n,
             fromtimestamp env ct = Returned dt
             /\ config_node_id ns = Some n
             /\ name = picture_name env dt n)
   /\ (forall exc,
         generate_filename env (config_node_id ns) ct = Raised exc
         <-> fromtimestamp env ct = Raised exc
             \/ (exists dt, fromtimestamp env ct = Returned dt)
                /\ config_node_id ns = None
                /\ exc
                   = "unsupported format string passed to NoneType.__format__"))
  /\ exists fuel0, forall fuel, (fuel0 <= fuel)%nat ->
    exists tr cw' ns',
      execute_scheduled_capture fuel sleep env dev cw ns ct sid
      = Some (tr, cw', ns')
      /\ initialized ns' = initialized ns
      /\ config_node_id ns' = config_node_id ns
      /\ (initialized ns = false
          \/ (exists exc,
                generate_filename env (config_node_id ns) ct = Raised exc)
          \/ (exists name,
                generate_filename env (config_node_id ns) ct = Returned name
                /\ camera_capture dev name = None) ->
          images ns' = images ns /\ uploads ns' = uploads ns)
      /\ (forall name path,
            initialized ns = true ->
            generate_filename env (config_node_id ns) ct = Returned name ->
            camera_capture dev name = Some path ->
            images ns' = images ns ++ [path]
            /\ (path = "" -> uploads ns' = uploads ns)
            /\ (path <> "" ->
                exists ok,
                  uploads ns' = uploads ns ++ [(name, ok)]
                  /\ (ok = true
                      <-> upload_image dev path name
                          = UploadResponse 200 (Some true)))).
Proof.
  intros Hprog. split; [apply generate_filename_cases|].
  destruct (wait_ends sleep (perform_capture env dev sid ct) ns ct first
              Hprog first 0%nat cw ltac:(lia)) as [fuel0 Hfuel0].
  exists fuel0. intros fuel Hfuel.
  destruct (Hfuel0 fuel Hfuel) as (tr & cw' & Hrun).
  unfold execute_scheduled_capture. rewrite Hrun.
  eexists _, _, _. split; [reflexivity|].
  pose proof (perform_capture_outcome env dev sid ct ns) as Hout.
  destruct (dict_mem sid
              (scheduled_captures (perform_capture env dev sid ct ns)));
    exact Hout.
Qed.

Lemma scheduled_capture_takes_one_picture_witness :
  exists fuel0, forall fuel, (fuel0 <= fuel)%nat ->
    exists tr cw' ns',
      execute_scheduled_capture fuel restless env_unreachable
        device_upload_refused (client_recent, world_at 100) node_pending
        (105 + (1 # 2)) "capture_100030"
      = Some (tr, cw', ns')
      /\ initialized ns' = initialized node_pending.
Proof.
  destruct (scheduled_capture_takes_one_picture restless 1%nat
              env_unreachable device_upload_refused
              (client_recent, world_at 100) node_pending (105 + (1 # 2))
              "capture_100030")
    as [_ [fuel0 Hfuel0]].
  - intros n d cw Hn Hd. destruct n as [|n]; [lia|].
    unfold now_of, restless, punctual, get_synchronized_time. simpl. lra.
  - exists fuel0. intros fuel Hfuel.
    destruct (Hfuel0 fuel Hfuel) as (tr & cw' & ns' & Hrun & Hinit & _).
    exists tr, cw', ns'. auto.
Defined.

(** A capture time the calendar cannot convert, and a device without a
    number: the wait ends, the session is cleared, and no picture has been
    taken. *)
Example scheduled_capture_without_file_name :
  option_map snd
    (execute_scheduled_capture 3 punctual env_unreachable
       device_upload_refused (client_recent, world_at 100)
       (with_captures node_ready
          [("capture_100030", (- (1000000000000), "capture_100030"))])
       (- (1000000000000)) "capture_100030")
  = Some node_ready
  /\ generate_filename env_unreachable (Some 1%Z) (- (1000000000000))
     = Raised "year -29719 is out of range"
  /\ option_map snd
       (execute_scheduled_capture 3 punctual env_unreachable
          device_upload_refused (client_recent, world_at 100)
          node_unnumbered 90 "capture_100030")
     = Some node_unnumbered
  /\ generate_filename env_unreachable None 90
     = Raised "unsupported format string passed to NoneType.__format__".
Proof. repeat split; vm_compute; reflexivity. Qed.

End NodeMore.

(** ** The switch request of the web interface *)

Module WebMore.
Import Manager ManagerSpec ManagerFacts WebServer.

(** X16: [switch_camera_handler] answers 400 exactly when the request has
    no [node_id] or the [node_id] 0, and 200 otherwise.  It reports success
    exactly when the id is not 0 and names a tracked device whose status is
    online; then that device becomes the preview device, the reply names it
    and nothing else in the registry changes.  Without success the registry
    is left as it was and the reply names no device. *)
Theorem switch_camera_handler_contract (m : CameraManager)
  (node_id : option Z) :
  (sw_status (fst (switch_camera_handler m node_id)) = 400%Z
   <-> node_id = None \/ node_id = Some 0%Z)
  /\ (sw_status (fst (switch_camera_handler m node_id)) <> 400%Z ->
      sw_status (fst (switch_camera_handler m node_id)) = 200%Z)
  /\ (sw_success (fst (switch_camera_handler m node_id)) = true
      <-> exists id node,
            node_id = Some id /\ id <> 0%Z
            /\ dict_get id (nodes m) = Some node
            /\ status node = "online")
  /\ (sw_success (fst (switch_camera_handler m node_id)) = true ->
      snd (switch_camera_handler m node_id) = with_preview m node_id
      /\ sw_current_node (fst (switch_camera_handler m node_id)) = node_id)
  /\ (sw_success (fst (switch_camera_handler m node_id)) = false ->
      snd (switch_camera_handler m node_id) = m
      /\ sw_current_node (fst (switch_camera_handler m node_id)) = None).
Proof.
  unfold switch_camera_handler, switch_preview_camera.
  destruct node_id as [id|]; simpl.
  2:{ repeat split; try discriminate; auto.
      - intros H. now elim H.
      - intros (id & node & H & _). discriminate. }
  destruct (Z.eqb_spec id 0) as [->|Hne]; simpl.
  { repeat split; try discriminate; auto.
    - intros H. now elim H.
    - intros (id & node & [= <-] & H & _). now elim H. }
  destruct (dict_get id (nodes m)) as [node|] eqn:Hg; simpl.
  2:{ repeat split; try discriminate; auto.
      - intros [H|[= H]]; [discriminate | contradiction].
      - intros (id' & node & [= <-] & _ & H & _). congruence. }
  destruct (is_online node) eqn:Hon; simpl.
  - repeat split; try discriminate; auto.
    + intros [H|[= H]]; [discriminate | contradiction].
    + intros _. exists id, node. repeat split; auto.
      now apply is_online_true.
  - repeat split; try discriminate; auto.
    + intros [H|[= H]]; [discriminate | contradiction].
    + intros (id' & node' & [= <-] & _ & Hg' & Hst).
      rewrite Hg in Hg'. injection Hg' as <-.
      apply is_online_true in Hst. congruence.
Qed.

Example switch_to_device_zero :
  fst (switch_camera_handler
         (snd (node_online 60 fleet_of_three (message_from 0 true))) (Some 0%Z))
  = {| sw_status := 400; sw_success := false; sw_current_node := None |}.
Proof. reflexivity. Qed.

End WebMore.

(** ** Who is commanded *)

Module DispatchMore.
Import NtpSync Manager NtpSpec ManagerSpec NtpFacts ManagerFacts DispatchFacts.
Import ManagerMore.

Lemma ready_scan_flags (env : Env) (todo : dict Z CameraNode) :
  forall seen m rs w,
    NoDup (keys (seen ++ todo)) ->
    keyed_by_id todo ->
    keys rs = keys seen ->
    exists todo',
      nodes (snd (fst (ready_scan env seen todo m rs w))) = seen ++ todo'
      /\ fst (fst (ready_scan env seen todo m rs w)) = rs ++ map flag_of todo'.
Proof.
  induction todo as [|[k node] rest IH]; intros seen m rs w Hnd Hkeyed Hrs.
  - exists []. simpl. now rewrite !app_nil_r.
  - inversion Hkeyed as [|? ? Hid Hkeyed']; subst. simpl in Hid.
    rewrite keys_app in Hnd. simpl in Hnd.
    pose proof (NoDup_remove_2 _ _ _ Hnd) as Hfresh.
    assert (Hseen : ~ In k (keys seen)).
    { intros Hin. apply Hfresh. apply in_or_app. now left. }
    assert (Hstep : forall r w1,
      exists todo',
        nodes (snd (fst (ready_scan env (seen ++ [(k, set_ready node r)]) rest
                           m (dict_set k r rs) w1)))
        = seen ++ todo'
        /\ fst (fst (ready_scan env (seen ++ [(k, set_ready node r)]) rest
                       m (dict_set k r rs) w1))
           = rs ++ map flag_of todo').
    { intros r w1.
      destruct (IH (seen ++ [(k, set_ready node r)]) m (dict_set k r rs) w1)
        as (todo' & Hn & Hf).
      - rewrite <- app_assoc, keys_app. simpl. exact Hnd.
      - exact Hkeyed'.
      - rewrite keys_dict_set_new by now rewrite Hrs.
        rewrite keys_app, Hrs. reflexivity.
      - exists ((k, set_ready node r) :: todo').
        split; [now rewrite Hn, <- app_assoc|].
        rewrite Hf, dict_set_new by now rewrite Hrs.
        now rewrite <- app_assoc. }
    cbn [ready_scan]. rewrite Hid. destruct (is_online node).
    + destruct (check_node_ready env _ k w) as [r w1]. apply Hstep.
    + apply Hstep.
Qed.

Lemma check_all_nodes_ready_flags (env : Env) (m : CameraManager) (w : World)
  (rs : dict Z bool) (m1 : CameraManager) (w1 : World) :
  well_formed m ->
  check_all_nodes_ready env m w = (rs, m1, w1) ->
  rs = map flag_of (nodes m1).
Proof.
  intros [Hnd Hkeyed _ _] Hc. unfold check_all_nodes_ready in Hc.
  destruct (ready_scan_flags env (nodes m) [] m [] w Hnd Hkeyed eq_refl)
    as (todo' & Hn & Hf).
  rewrite Hc in Hn, Hf. simpl in Hn, Hf. now subst.
Qed.

Lemma ready_nodes_of_flags (d : dict Z CameraNode) :
  ready_nodes_of (map flag_of d)
  = map fst (filter (fun kv => is_ready (snd kv)) d).
Proof.
  unfold ready_nodes_of.
  induction d as [|[k n] d IH]; simpl; [reflexivity|].
  destruct (is_ready n); simpl; now rewrite IH.
Qed.

Lemma no_flag_no_count (m : CameraManager) :
  flagged_ready m = [] -> get_ready_node_count m = 0%nat.
Proof.
  unfold flagged_ready, get_ready_node_count, values.
  induction (nodes m) as [|[k n] d IH]; simpl; [reflexivity|].
  destruct (is_ready n); [discriminate | exact IH].
Qed.

Lemma send_capture_command_true (env : Env) (m : CameraManager) (id : Z)
  (command : CaptureData) (w : World) :
  fst (send_capture_command env m id command w) = true ->
  exists node,
    dict_get id (nodes m) = Some node
    /\ post_accepted
         (fst (http_post_capture env (host_of (ip_address node)) (node_port node)
                 command (wall w))).
Proof.
  unfold send_capture_command, post_accepted.
  destruct (dict_get id (nodes m)) as [node|]; [|discriminate].
  intros H. exists node. split; [reflexivity|].
  destruct (http_post_capture env _ _ _ _) as [r t'].
  destruct r as [|st success]; [discriminate|]. simpl in *.
  destruct (Z.eqb_spec st 200) as [->|Hne]; [|discriminate].
  destruct success as [[|]|]; simpl in H; try discriminate. reflexivity.
Qed.

Lemma send_all_true (env : Env) (m : CameraManager) (command : CaptureData)
  (ids : list Z) :
  forall acc w id,
    dict_get id (fst (send_all env m command ids acc w)) = Some true ->
    dict_get id acc = Some true
    \/ exists node t,
         dict_get id (nodes m) = Some node
         /\ post_accepted
              (fst (http_post_capture env (host_of (ip_address node)) (node_port node)
                      command t)).
Proof.
  induction ids as [|i rest IH]; intros acc w id Hg; simpl in Hg;
    [now left|].
  pose proof (send_capture_command_true env m i command w) as Hs.
  destruct (send_capture_command env m i command w) as [success w1].
  simpl in Hs.
  destruct (IH _ _ _ Hg) as [Hacc|Hpost]; [|now right].
  destruct (Z.eq_dec id i) as [->|Hne].
  - rewrite dict_get_set_same in Hacc. injection Hacc as ->.
    destruct (Hs eq_refl) as (node & Hn & Hok). right. now exists node, (wall w).
  - rewrite dict_get_set_other in Hacc by assumption. now left.
Qed.

(** X17: on a registry the public operations can produce, a trigger
    changes the registry only as its readiness check does.  If it fails, no
    tracked device is flagged ready afterwards.  If it succeeds, the devices
    it commands are exactly the devices flagged ready afterwards, in
    registry order; each of them is tracked and online; a send is reported
    successful only if the POST to the address and port on record for that
    device, carrying the capture time and session id of the result, was
    answered 200 with [success] true; and the formatted capture time of the
    result is the rendering of its capture time.  If it raises, some device
    is flagged ready and no capture command has been sent. *)
Theorem trigger_commands_the_ready_devices (env : Env) (c : NTPClient)
  (m : CameraManager) (w : World) (delay : Q)
  (r : TriggerResult) (c1 : NTPClient) (m1 : CameraManager) (w3 : World) :
  reachable m ->
  trigger_scheduled_capture env c m w delay = (r, c1, m1, w3) ->
  m1 = snd (fst (check_all_nodes_ready env m w))
  /\ match r with
     | TriggerFailure _ _ => get_ready_node_count m1 = 0%nat
     | TriggerSuccess session_id capture_time ready_nodes send_results
         formatted =>
         ready_nodes = flagged_ready m1
         /\ (forall id, In id ready_nodes ->
               exists node,
                 dict_get id (nodes m1) = Some node
                 /\ status node = "online" /\ is_ready node = true)
         /\ (forall id,
               dict_get id send_results = Some true ->
               exists node t,
                 dict_get id (nodes m1) = Some node
                 /\ post_accepted
                      (fst (http_post_capture env (host_of (ip_address node))
                              (node_port node)
                              {| cd_capture_time := capture_time;
                                 cd_session_id := session_id;
                                 cd_delay_seconds := delay |} t)))
         /\ format_time env capture_time = Returned formatted
     | TriggerRaised _ =>
         flagged_ready m1 <> []
         /\ posts_of (io_log w3) = posts_of (io_log w)
     end.
Proof.
  intros Hreach Ht.
  pose proof (reachable_well_formed m Hreach) as Hwf.
  pose proof (reachable_well_formed _ (reach_check env m w Hreach)) as Hwf1.
  pose proof (reachable_nodes_ok _ (reach_check env m w Hreach)) as Hok1.
  destruct (check_all_nodes_ready env m w) as [[rs m1'] w1] eqn:Hc.
  simpl in Hwf1, Hok1 |- *.
  pose proof (check_all_nodes_ready_flags env m w rs m1' w1 Hwf Hc) as Hrs.
  destruct (check_all_nodes_ready_status env m w rs m1' w1 Hc)
    as (Hposts & _).
  assert (Hready : ready_nodes_of rs = flagged_ready m1').
  { rewrite Hrs. apply ready_nodes_of_flags. }
  assert (Honline : forall id, In id (flagged_ready m1') ->
            exists node,
              dict_get id (nodes m1') = Some node
              /\ status node = "online" /\ is_ready node = true).
  { intros id Hin. unfold flagged_ready in Hin. apply in_map_iff in Hin.
    destruct Hin as ([k node] & Hk & Hin). simpl in Hk. subst k.
    apply filter_In in Hin. destruct Hin as [Hin Hflag]. simpl in Hflag.
    exists node. split; [apply In_dict_get; [apply Hwf1 | exact Hin]|].
    split; [|exact Hflag].
    unfold nodes_ok in Hok1. rewrite Forall_forall in Hok1.
    destruct (Hok1 _ Hin) as [_ Hon]. now apply Hon. }
  destruct (ready_nodes_of rs) as [|i rest] eqn:Hlist.
  - unfold trigger_scheduled_capture in Ht. rewrite Hc, Hlist in Ht.
    injection Ht as <- <- <- <-. split; [reflexivity|].
    apply no_flag_no_count. now rewrite <- Hready.
  - assert (Hne : ready_nodes_of rs <> []) by now rewrite Hlist.
    assert (Hflagged : flagged_ready m1' <> []).
    { rewrite <- Hready. discriminate. }
    rewrite (trigger_with_ready_devices env c m w delay rs m1' w1 Hc Hne) in Ht.
    destruct (generate_session_id w1) as [sid|exc].
    2:{ injection Ht as <- <- <- <-. split; [reflexivity|].
        split; assumption. }
    pose proof (schedule_capture_posts env c w1 sid delay) as Hsched.
    pose proof (schedule_capture_returned env c w1 sid delay) as Hret.
    destruct (schedule_capture env c w1 sid delay) as [[[ct|exc] c2] w2];
      cbn [fst snd] in Hsched, Hret.
    2:{ injection Ht as <- <- <- <-. split; [reflexivity|].
        split; [assumption | now rewrite Hsched]. }
    destruct (Hret ct eq_refl) as (_ & text & Htext).
    cbv zeta in Ht. rewrite Htext in Ht.
    pose proof (send_all_true env m1'
                  {| cd_capture_time := ct;
                     cd_session_id := sid;
                     cd_delay_seconds := delay |}
                  (ready_nodes_of rs) [] w2) as Hsend.
    destruct (send_all env m1' _ (ready_nodes_of rs) [] w2) as [results w4].
    injection Ht as <- <- <- <-. split; [reflexivity|].
    split; [now rewrite Hlist|]. split; [|split].
    + intros id Hin. apply Honline. now rewrite <- Hready, <- Hlist.
    + intros id Hg. destruct (Hsend id Hg) as [Hacc|Hpost];
        [discriminate | exact Hpost].
    + exact Htext.
Qed.

Lemma trigger_commands_the_ready_devices_witness :
  snd (fst (trigger_scheduled_capture env_two_ready client_recent
              fleet_of_three (world_at 100) (1 # 2)))
  = snd (fst (check_all_nodes_ready env_two_ready fleet_of_three
                (world_at 100))).
Proof.
  destruct (trigger_commands_the_ready_devices env_two_ready client_recent
              fleet_of_three (world_at 100) (1 # 2)
              (fst (fst (fst (trigger_scheduled_capture env_two_ready
                                client_recent fleet_of_three (world_at 100)
                                (1 # 2)))))
              (snd (fst (fst (trigger_scheduled_capture env_two_ready
                                client_recent fleet_of_three (world_at 100)
                                (1 # 2)))))
              (snd (fst (trigger_scheduled_capture env_two_ready
                           client_recent fleet_of_three (world_at 100)
                           (1 # 2))))
              (snd (trigger_scheduled_capture env_two_ready client_recent
                      fleet_of_three (world_at 100) (1 # 2))))
    as (H & _).
  - apply reachable_fleet_of_three.
  - now destruct (trigger_scheduled_capture env_two_ready client_recent
                    fleet_of_three (world_at 100) (1 # 2)) as [[[? ?] ?] ?].
  - exact H.
Defined.

End DispatchMore.

(** ** The command on the wire *)

Module CommandFacts.
Import NtpSync NtpSpec NtpFacts Node NodeSpec NodeFacts.

Lemma generate_session_id_not_empty (w : World) (session_id : string) :
  generate_session_id w = Returned session_id -> session_id <> "".
Proof.
  unfold generate_session_id.
  destruct (round_double (wall w * 1000)); [|discriminate].
  intros [= <-]. discriminate.
Qed.

Lemma capture_handler_body_of (env : Env) (ns : NodeServer)
  (command : CaptureData) :
  cd_session_id command <> "" ->
  (response_success (fst (fst (capture_handler env ns (body_of command))))
   = true
   <-> Node.is_ready ns = true /\ ~ cd_capture_time command == 0
       /\ exists text,
            format_time env (cd_capture_time command) = Returned text)
  /\ (Node.is_ready ns = true /\ ~ cd_capture_time command == 0 ->
      capture_handler env ns (body_of command)
      = (scheduled_reply env ns (cd_capture_time command)
           (cd_session_id command),
         with_captures ns
           (dict_set (cd_session_id command)
              (cd_capture_time command, cd_session_id command)
              (scheduled_captures ns)),
         Some (cd_capture_time command, cd_session_id command))).
Proof.
  intros Hsid. unfold capture_handler, body_of, scheduled_reply.
  cbn [rq_capture_time rq_session_id].
  assert (Hs : Manager.truthy_string (Some (cd_session_id command)) = true).
  { simpl. apply negb_true_iff. now apply String.eqb_neq. }
  rewrite Hs.
  pose proof (truthy_time_Some (cd_capture_time command)) as Ht.
  destruct (truthy_time (Some (cd_capture_time command))); cbn [negb orb].
  - destruct (Node.is_ready ns); cbn [negb].
    + destruct (format_time env (cd_capture_time command)) as [text|exc];
        cbn [fst response_success].
      * split; [|reflexivity]. split; [|reflexivity].
        intros _. split; [reflexivity|]. split; [now apply Ht | eauto].
      * split; [|reflexivity]. split; [discriminate|].
        intros (_ & _ & text & H). discriminate H.
    + cbn [fst response_success]. split.
      * split; [discriminate|]. intros [H _]. discriminate H.
      * intros [H _]. discriminate H.
  - cbn [fst response_success]. split.
    + split; [discriminate|]. intros (_ & H & _). apply Ht in H.
      discriminate H.
    + intros [_ H]. apply Ht in H. discriminate H.
Qed.

(** X18: the session id of a successful trigger is never empty, so the
    command it posts passes the device's check of [session_id].  A device
    with the calendar of the registry answers it with success exactly when
    its camera is ready and the capture time is not 0, the registry having
    rendered that capture time itself; a device with any calendar answers
    success exactly when, in addition, its own calendar can render the
    capture time.  Whenever the camera is ready and the capture time is not
    0 (so whenever the device answers success), the device has filed the
    wait under the session id of the result with the capture time of the
    result. *)
Theorem triggered_command_is_accepted (env : Env) (c : NTPClient)
  (m : Manager.CameraManager) (w : World) (delay : Q) :
  match fst (fst (fst (Manager.trigger_scheduled_capture env c m w delay))) with
  | Manager.TriggerFailure _ _ => True
  | Manager.TriggerRaised _ => True
  | Manager.TriggerSuccess session_id capture_time _ _ _ =>
      let body :=
        body_of {| cd_capture_time := capture_time;
                   cd_session_id := session_id;
                   cd_delay_seconds := delay |} in
      session_id <> ""
      /\ (forall ns,
            (response_success (fst (fst (capture_handler env ns body)))
             = true
             <-> Node.is_ready ns = true /\ ~ capture_time == 0)
            /\ (response_success (fst (fst (capture_handler env ns body)))
                = true ->
                dict_get session_id
                  (scheduled_captures
                     (snd (fst (capture_handler env ns body))))
                = Some (capture_time, session_id)))
      /\ (forall device_env ns,
            (response_success
               (fst (fst (capture_handler device_env ns body))) = true
             <-> Node.is_ready ns = true /\ ~ capture_time == 0
                 /\ exists text,
                      format_time device_env capture_time = Returned text)
            /\ (Node.is_ready ns = true /\ ~ capture_time == 0 ->
                dict_get session_id
                  (scheduled_captures
                     (snd (fst (capture_handler device_env ns body))))
                = Some (capture_time, session_id)
                /\ snd (capture_handler device_env ns body)
                   = Some (capture_time, session_id)))
  end.
Proof.
  unfold Manager.trigger_scheduled_capture.
  destruct (Manager.check_all_nodes_ready env m w) as [[rs m1] w1].
  destruct (Manager.ready_nodes_of rs) as [|i rest]; [exact I|].
  destruct (generate_session_id w1) as [sid|exc] eqn:Hsid; [|exact I].
  pose proof (schedule_capture_returned env c w1 sid delay) as Hret.
  destruct (schedule_capture env c w1 sid delay) as [[[ct|exc] c1] w2];
    [|exact I].
  cbn [fst snd] in Hret. destruct (Hret ct eq_refl) as (_ & text & Htext).
  destruct (Manager.send_all env m1 _ (i :: rest) [] w2) as [results w3].
  rewrite Htext. cbn [fst]. cbv zeta.
  pose proof (generate_session_id_not_empty w1 sid Hsid) as Hne.
  assert (Hgen : forall device_env ns,
             (response_success
                (fst (fst (capture_handler device_env ns
                             (body_of {| cd_capture_time := ct;
                                         cd_session_id := sid;
                                         cd_delay_seconds := delay |}))))
              = true
              <-> Node.is_ready ns = true /\ ~ ct == 0
                  /\ exists text0, format_time device_env ct = Returned text0)
             /\ (Node.is_ready ns = true /\ ~ ct == 0 ->
                 dict_get sid
                   (scheduled_captures
                      (snd (fst (capture_handler device_env ns
                                   (body_of {| cd_capture_time := ct;
                                               cd_session_id := sid;
                                               cd_delay_seconds := delay |})))))
                 = Some (ct, sid)
                 /\ snd (capture_handler device_env ns
                           (body_of {| cd_capture_time := ct;
                                       cd_session_id := sid;
                                       cd_delay_seconds := delay |}))
                    = Some (ct, sid))).
  { intros device_env ns.
    destruct (capture_handler_body_of device_env ns
                {| cd_capture_time := ct; cd_session_id := sid;
                   cd_delay_seconds := delay |} Hne) as [Hiff Hacc].
    cbn [cd_capture_time cd_session_id] in Hiff, Hacc.
    split; [exact Hiff|].
    intros Hok. rewrite (Hacc Hok).
    cbn [fst snd scheduled_captures with_captures].
    split; [apply dict_get_set_same | reflexivity]. }
  split; [exact Hne|]. split; [|exact Hgen].
  intros ns. destruct (Hgen env ns) as [Hiff Hfiled]. split.
  - rewrite Hiff. split.
    + intros (Hr & Hct & _). now split.
    + intros [Hr Hct]. split; [exact Hr|]. split; [exact Hct | eauto].
  - intros Hok. apply Hiff in Hok. destruct Hok as (Hr & Hct & _).
    now apply Hfiled.
Qed.

Example triggered_command_on_a_ready_device :
  match fst (fst (fst (Manager.trigger_scheduled_capture
                         ManagerSpec.env_two_ready
                         client_recent ManagerSpec.fleet_of_three
                         (world_at 100) (1 # 2)))) with
  | Manager.TriggerSuccess session_id capture_time _ _ _ =>
      fst (fst (capture_handler ManagerSpec.env_two_ready node_ready
                  (body_of {| cd_capture_time := capture_time;
                              cd_session_id := session_id;
                              cd_delay_seconds := 1 # 2 |})))
      = Accepted session_id capture_time (Some 1%Z)
  | _ => False
  end.
Proof. vm_compute. reflexivity. Qed.

End CommandFacts.
